(** * Ethereum staking rewards calculator: reward and penalty arithmetic

    A shallow embedding of the calculation engine of the
    eth-rewards-calculator repository
    ([internal/config], [internal/types], [internal/calculator] and
    [pkg/rewards]) and of the pure parts of its command-line front end,
    together with the properties its specification states and further
    properties of the code.

    Conventions.
    - A Go [uint64] is a [Z] in [0, 2^64); every addition, subtraction and
      multiplication is reduced modulo [2^64] where the source performs it.
    - A Go [float64] is an IEEE-754 binary64 value, [spec_float] at precision
      53 and maximal exponent 1024, with the operations of the Standard
      Library's [SpecFloat]; every operation is rounded on its own (round to
      nearest, ties to even), as the Go compiler does when it does not fuse
      a multiplication with an addition.
    - A Go run-time panic (integer division by zero, index out of range) is
      the [Panic] outcome of the [result] type. *)

From Stdlib Require Import ZArith Lia List String Bool.
From Stdlib Require Import QArith_base Qfield.
From Stdlib Require Import SpecFloat.
From Stdlib Require DecimalString DecimalN DecimalPos.
Import ListNotations.
Open Scope Z_scope.

(** ** Outcomes of a Go function call *)

Inductive fault : Type :=
| DivideByZero      (* runtime error: integer divide by zero *)
| IndexOutOfRange   (* runtime error: index out of range *)
| Unfinished.       (* a loop of the model used up its iteration bound *)

Inductive result (A : Type) : Type :=
| Ok (a : A)
| Panic (f : fault).

Arguments Ok {A} a.
Arguments Panic {A} f.

Definition bind {A B : Type} (r : result A) (k : A -> result B) : result B :=
  match r with
  | Ok a => k a
  | Panic f => Panic f
  end.

Notation "x <- r ;; k" := (bind r (fun x => k))
  (at level 61, r at next level, right associativity).

(** ** 64-bit unsigned arithmetic *)

Module U64.

Definition modulus : Z := 2 ^ 64.

Definition wrap (z : Z) : Z := z mod modulus.

Definition add (a b : Z) : Z := wrap (a + b).
Definition sub (a b : Z) : Z := wrap (a - b).
Definition mul (a b : Z) : Z := wrap (a * b).

(** Division by a variable: Go panics when the divisor is zero. *)
Definition div (a b : Z) : result Z :=
  if b =? 0 then Panic DivideByZero else Ok (a / b).

Definition in_range (z : Z) : Prop := 0 <= z < modulus.

End U64.

(** ** IEEE-754 binary64 *)

Module Float64.

Definition prec : Z := 53.
Definition emax : Z := 1024.

Definition float64 : Type := spec_float.

Definition add : float64 -> float64 -> float64 := SFadd prec emax.
Definition sub : float64 -> float64 -> float64 := SFsub prec emax.
Definition mul : float64 -> float64 -> float64 := SFmul prec emax.
Definition div : float64 -> float64 -> float64 := SFdiv prec emax.
Definition sqrt : float64 -> float64 := SFsqrt prec emax.
Definition ltb : float64 -> float64 -> bool := SFltb.
Definition eqb : float64 -> float64 -> bool := SFeqb.

(** [float64(n)] for an integer [n]: the nearest binary64 value. *)
Definition of_Z (n : Z) : float64 := binary_normalize prec emax n 0 false.

(** A decimal literal [num/den] (for instance [0.3333] is [lit 3333 10000]):
    Go converts the exact constant to the nearest binary64 value, which is
    the correctly rounded quotient of the two exactly representable
    integers. *)
Definition lit (num den : Z) : float64 := div (of_Z num) (of_Z den).

(** Go leaves the result implementation-dependent when a float64 that
    [uint64] cannot represent is converted (negative, [2^64] or more, not a
    number). The model takes [2^63], what amd64 gives for [2^64] or more; no
    property below depends on the choice. *)
Definition to_uint64_unrepresentable : Z := 2 ^ 63.

(** [uint64(f)]: truncation toward zero. *)
Definition to_uint64 (f : float64) : Z :=
  match f with
  | S754_zero _ => 0
  | S754_finite s m e =>
      let t := if 0 <=? e then Zpos m * 2 ^ e else Zpos m / 2 ^ (- e) in
      if t =? 0 then 0
      else if s then to_uint64_unrepresentable
      else if t <? U64.modulus then t
      else to_uint64_unrepresentable
  | _ => to_uint64_unrepresentable
  end.

(** The value of a float in units of [2^-1074], the smallest positive
    binary64 number: an integer for every finite float. *)
Definition scaled_value (f : float64) : Z :=
  match f with
  | S754_finite false m e => Zpos m * 2 ^ (e + 1074)
  | S754_finite true m e => - (Zpos m * 2 ^ (e + 1074))
  | _ => 0
  end.

(** 1.0 in the same unit. *)
Definition scaled_one : Z := 2 ^ 1074.

End Float64.

(** ** internal/config: protocol constants and fork configuration *)

Module config.

Definition BASE_REWARD_FACTOR : Z := 64.
Definition BASE_REWARDS_PER_EPOCH : Z := 4.
Definition PROPOSER_REWARD_QUOTIENT : Z := 8.
Definition WHISTLEBLOWER_REWARD_QUOTIENT : Z := 512.
Definition MIN_SLASHING_PENALTY_QUOTIENT : Z := 128.
Definition PROPORTIONAL_SLASHING_MULTIPLIER : Z := 1.

Definition INACTIVITY_PENALTY_QUOTIENT_ALTAIR : Z := 50331648.
Definition MIN_SLASHING_PENALTY_QUOTIENT_ALTAIR : Z := 64.
Definition PROPORTIONAL_SLASHING_MULTIPLIER_ALTAIR : Z := 2.

Definition INACTIVITY_PENALTY_QUOTIENT_BELLATRIX : Z := 33554432.
Definition MIN_SLASHING_PENALTY_QUOTIENT_BELLATRIX : Z := 32.
Definition PROPORTIONAL_SLASHING_MULTIPLIER_BELLATRIX : Z := 3.

Definition INACTIVITY_PENALTY_QUOTIENT : Z := 67108864.
Definition INACTIVITY_SCORE_BIAS : Z := 4.
Definition INACTIVITY_SCORE_RECOVERY_RATE : Z := 16.

Definition TIMELY_SOURCE_WEIGHT : Z := 14.
Definition TIMELY_TARGET_WEIGHT : Z := 26.
Definition TIMELY_HEAD_WEIGHT : Z := 14.
Definition SYNC_REWARD_WEIGHT : Z := 2.
Definition PROPOSER_WEIGHT : Z := 8.
Definition WEIGHT_DENOMINATOR : Z := 64.

Definition EFFECTIVE_BALANCE_INCREMENT : Z := 1000000000.
Definition MAX_EFFECTIVE_BALANCE : Z := 32000000000.
Definition EJECTION_BALANCE : Z := 16000000000.

Definition SLOTS_PER_EPOCH : Z := 32.
Definition EPOCHS_PER_YEAR : Z := 82180.
Definition EPOCHS_PER_DAY : Z := 225.
Definition MIN_ATTESTATION_INCLUSION_DELAY : Z := 1.

Definition PHASE0_FORK_VERSION : string := "0x00000000".
Definition ALTAIR_FORK_VERSION : string := "0x01000000".
Definition BELLATRIX_FORK_VERSION : string := "0x02000000".

Record ForkConfig : Type := {
  Version : string;
  InactivityPenaltyQuotient : Z;
  MinSlashingPenaltyQuotient : Z;
  ProportionalSlashingMultiplier : Z
}.

(** The three [case] arms of [GetForkConfig]; [None] is the [default] arm. *)
Definition fork_case (fork : string) : option ForkConfig :=
  if String.eqb fork "phase0" then
    Some {| Version := PHASE0_FORK_VERSION;
            InactivityPenaltyQuotient := INACTIVITY_PENALTY_QUOTIENT;
            MinSlashingPenaltyQuotient := MIN_SLASHING_PENALTY_QUOTIENT;
            ProportionalSlashingMultiplier := PROPORTIONAL_SLASHING_MULTIPLIER |}
  else if String.eqb fork "altair" then
    Some {| Version := ALTAIR_FORK_VERSION;
            InactivityPenaltyQuotient := INACTIVITY_PENALTY_QUOTIENT_ALTAIR;
            MinSlashingPenaltyQuotient := MIN_SLASHING_PENALTY_QUOTIENT_ALTAIR;
            ProportionalSlashingMultiplier := PROPORTIONAL_SLASHING_MULTIPLIER_ALTAIR |}
  else if String.eqb fork "bellatrix" || String.eqb fork "merge" then
    Some {| Version := BELLATRIX_FORK_VERSION;
            InactivityPenaltyQuotient := INACTIVITY_PENALTY_QUOTIENT_BELLATRIX;
            MinSlashingPenaltyQuotient := MIN_SLASHING_PENALTY_QUOTIENT_BELLATRIX;
            ProportionalSlashingMultiplier := PROPORTIONAL_SLASHING_MULTIPLIER_BELLATRIX |}
  else None.

Definition zero_ForkConfig : ForkConfig :=
  {| Version := ""; InactivityPenaltyQuotient := 0;
     MinSlashingPenaltyQuotient := 0; ProportionalSlashingMultiplier := 0 |}.

(** [GetForkConfig]: the [default] arm returns [GetForkConfig("bellatrix")],
    a second pass through the [switch] that ends in the bellatrix arm. *)
Definition GetForkConfig (fork : string) : ForkConfig :=
  match fork_case fork with
  | Some c => c
  | None =>
      match fork_case "bellatrix" with
      | Some c => c
      | None => zero_ForkConfig
      end
  end.

End config.

(** ** internal/types: the data model *)

Module types.

(** [Pubkey] and [WithdrawalCredentials], two byte arrays no calculation
    reads, are left out. *)
Record Validator : Type := {
  EffectiveBalance : Z;
  Slashed : bool;
  ActivationEligibilityEpoch : Z;
  ActivationEpoch : Z;
  ExitEpoch : Z;
  WithdrawableEpoch : Z;
  InactivityScore : Z
}.

Record NetworkState : Type := {
  Validators : list Validator;
  TotalActiveBalance : Z;
  CurrentEpoch : Z;
  FinalizedEpoch : Z;
  JustifiedEpoch : Z;
  CurrentFork : string;
  SlashingsPerEpoch : list Z
}.

(** The fields [CalculateRewards] fills in the current engine. *)
Record RewardResults : Type := {
  ValidatorCount : Z;
  TotalStaked : Z;
  ParticipationRate : Float64.float64;
  SqrtTotalBalance : Z;
  BaseRewardPerEpoch : Z;
  SourceReward : Z;
  TargetReward : Z;
  HeadReward : Z;
  AttestationRewardPerEpoch : Z;
  ProposerProbability : Float64.float64;
  ExpectedProposalsPerYear : Float64.float64;
  AvgProposerRewardPerBlock : Float64.float64;
  ProposerRewardPerEpoch : Float64.float64;
  EstimatedAttestationsPerBlock : Float64.float64;
  AttestationInclusionReward : Z;
  InclusionEffectivenessRate : Float64.float64;
  AttestationRewardsAnnual : Float64.float64;
  ProposerRewardsAnnual : Float64.float64;
  TotalAnnualRewards : Float64.float64;
  APY : Float64.float64;
  DailyRewards : Float64.float64;
  WeeklyRewards : Float64.float64;
  MonthlyRewards : Float64.float64;
  ParticipationMultiplier : Float64.float64;
  BaseAPY : Float64.float64;
  EffectiveAPY : Float64.float64;
  InactivityLeakActive : bool;
  NetworkHealthWarning : string
}.

Record SlashingResults : Type := {
  InitialPenalty : Z;
  ProportionalPenalty : Z;
  TotalPenalty : Z;
  PercentageOfStake : Float64.float64;
  WhistleblowerReward : Z;
  ProposerReward : Z
}.

End types.

(** Indexing a slice, [s[i]] with [i] an [int]. *)
Definition index {A : Type} (l : list A) (i : Z) : result A :=
  if i <? 0 then Panic IndexOutOfRange
  else match nth_error l (Z.to_nat i) with
       | Some a => Ok a
       | None => Panic IndexOutOfRange
       end.

(** ** internal/calculator: the reward and penalty engine *)

Module calculator.

Import config types.

(** [min] of the package, on [uint64]. *)
Definition min (a b : Z) : Z := if a <? b then a else b.

(** *** Integer square root *)

(** The Newton iteration of [IntegerSquareRoot]:
    [for { x1 := (x + n/x) / 2; if x1 >= x { return x }; x = x1 }]. *)
Fixpoint newton (fuel : nat) (n x : Z) : result Z :=
  match fuel with
  | O => Panic Unfinished
  | S fuel' =>
      q <- U64.div n x ;;
      let x1 := U64.add x q / 2 in
      if x <=? x1 then Ok x else newton fuel' n x1
  end.

(** The starting point: [uint64(math.Sqrt(float64(n)))]. *)
Definition sqrt_guess (n : Z) : Z :=
  Float64.to_uint64 (Float64.sqrt (Float64.of_Z n)).

(** Iteration bound of the model. The guess is never below the root and at
    most one above it, so the loop returns within two rounds (lemma
    [newton_from_guess]); the bound is never reached. *)
Definition newton_fuel : nat := 64.

Definition IntegerSquareRoot (n : Z) : result Z :=
  if n =? 0 then Ok 0 else newton newton_fuel n (sqrt_guess n).

(** *** Base reward (current formula, without [BASE_REWARDS_PER_EPOCH]) *)

Definition GetBaseReward (state : NetworkState) (validatorIndex : Z) : result Z :=
  let totalBalance := TotalActiveBalance state in
  v <- index (Validators state) validatorIndex ;;
  let effectiveBalance := EffectiveBalance v in
  s <- IntegerSquareRoot totalBalance ;;
  U64.div (U64.mul effectiveBalance BASE_REWARD_FACTOR) s.

Definition GetBaseRewardPerIncrement (state : NetworkState) : result Z :=
  s <- IntegerSquareRoot (TotalActiveBalance state) ;;
  U64.div (EFFECTIVE_BALANCE_INCREMENT * BASE_REWARD_FACTOR) s.

(** The legacy formula of the older engine file, which divides once more by
    [BASE_REWARDS_PER_EPOCH]. *)
Definition GetBaseReward_legacy (state : NetworkState) (validatorIndex : Z) : result Z :=
  let totalBalance := TotalActiveBalance state in
  v <- index (Validators state) validatorIndex ;;
  let effectiveBalance := EffectiveBalance v in
  s <- IntegerSquareRoot totalBalance ;;
  q <- U64.div (U64.mul effectiveBalance BASE_REWARD_FACTOR) s ;;
  Ok (q / BASE_REWARDS_PER_EPOCH).

(** *** Attestation reward with inclusion delay *)

Definition component (baseReward weight : Z) : Z :=
  U64.mul baseReward weight / WEIGHT_DENOMINATOR.

Definition CalculateAttestationReward (state : NetworkState) (validatorIndex : Z)
    (correctSource correctTarget correctHead : bool) (inclusionDelay : Z) : result Z :=
  baseReward <- GetBaseReward state validatorIndex ;;
  let reward := 0 in
  let reward :=
    if correctSource then U64.add reward (component baseReward TIMELY_SOURCE_WEIGHT)
    else reward in
  let reward :=
    if correctTarget then U64.add reward (component baseReward TIMELY_TARGET_WEIGHT)
    else reward in
  let reward :=
    if correctHead then U64.add reward (component baseReward TIMELY_HEAD_WEIGHT)
    else reward in
  if (MIN_ATTESTATION_INCLUSION_DELAY <? inclusionDelay) && (0 <? reward) then
    U64.div (U64.mul reward PROPOSER_REWARD_QUOTIENT)
            (U64.sub (U64.add PROPOSER_REWARD_QUOTIENT inclusionDelay)
                     MIN_ATTESTATION_INCLUSION_DELAY)
  else Ok reward.

(** *** Proposer reward through attestation inclusion *)

Definition EstimateAttestationsPerBlock (state : NetworkState) : Float64.float64 :=
  let validatorCount := Float64.of_Z (Z.of_nat (List.length (Validators state))) in
  let maxIncludableRate := Float64.lit 6 10 in
  let attestationsPerSlot := Float64.div validatorCount (Float64.of_Z SLOTS_PER_EPOCH) in
  let slotsToInclude := Float64.of_Z 8 in
  Float64.mul (Float64.mul attestationsPerSlot slotsToInclude) maxIncludableRate.

Definition CalculateAttestationInclusionReward (state : NetworkState)
    (participationRate : Float64.float64) : result Z :=
  baseRewardIncrement <- GetBaseRewardPerIncrement state ;;
  let estimatedAttestations := EstimateAttestationsPerBlock state in
  let avgComponentsPerAttestation := Float64.lit 28 10 in
  let effectiveAttestations := Float64.mul estimatedAttestations participationRate in
  let inclusionEffectiveness := Float64.lit 9 10 in
  let finalAttestations := Float64.mul effectiveAttestations inclusionEffectiveness in
  let proposerRewardPerComponent := baseRewardIncrement / PROPOSER_REWARD_QUOTIENT in
  Ok (U64.mul (Float64.to_uint64 (Float64.mul finalAttestations avgComponentsPerAttestation))
              proposerRewardPerComponent).

Definition CalculateInclusionEffectivenessRate (participationRate : Float64.float64)
    : Float64.float64 :=
  let baseEffectiveness := Float64.lit 9 10 in
  let participationAdjustment :=
    Float64.add (Float64.lit 95 100)
      (Float64.mul (Float64.sub participationRate (Float64.lit 95 100)) (Float64.lit 5 10)) in
  Float64.mul baseEffectiveness participationAdjustment.

(** *** Network health messages *)

Definition warning_critical : string :=
  "CRITICAL: Network participation below 33.33% - chain cannot finalize".
Definition warning_leak : string :=
  "WARNING: Network participation below 66.67% - inactivity leak active".
Definition warning_caution : string :=
  "CAUTION: Network participation below 80% - reduced security".

(** The thresholds [0.3333], [0.6667] and [0.8] of [CalculateRewards]. *)
Definition threshold_critical : Float64.float64 := Float64.lit 3333 10000.
Definition threshold_leak : Float64.float64 := Float64.lit 6667 10000.
Definition threshold_caution : Float64.float64 := Float64.lit 8 10.

Definition networkHealthWarning (participationRate : Float64.float64) : string :=
  if Float64.ltb participationRate threshold_critical then warning_critical
  else if Float64.ltb participationRate threshold_leak then warning_leak
  else if Float64.ltb participationRate threshold_caution then warning_caution
  else "".

(** *** CalculateRewards (current engine) *)

Definition CalculateRewards (state : NetworkState) (participationRate : Float64.float64)
    : result RewardResults :=
  let validatorCount := Z.of_nat (List.length (Validators state)) in
  baseReward <- GetBaseReward state 0 ;;
  sqrtTotal <- IntegerSquareRoot (TotalActiveBalance state) ;;
  let sourceReward := component baseReward TIMELY_SOURCE_WEIGHT in
  let targetReward := component baseReward TIMELY_TARGET_WEIGHT in
  let headReward := component baseReward TIMELY_HEAD_WEIGHT in
  let attestationReward := U64.add (U64.add sourceReward targetReward) headReward in
  let epochsPerYear := Float64.of_Z EPOCHS_PER_YEAR in
  let maxEffectiveBalance := Float64.of_Z MAX_EFFECTIVE_BALANCE in
  let proposerProbability := Float64.div (Float64.of_Z 1) (Float64.of_Z validatorCount) in
  let proposalsPerEpoch := proposerProbability in
  let proposalsPerYear := Float64.mul proposalsPerEpoch epochsPerYear in
  attestationInclusionReward <- CalculateAttestationInclusionReward state participationRate ;;
  let estimatedAttestationsPerBlock := EstimateAttestationsPerBlock state in
  let inclusionEffectivenessRate := CalculateInclusionEffectivenessRate participationRate in
  let avgProposerReward := Float64.of_Z attestationInclusionReward in
  let proposerRewardPerEpoch := Float64.mul avgProposerReward proposerProbability in
  let baseAttestationAnnual := Float64.mul (Float64.of_Z attestationReward) epochsPerYear in
  let baseProposerAnnual := Float64.mul proposerRewardPerEpoch epochsPerYear in
  let baseTotalAnnual := Float64.add baseAttestationAnnual baseProposerAnnual in
  let baseAPY :=
    Float64.mul (Float64.div baseTotalAnnual maxEffectiveBalance) (Float64.of_Z 100) in
  let participationMultiplier := Float64.div (Float64.of_Z 1) participationRate in
  let attestationAnnual := Float64.mul baseAttestationAnnual participationMultiplier in
  let proposerAnnual := Float64.mul baseProposerAnnual participationMultiplier in
  let totalAnnual := Float64.add attestationAnnual proposerAnnual in
  let effectiveAPY :=
    Float64.mul (Float64.div totalAnnual maxEffectiveBalance) (Float64.of_Z 100) in
  let inactivityLeakActive := Float64.ltb participationRate threshold_leak in
  Ok {| ValidatorCount := validatorCount;
        TotalStaked := TotalActiveBalance state;
        ParticipationRate := participationRate;
        SqrtTotalBalance := sqrtTotal;
        BaseRewardPerEpoch := baseReward;
        SourceReward := sourceReward;
        TargetReward := targetReward;
        HeadReward := headReward;
        AttestationRewardPerEpoch := attestationReward;
        ProposerProbability := proposerProbability;
        ExpectedProposalsPerYear := proposalsPerYear;
        AvgProposerRewardPerBlock := avgProposerReward;
        ProposerRewardPerEpoch := proposerRewardPerEpoch;
        EstimatedAttestationsPerBlock := estimatedAttestationsPerBlock;
        AttestationInclusionReward := attestationInclusionReward;
        InclusionEffectivenessRate := inclusionEffectivenessRate;
        AttestationRewardsAnnual := attestationAnnual;
        ProposerRewardsAnnual := proposerAnnual;
        TotalAnnualRewards := totalAnnual;
        APY := effectiveAPY;
        DailyRewards := Float64.div totalAnnual (Float64.lit 36525 100);
        WeeklyRewards := Float64.div totalAnnual (Float64.lit 5218 100);
        MonthlyRewards := Float64.div totalAnnual (Float64.of_Z 12);
        ParticipationMultiplier := participationMultiplier;
        BaseAPY := baseAPY;
        EffectiveAPY := effectiveAPY;
        InactivityLeakActive := inactivityLeakActive;
        NetworkHealthWarning := networkHealthWarning participationRate |}.

(** *** Penalties *)

Definition GetInactivityPenalty (state : NetworkState) (validatorIndex : Z) : result Z :=
  validator <- index (Validators state) validatorIndex ;;
  if CurrentEpoch state <=? U64.add (FinalizedEpoch state) MIN_ATTESTATION_INCLUSION_DELAY
  then Ok 0
  else
    let forkConfig := GetForkConfig (CurrentFork state) in
    let penaltyNumerator := U64.mul (EffectiveBalance validator) (InactivityScore validator) in
    let penaltyDenominator :=
      U64.mul INACTIVITY_SCORE_BIAS (InactivityPenaltyQuotient forkConfig) in
    U64.div penaltyNumerator penaltyDenominator.

Definition CalculateInactivityScore (previousScore : Z) (isActive isFinalized : bool) : Z :=
  if isFinalized then
    if 0 <? previousScore then U64.sub previousScore (min 1 previousScore)
    else 0
  else if negb isActive then U64.add previousScore INACTIVITY_SCORE_BIAS
  else U64.add previousScore 1.

Definition CalculateSlashingPenalties (state : NetworkState) (validatorIndex : Z)
    (totalSlashedBalance : Z) : result SlashingResults :=
  validator <- index (Validators state) validatorIndex ;;
  let forkConfig := GetForkConfig (CurrentFork state) in
  initialPenalty <-
    U64.div (EffectiveBalance validator) (MinSlashingPenaltyQuotient forkConfig) ;;
  proportionalPenalty <-
    U64.div
      (U64.mul (EffectiveBalance validator)
         (min (U64.mul totalSlashedBalance (ProportionalSlashingMultiplier forkConfig))
              (TotalActiveBalance state)))
      (TotalActiveBalance state) ;;
  let totalPenalty := U64.add initialPenalty proportionalPenalty in
  let whistleblowerReward := EffectiveBalance validator / WHISTLEBLOWER_REWARD_QUOTIENT in
  let proposerReward := whistleblowerReward / PROPOSER_REWARD_QUOTIENT in
  Ok {| InitialPenalty := initialPenalty;
        ProportionalPenalty := proportionalPenalty;
        TotalPenalty := totalPenalty;
        PercentageOfStake :=
          Float64.mul
            (Float64.div (Float64.of_Z totalPenalty)
                         (Float64.of_Z (EffectiveBalance validator)))
            (Float64.of_Z 100);
        WhistleblowerReward := whistleblowerReward;
        ProposerReward := proposerReward |}.

End calculator.

(** ** pkg/rewards: the stand-alone calculator *)

Module rewards.

(** Modelled from the spec: the constants file of package [rewards] is not
    among the sources; the spec gives one protocol maximum for the effective
    balance, 32_000_000_000 minimal units. *)
Definition MAX_EFFECTIVE_BALANCE : Z := 32000000000.

(** Modelled from the spec: the integer square root of package [rewards] is
    not among the sources; its contract is [floor(sqrt(n))], exact for every
    input, 0 at 0. *)
Definition IntegerSquareRoot (n : Z) : Z := Z.sqrt n.

Record Calculator : Type := {
  BaseRewardFactor : Z;
  TotalActiveBalance : Z
}.

Definition CalculateBaseReward (c : Calculator) (effectiveBalance : Z) : result Z :=
  let effectiveBalance :=
    if MAX_EFFECTIVE_BALANCE <? effectiveBalance then MAX_EFFECTIVE_BALANCE
    else effectiveBalance in
  U64.div (U64.mul effectiveBalance (BaseRewardFactor c))
          (IntegerSquareRoot (TotalActiveBalance c)).

End rewards.

(** ** The participation economics of [CalculateRewards], over any arithmetic

    The block of [CalculateRewards] that turns the two baseline annual
    rewards and the participation rate into the base APY, the multiplier
    and the effective APY, written once over the four operations it uses.
    At [float64_arithmetic] it is the code (lemma
    [CalculateRewards_economics]); at [exact_arithmetic] it is the same
    formula over the rationals. *)

Module economics.

Record arithmetic (F : Type) : Type := {
  plus : F -> F -> F;
  times : F -> F -> F;
  quot : F -> F -> F;
  of_int : Z -> F
}.

Arguments plus {F} _ _ _.
Arguments times {F} _ _ _.
Arguments quot {F} _ _ _.
Arguments of_int {F} _ _.

Definition float64_arithmetic : arithmetic Float64.float64 :=
  {| plus := Float64.add; times := Float64.mul; quot := Float64.div;
     of_int := Float64.of_Z |}.

Definition exact_arithmetic : arithmetic Q :=
  {| plus := Qplus; times := Qmult; quot := Qdiv; of_int := inject_Z |}.

Record Economics (F : Type) : Type := {
  baseAPY : F;
  participationMultiplier : F;
  attestationAnnual : F;
  proposerAnnual : F;
  totalAnnual : F;
  effectiveAPY : F
}.

Arguments baseAPY {F} _.
Arguments participationMultiplier {F} _.
Arguments attestationAnnual {F} _.
Arguments proposerAnnual {F} _.
Arguments totalAnnual {F} _.
Arguments effectiveAPY {F} _.

Section Block.

Context {F : Type} (A : arithmetic F).

Definition participation_economics
    (baseAttestationAnnual baseProposerAnnual participationRate : F) : Economics F :=
  let maxEffectiveBalance := of_int A config.MAX_EFFECTIVE_BALANCE in
  let baseTotalAnnual := plus A baseAttestationAnnual baseProposerAnnual in
  let baseAPY := times A (quot A baseTotalAnnual maxEffectiveBalance) (of_int A 100) in
  let participationMultiplier := quot A (of_int A 1) participationRate in
  let attestationAnnual := times A baseAttestationAnnual participationMultiplier in
  let proposerAnnual := times A baseProposerAnnual participationMultiplier in
  let totalAnnual := plus A attestationAnnual proposerAnnual in
  let effectiveAPY := times A (quot A totalAnnual maxEffectiveBalance) (of_int A 100) in
  {| baseAPY := baseAPY;
     participationMultiplier := participationMultiplier;
     attestationAnnual := attestationAnnual;
     proposerAnnual := proposerAnnual;
     totalAnnual := totalAnnual;
     effectiveAPY := effectiveAPY |}.

End Block.

End economics.

(** ** Sample states *)

Import config types calculator.

Definition mkValidator (effectiveBalance inactivityScore : Z) : Validator :=
  {| EffectiveBalance := effectiveBalance; Slashed := false;
     ActivationEligibilityEpoch := 0; ActivationEpoch := 0; ExitEpoch := 0;
     WithdrawableEpoch := 0; InactivityScore := inactivityScore |}.

(** [createNetworkState] of the command-line front end (no inactivity):
    [validators] validators at the maximal effective balance. *)
Definition createNetworkState (validators : nat) : NetworkState :=
  {| Validators := repeat (mkValidator MAX_EFFECTIVE_BALANCE 0) validators;
     TotalActiveBalance := U64.mul (Z.of_nat validators) MAX_EFFECTIVE_BALANCE;
     CurrentEpoch := 1000; FinalizedEpoch := 998; JustifiedEpoch := 0;
     CurrentFork := ""; SlashingsPerEpoch := [] |}.

(** One validator of the given balance and score in a network of the given
    total balance, epochs and fork. *)
Definition singleValidatorState (effectiveBalance inactivityScore total : Z)
    (current finalized : Z) (fork : string) : NetworkState :=
  {| Validators := [mkValidator effectiveBalance inactivityScore];
     TotalActiveBalance := total;
     CurrentEpoch := current; FinalizedEpoch := finalized; JustifiedEpoch := 0;
     CurrentFork := fork; SlashingsPerEpoch := [] |}.

(** A validator whose stored effective balance is twice the maximum. *)
Definition doubleBalanceState : NetworkState :=
  singleValidatorState (2 * MAX_EFFECTIVE_BALANCE) 0 (2 * MAX_EFFECTIVE_BALANCE)
                       1000 998 "".

(** The on-time reward of [CalculateAttestationReward]: the components of
    the base reward of the duties done, added up. *)
Definition duties (baseReward : Z) (source target head : bool) : Z :=
  (if source then component baseReward TIMELY_SOURCE_WEIGHT else 0)
  + (if target then component baseReward TIMELY_TARGET_WEIGHT else 0)
  + (if head then component baseReward TIMELY_HEAD_WEIGHT else 0).

(** [n] consecutive epochs of the inactivity-score recurrence. *)
Definition iterate_score (n : nat) (isActive isFinalized : bool) (score : Z) : Z :=
  Nat.iter n (fun s => CalculateInactivityScore s isActive isFinalized) score.

(** The two baseline annual rewards of [CalculateRewards] (at full
    participation), recovered from the per-epoch fields of its result. *)
Definition baseline_attestation_annual (r : RewardResults) : Float64.float64 :=
  Float64.mul (Float64.of_Z (AttestationRewardPerEpoch r)) (Float64.of_Z EPOCHS_PER_YEAR).

Definition baseline_proposer_annual (r : RewardResults) : Float64.float64 :=
  Float64.mul (ProposerRewardPerEpoch r) (Float64.of_Z EPOCHS_PER_YEAR).

(** ** Slices of a length given by the caller *)

(** Outcomes of the functions that allocate a slice whose length the caller
    gives: besides the faults of the engine, [make] panics on a negative
    length. *)
Inductive outcome (A : Type) : Type :=
| Returns (a : A)
| Fails (f : fault)   (* a fault raised by the engine *)
| MakeSliceLen.       (* runtime error: makeslice: len out of range *)

Arguments Returns {A} a.
Arguments Fails {A} f.
Arguments MakeSliceLen {A}.

Definition lift {A : Type} (r : result A) : outcome A :=
  match r with
  | Ok a => Returns a
  | Panic f => Fails f
  end.

(** The zero value of [types.Validator]. *)
Definition zero_Validator : Validator := mkValidator 0 0.

(** [make([]types.Validator, n)] for an [int] [n]: [n] zero validators. The
    limits of memory are not modelled. *)
Definition make_validators (n : Z) : outcome (list Validator) :=
  if n <? 0 then MakeSliceLen
  else Returns (repeat zero_Validator (Z.to_nat n)).

(** [l[j] = a] for an index inside the slice (the loops below only use
    indices of [range l]). *)
Fixpoint store {A : Type} (l : list A) (j : nat) (a : A) : list A :=
  match l, j with
  | [], _ => []
  | _ :: t, O => a :: t
  | h :: t, S j' => h :: store t j' a
  end.

(** [state.Validators[j] = v]. *)
Definition set_validator (state : NetworkState) (j : nat) (v : Validator) : NetworkState :=
  {| Validators := store (Validators state) j v;
     TotalActiveBalance := TotalActiveBalance state;
     CurrentEpoch := CurrentEpoch state;
     FinalizedEpoch := FinalizedEpoch state;
     JustifiedEpoch := JustifiedEpoch state;
     CurrentFork := CurrentFork state;
     SlashingsPerEpoch := SlashingsPerEpoch state |}.

(** [state.Validators[j].InactivityScore = score]. *)
Definition set_score (state : NetworkState) (j : nat) (score : Z) : NetworkState :=
  match nth_error (Validators state) j with
  | Some v =>
      set_validator state j
        {| EffectiveBalance := EffectiveBalance v; Slashed := Slashed v;
           ActivationEligibilityEpoch := ActivationEligibilityEpoch v;
           ActivationEpoch := ActivationEpoch v; ExitEpoch := ExitEpoch v;
           WithdrawableEpoch := WithdrawableEpoch v; InactivityScore := score |}
  | None => state
  end.

(** [state.FinalizedEpoch = epoch]. *)
Definition set_finalized (state : NetworkState) (epoch : Z) : NetworkState :=
  {| Validators := Validators state;
     TotalActiveBalance := TotalActiveBalance state;
     CurrentEpoch := CurrentEpoch state;
     FinalizedEpoch := epoch;
     JustifiedEpoch := JustifiedEpoch state;
     CurrentFork := CurrentFork state;
     SlashingsPerEpoch := SlashingsPerEpoch state |}.

(** [state.CurrentFork = fork]. *)
Definition set_fork (state : NetworkState) (fork : string) : NetworkState :=
  {| Validators := Validators state;
     TotalActiveBalance := TotalActiveBalance state;
     CurrentEpoch := CurrentEpoch state;
     FinalizedEpoch := FinalizedEpoch state;
     JustifiedEpoch := JustifiedEpoch state;
     CurrentFork := fork;
     SlashingsPerEpoch := SlashingsPerEpoch state |}.

(** [for j := range state.Validators { body }]: the indices of the slice in
    order, the length read once. *)
Definition range_validators (body : NetworkState -> nat -> NetworkState)
    (state : NetworkState) : NetworkState :=
  fold_left body (seq 0 (List.length (Validators state))) state.

(** ** internal/config: the constants the remaining functions read *)

Module limits.

Definition SYNC_COMMITTEE_SIZE : Z := 512.
Definition CHURN_LIMIT_QUOTIENT : Z := 65536.
Definition MIN_PER_EPOCH_CHURN_LIMIT : Z := 4.
Definition MAX_PER_EPOCH_ACTIVATION_CHURN_LIMIT : Z := 8.

End limits.

(** ** internal/calculator, penalties.go: penalties for missed duties *)

Module calculator_penalties.

Record PenaltyResults : Type := {
  SourcePenalty : Z;
  TargetPenalty : Z;
  HeadPenalty : Z;
  TotalAttestationPenalty : Z;
  InactivityScore : Z;
  InactivityPenalty : Z;
  DailyAttestationPenalty : Float64.float64;
  DailyInactivityPenalty : Float64.float64
}.

Definition CalculatePenalties (state : NetworkState) (validatorIndex : Z)
    (correctSource correctTarget correctHead : bool) : result PenaltyResults :=
  baseReward <- GetBaseReward state validatorIndex ;;
  validator <- index (Validators state) validatorIndex ;;
  let sourcePenalty :=
    if negb correctSource then component baseReward TIMELY_SOURCE_WEIGHT else 0 in
  let targetPenalty :=
    if negb correctTarget then component baseReward TIMELY_TARGET_WEIGHT else 0 in
  let headPenalty :=
    if negb correctHead then component baseReward TIMELY_HEAD_WEIGHT else 0 in
  let totalAttestationPenalty :=
    U64.add (U64.add sourcePenalty targetPenalty) headPenalty in
  inactivityPenalty <-
    (if U64.add (FinalizedEpoch state) MIN_ATTESTATION_INCLUSION_DELAY <? CurrentEpoch state
     then GetInactivityPenalty state validatorIndex
     else Ok 0) ;;
  Ok {| SourcePenalty := sourcePenalty;
        TargetPenalty := targetPenalty;
        HeadPenalty := headPenalty;
        TotalAttestationPenalty := totalAttestationPenalty;
        InactivityScore := types.InactivityScore validator;
        InactivityPenalty := inactivityPenalty;
        DailyAttestationPenalty :=
          Float64.div (Float64.of_Z (U64.mul totalAttestationPenalty EPOCHS_PER_DAY))
                      (Float64.of_Z 1000000000);
        DailyInactivityPenalty :=
          Float64.div (Float64.of_Z (U64.mul inactivityPenalty EPOCHS_PER_DAY))
                      (Float64.of_Z 1000000000) |}.

(** [getSecurityImpactLevel]: a [switch] on the slashed share of the
    network, in percent. *)
Definition getSecurityImpactLevel (slashingPercentage : Float64.float64) : string :=
  if Float64.ltb slashingPercentage (Float64.lit 1 10) then "Minimal"
  else if Float64.ltb slashingPercentage (Float64.of_Z 1) then "Low"
  else if Float64.ltb slashingPercentage (Float64.of_Z 5) then "Moderate"
  else if Float64.ltb slashingPercentage (Float64.of_Z 10) then "High"
  else if Float64.ltb slashingPercentage (Float64.lit 333 10) then "Critical"
  else "Catastrophic".

End calculator_penalties.

(** ** internal/calculator, rewards.go: proposer, sync-committee and
    whistleblower rewards *)

Module calculator_rewards.

Definition CalculateProposerReward (state : NetworkState) (attestingBalance : Z)
    : result Z :=
  baseRewardPerIncrement <- GetBaseRewardPerIncrement state ;;
  let proposerRewardPerIncrement := baseRewardPerIncrement / PROPOSER_REWARD_QUOTIENT in
  Ok (U64.mul proposerRewardPerIncrement attestingBalance / EFFECTIVE_BALANCE_INCREMENT).

(** [participantCount] is an [int]; [uint64(participantCount)] reduces it
    modulo [2^64]. *)
Definition CalculateSyncCommitteeReward (state : NetworkState) (participantCount : Z)
    : result Z :=
  baseReward <- GetBaseReward state 0 ;;
  let totalActiveIncrements := TotalActiveBalance state / EFFECTIVE_BALANCE_INCREMENT in
  let totalBaseRewards := U64.mul baseReward totalActiveIncrements in
  let maxParticipantRewards :=
    U64.mul totalBaseRewards SYNC_REWARD_WEIGHT / WEIGHT_DENOMINATOR / SLOTS_PER_EPOCH in
  let participantReward := maxParticipantRewards / limits.SYNC_COMMITTEE_SIZE in
  Ok (U64.mul participantReward (U64.wrap participantCount)).

Definition CalculateWhistleblowerReward (slashedValidatorBalance : Z) : Z * Z :=
  let whistleblowerReward := slashedValidatorBalance / WHISTLEBLOWER_REWARD_QUOTIENT in
  let proposerReward := whistleblowerReward / PROPOSER_REWARD_QUOTIENT in
  (whistleblowerReward, proposerReward).

End calculator_rewards.

(** ** internal/calculator, comparison.go: comparison helpers *)

Module calculator_comparison.

Record ComparisonResult : Type := {
  ValidatorCount : Z;
  TotalStaked : Z;
  BaseReward : Z;
  AnnualRewards : Float64.float64;
  APY : Float64.float64;
  DailyRewards : Float64.float64
}.

(** [max] of the package, on [uint64]. *)
Definition max (a b : Z) : Z := if b <? a then a else b.

(** The state [ValidatorSetComparison] builds for one count: the slice is
    allocated, then every element is overwritten with a validator at the
    maximal effective balance. [uint64(count)] reduces the [int] modulo
    [2^64]. *)
Definition comparison_state (count : Z) : outcome NetworkState :=
  match make_validators count with
  | Returns validators =>
      Returns
        (range_validators
           (fun state j => set_validator state j (mkValidator MAX_EFFECTIVE_BALANCE 0))
           {| Validators := validators;
              TotalActiveBalance := U64.mul (U64.wrap count) MAX_EFFECTIVE_BALANCE;
              CurrentEpoch := 1000; FinalizedEpoch := 998; JustifiedEpoch := 0;
              CurrentFork := ""; SlashingsPerEpoch := [] |})
  | Fails f => Fails f
  | MakeSliceLen => MakeSliceLen
  end.

(** One round of the loop of [ValidatorSetComparison]. *)
Definition comparison_entry (participation : Float64.float64) (count : Z)
    : outcome ComparisonResult :=
  match comparison_state count with
  | Returns state =>
      match CalculateRewards state participation with
      | Ok rewards =>
          Returns
            {| ValidatorCount := count;
               TotalStaked := TotalActiveBalance state / 1000000000;
               BaseReward := BaseRewardPerEpoch rewards;
               AnnualRewards :=
                 Float64.div (TotalAnnualRewards rewards) (Float64.of_Z 1000000000);
               APY := types.APY rewards;
               DailyRewards :=
                 Float64.div (types.DailyRewards rewards) (Float64.of_Z 1000000000) |}
      | Panic f => Fails f
      end
  | Fails f => Fails f
  | MakeSliceLen => MakeSliceLen
  end.

(** The counts are visited in order; the first panic ends the call. *)
Fixpoint ValidatorSetComparison (participation : Float64.float64)
    (validatorCounts : list Z) : outcome (list ComparisonResult) :=
  match validatorCounts with
  | [] => Returns []
  | count :: rest =>
      match comparison_entry participation count with
      | Returns entry =>
          match ValidatorSetComparison participation rest with
          | Returns results => Returns (entry :: results)
          | Fails f => Fails f
          | MakeSliceLen => MakeSliceLen
          end
      | Fails f => Fails f
      | MakeSliceLen => MakeSliceLen
      end
  end.

(** [CalculateBreakEvenTime]: years, months and days. *)
Definition CalculateBreakEvenTime (apy : Float64.float64)
    : Float64.float64 * Float64.float64 * Float64.float64 :=
  if SFleb apy (Float64.of_Z 0) then
    (S754_infinity false, S754_infinity false, S754_infinity false)
  else
    let yearsToDouble := Float64.div (Float64.of_Z 100) apy in
    (yearsToDouble,
     Float64.mul yearsToDouble (Float64.of_Z 12),
     Float64.mul yearsToDouble (Float64.lit 36525 100)).

(** [EstimateValidatorQueue]: epochs and days; both arguments are [int]s. *)
Definition EstimateValidatorQueue (currentValidators pendingValidators : Z)
    : Float64.float64 * Float64.float64 :=
  let churnLimit :=
    max limits.MIN_PER_EPOCH_CHURN_LIMIT
        (U64.wrap currentValidators / limits.CHURN_LIMIT_QUOTIENT) in
  let churnLimit := calculator.min churnLimit limits.MAX_PER_EPOCH_ACTIVATION_CHURN_LIMIT in
  let epochs := Float64.div (Float64.of_Z pendingValidators) (Float64.of_Z churnLimit) in
  let days := Float64.div epochs (Float64.of_Z EPOCHS_PER_DAY) in
  (epochs, days).

End calculator_comparison.

(** ** The command-line front end (package main) *)

Module main.

(** One round of the loop of [createNetworkState]; [inactivityEpochs] is the
    value of the [--inactivity] flag, an [int]: [uint64(inactivityEpochs * 4)]
    and [uint64(inactivityEpochs)] reduce modulo [2^64]. *)
Definition init_validator (inactivityEpochs : Z) (state : NetworkState) (i : nat)
    : NetworkState :=
  let state := set_validator state i (mkValidator MAX_EFFECTIVE_BALANCE 0) in
  if 0 <? inactivityEpochs then
    let state := set_score state i (U64.wrap (inactivityEpochs * 4)) in
    set_finalized state
      (U64.sub (U64.sub (CurrentEpoch state) (U64.wrap inactivityEpochs)) 2)
  else state.

Definition createNetworkState (inactivityEpochs validators : Z) : outcome NetworkState :=
  match make_validators validators with
  | Returns slice =>
      Returns
        (range_validators (init_validator inactivityEpochs)
           {| Validators := slice;
              TotalActiveBalance := U64.mul (U64.wrap validators) MAX_EFFECTIVE_BALANCE;
              CurrentEpoch := 1000; FinalizedEpoch := 998; JustifiedEpoch := 0;
              CurrentFork := ""; SlashingsPerEpoch := [] |})
  | Fails f => Fails f
  | MakeSliceLen => MakeSliceLen
  end.

(** The check of [main] on the [--participation] flag: the program exits
    when [participation < 0 || participation > 1]. *)
Definition participation_rejected (participation : Float64.float64) : bool :=
  Float64.ltb participation (Float64.of_Z 0) || Float64.ltb (Float64.of_Z 1) participation.

(** The network status column of [compareParticipationRates]. *)
Definition network_status (rate : Float64.float64) : string :=
  if Float64.ltb rate (Float64.lit 3333 10000) then "CRITICAL - No finality"
  else if Float64.ltb rate (Float64.lit 6667 10000) then "Inactivity leak active"
  else if Float64.ltb rate (Float64.lit 8 10) then "Reduced security"
  else "Healthy".

(** [strconv.FormatUint(n, 10)]: the decimal digits of [n], most significant
    first, ["0"] for 0. *)
Definition FormatUint (n : Z) : string :=
  DecimalString.NilZero.string_of_uint (N.to_uint (Z.to_N n)).

(** The loop of [formatNumber] from index [i] on: a comma before every
    digit that is not the first and has a multiple of three digits from
    itself to the end. *)
Fixpoint group_digits (len i : nat) (str : string) : list string :=
  match str with
  | EmptyString => []
  | String digit rest =>
      (if (0 <? i)%nat && ((len - i) mod 3 =? 0)%nat then [","%string] else [])
      ++ String digit EmptyString :: group_digits len (S i) rest
  end.

Definition formatNumber (n : Z) : string :=
  let str := FormatUint n in
  String.concat "" (group_digits (String.length str) 0 str).

End main.

(** ** The state of [createNetworkState] during its loop *)

(** The state after the first [k] rounds of the loop of [createNetworkState]
    over [n] validators: [k] validators initialised, the others still zero. *)
Definition after_rounds (inactivityEpochs : Z) (n k : nat) (total : Z) : NetworkState :=
  let leak := 0 <? inactivityEpochs in
  {| Validators :=
       repeat (mkValidator MAX_EFFECTIVE_BALANCE
                 (if leak then U64.wrap (inactivityEpochs * 4) else 0)) k
       ++ repeat zero_Validator (n - k);
     TotalActiveBalance := total;
     CurrentEpoch := 1000;
     FinalizedEpoch :=
       if leak && (0 <? k)%nat
       then U64.sub (U64.sub 1000 (U64.wrap inactivityEpochs)) 2
       else 998;
     JustifiedEpoch := 0; CurrentFork := ""; SlashingsPerEpoch := [] |}.

(** ** Notions used to describe [formatNumber] *)

(** The comma, character 44. *)
Definition comma : Ascii.ascii :=
  Ascii.Ascii false false true true false true false false.

(** A string without commas. *)
Fixpoint comma_free (s : string) : bool :=
  match s with
  | EmptyString => true
  | String c rest => negb (Ascii.eqb c comma) && comma_free rest
  end.

(** A string with its commas dropped. *)
Fixpoint strip_commas (s : string) : string :=
  match s with
  | EmptyString => EmptyString
  | String c rest =>
      if Ascii.eqb c comma then strip_commas rest else String c (strip_commas rest)
  end.

(** ** pkg/rewards: the methods built on [CalculateBaseReward]

    The constants of package [rewards] are not among the sources; the
    methods are written over them, under the names the source uses. *)

Module rewards_methods.

Section Constants.

Variables TIMELY_SOURCE_WEIGHT TIMELY_TARGET_WEIGHT TIMELY_HEAD_WEIGHT : Z.
Variables SYNC_REWARD_WEIGHT PROPOSER_WEIGHT WEIGHT_DENOMINATOR : Z.
Variables EPOCHS_PER_YEAR SLOTS_PER_EPOCH : Z.

Definition CalculateMaxAttestationReward (c : rewards.Calculator) (effectiveBalance : Z)
    : result Z :=
  baseReward <- rewards.CalculateBaseReward c effectiveBalance ;;
  let sourceReward := U64.mul baseReward TIMELY_SOURCE_WEIGHT / WEIGHT_DENOMINATOR in
  let targetReward := U64.mul baseReward TIMELY_TARGET_WEIGHT / WEIGHT_DENOMINATOR in
  let headReward := U64.mul baseReward TIMELY_HEAD_WEIGHT / WEIGHT_DENOMINATOR in
  Ok (U64.add (U64.add sourceReward targetReward) headReward).

Definition CalculateProposerReward (c : rewards.Calculator) (effectiveBalance : Z)
    : result Z :=
  baseReward <- rewards.CalculateBaseReward c effectiveBalance ;;
  Ok (U64.mul baseReward PROPOSER_WEIGHT / WEIGHT_DENOMINATOR).

Definition CalculateSyncCommitteeReward (c : rewards.Calculator) (effectiveBalance : Z)
    : result Z :=
  baseReward <- rewards.CalculateBaseReward c effectiveBalance ;;
  Ok (U64.mul baseReward SYNC_REWARD_WEIGHT / WEIGHT_DENOMINATOR).

Definition CalculateAnnualReward (c : rewards.Calculator) (effectiveBalance : Z)
    (proposerProbability : Float64.float64) : result Z :=
  attestationRewardPerEpoch <- CalculateMaxAttestationReward c effectiveBalance ;;
  let annualAttestationReward := U64.mul attestationRewardPerEpoch EPOCHS_PER_YEAR in
  proposerRewardPerBlock <- CalculateProposerReward c effectiveBalance ;;
  let expectedBlocksPerYear :=
    Float64.to_uint64
      (Float64.mul (Float64.of_Z (EPOCHS_PER_YEAR * SLOTS_PER_EPOCH)) proposerProbability) in
  let annualProposerReward := U64.mul proposerRewardPerBlock expectedBlocksPerYear in
  Ok (U64.add annualAttestationReward annualProposerReward).

Definition CalculateAPR (c : rewards.Calculator) (effectiveBalance : Z)
    (proposerProbability : Float64.float64) : result Float64.float64 :=
  annualReward <- CalculateAnnualReward c effectiveBalance proposerProbability ;;
  Ok (Float64.mul
        (Float64.div (Float64.of_Z annualReward) (Float64.of_Z effectiveBalance))
        (Float64.of_Z 100)).

End Constants.

End rewards_methods.

(** ** Notions used to describe binary64 rounding *)

(** Invariant of [k] right shifts started from an exact mantissa. *)
Definition shifted (m : Z) (k : Z) (rec : shr_record) : Prop :=
  shr_m rec = m / 2 ^ k /\
  (shr_r rec = true <-> 2 ^ k <= 2 * (m mod 2 ^ k)) /\
  (shr_s rec = true <-> (m mod 2 ^ k <> 0 /\ 2 * (m mod 2 ^ k) <> 2 ^ k)).

(** Rounding to nearest, ties to even, of [m / 2^k]. *)
Definition rne (m k : Z) : Z :=
  let q := m / 2 ^ k in
  let r := m mod 2 ^ k in
  if 2 * r <? 2 ^ k then q
  else if 2 * r =? 2 ^ k then (if Z.even q then q else q + 1)
  else q + 1.

(** The second half of [binary_round_aux]: renormalisation after rounding. *)
Definition finish (R e : Z) : spec_float :=
  let '(mrs, e') := shr_fexp Float64.prec Float64.emax R e loc_Exact in
  match shr_m mrs with
  | Z0 => S754_zero false
  | Zpos m =>
      if e' <=? Float64.emax - Float64.prec then S754_finite false m e'
      else S754_infinity false
  | Zneg _ => S754_nan
  end.

(** A rounded mantissa in [2^52, 2^53] at exponent [e], renormalised. *)
Definition normal (R e : Z) : spec_float :=
  if R <? 2 ^ 53 then S754_finite false (Z.to_pos R) e
  else S754_finite false (Z.to_pos (2 ^ 52)) (e + 1).

(** The square root rounded to nearest, in integers: [M] is the mantissa
    scaled to 105 or 106 bits. *)
Definition sqrt_round (M : Z) : Z :=
  let q := Z.sqrt M in if q <? M - q * q then q + 1 else q.

(** * Properties *)

(** ** binary64 facts behind the square-root guess

    What [float64(n)], [math.Sqrt] and the conversion back to [uint64]
    compute on a 64-bit integer, read off the definitions of [SpecFloat]. *)

Section FloatFacts.

Let prec := Float64.prec.
Let emax := Float64.emax.

Lemma fexp_eq e : fexp prec emax e = Z.max (e - 53) (-1074).
Proof. reflexivity. Qed.

Lemma Zdigits2_bounds p :
  2 ^ (Zdigits2 (Zpos p) - 1) <= Zpos p < 2 ^ Zdigits2 (Zpos p).
Proof.
  simpl Zdigits2. induction p as [p IH|p IH|]; simpl digits2_pos.
  - rewrite Pos2Z.inj_succ.
    replace (Z.succ (Zpos (digits2_pos p)) - 1) with (Z.succ (Zpos (digits2_pos p) - 1)) by lia.
    rewrite !Z.pow_succ_r by lia. lia.
  - rewrite Pos2Z.inj_succ.
    replace (Z.succ (Zpos (digits2_pos p)) - 1) with (Z.succ (Zpos (digits2_pos p) - 1)) by lia.
    rewrite !Z.pow_succ_r by lia. lia.
  - simpl. lia.
Qed.

Lemma Zdigits2_unique m d :
  0 < d -> 2 ^ (d - 1) <= m < 2 ^ d -> Zdigits2 m = d.
Proof.
  intros Hd [Hlo Hhi].
  assert (Hm : 0 < m) by (pose proof (Z.pow_pos_nonneg 2 (d - 1)); lia).
  destruct m as [|p|p]; try lia.
  pose proof (Zdigits2_bounds p) as [Blo Bhi].
  set (d' := Zdigits2 (Zpos p)) in *.
  assert (Hd' : 0 < d') by (subst d'; simpl; lia).
  destruct (Z.lt_trichotomy d' d) as [Hlt|[Heq|Hgt]]; [|assumption|].
  - assert (2 ^ d' <= 2 ^ (d - 1)) by (apply Z.pow_le_mono_r; lia). lia.
  - assert (2 ^ d <= 2 ^ (d' - 1)) by (apply Z.pow_le_mono_r; lia). lia.
Qed.

Lemma Pos_iter_xO p d : Zpos (Pos.iter xO p d) = Zpos p * 2 ^ Zpos d.
Proof.
  induction d as [|d IH] using Pos.peano_ind.
  - simpl. lia.
  - rewrite Pos.iter_succ, Pos2Z.inj_xO, IH, Pos2Z.inj_succ, Z.pow_succ_r by lia. lia.
Qed.

(** One right shift of a non-negative mantissa. *)
Lemma shr_1_spec m r s :
  0 <= m ->
  shr_1 {| shr_m := m; shr_r := r; shr_s := s |} =
  {| shr_m := Z.div2 m; shr_r := Z.odd m; shr_s := r || s |}.
Proof.
  intros Hm. destruct m as [|[p|p|]|p]; try reflexivity; lia.
Qed.

Lemma iter_pos_nat {A} (f : A -> A) p x :
  iter_pos f p x = Nat.iter (Pos.to_nat p) f x.
Proof.
  revert x. induction p as [p IH|p IH|]; intros x; simpl iter_pos.
  - rewrite !IH. rewrite Pos2Nat.inj_xI.
    replace (S (2 * Pos.to_nat p))%nat with (Pos.to_nat p + (Pos.to_nat p + 1))%nat by lia.
    rewrite !Nat.iter_add. simpl. reflexivity.
  - rewrite !IH. rewrite Pos2Nat.inj_xO.
    replace (2 * Pos.to_nat p)%nat with (Pos.to_nat p + Pos.to_nat p)%nat by lia.
    rewrite Nat.iter_add. reflexivity.
  - reflexivity.
Qed.

Lemma shifted_step m k rec :
  0 <= m -> 0 <= k -> shifted m k rec -> shifted m (k + 1) (shr_1 rec).
Proof.
  intros Hm Hk (Hq & Hr & Hs). destruct rec as [q r s].
  cbn [shr_m shr_r shr_s] in Hq, Hr, Hs.
  assert (Hq0 : 0 <= q) by (subst q; apply Z.div_pos; [lia|apply Z.pow_pos_nonneg; lia]).
  rewrite shr_1_spec by assumption.
  assert (Hp : 0 < 2 ^ k) by (apply Z.pow_pos_nonneg; lia).
  assert (Epow : 2 ^ (k + 1) = 2 * 2 ^ k) by (rewrite Z.pow_add_r by lia; lia).
  pose proof (Z.div_mod m (2 ^ k) ltac:(lia)) as Edm.
  pose proof (Z.mod_pos_bound m (2 ^ k) Hp) as Bm.
  set (lo := m mod 2 ^ k) in *. rewrite <- Hq in Edm.
  assert (Eq2 : q = 2 * Z.div2 q + (if Z.odd q then 1 else 0)) by apply Z.div2_odd.
  set (b := if Z.odd q then 1 else 0) in *.
  assert (Bb : 0 <= b <= 1) by (subst b; destruct (Z.odd q); lia).
  assert (Ediv : m / 2 ^ (k + 1) = Z.div2 q).
  { symmetry. apply Z.div_unique with (r := lo + b * 2 ^ k); [nia|nia]. }
  assert (Emod : m mod 2 ^ (k + 1) = lo + b * 2 ^ k).
  { symmetry. apply Z.mod_unique with (q := Z.div2 q); [nia|nia]. }
  unfold shifted; cbn [shr_m shr_r shr_s]. rewrite Ediv, Emod, Epow.
  split; [reflexivity|]. split.
  - subst b. destruct (Z.odd q); split; intros; try discriminate; try reflexivity; lia.
  - rewrite orb_true_iff, Hr, Hs. subst b. destruct (Z.odd q); lia.
Qed.

Lemma shifted_iter m (k : nat) :
  0 <= m ->
  shifted m (Z.of_nat k)
    (Nat.iter k shr_1 {| shr_m := m; shr_r := false; shr_s := false |}).
Proof.
  intros Hm. induction k as [|k IH].
  - unfold shifted; simpl. rewrite Z.div_1_r, Z.mod_1_r.
    repeat split; intros; try discriminate; lia.
  - rewrite Nat2Z.inj_succ, <- Z.add_1_r. simpl Nat.iter.
    apply shifted_step; [assumption|lia|assumption].
Qed.

Lemma round_shifted m k rec :
  shifted m k rec ->
  round_nearest_even (shr_m rec) (loc_of_shr_record rec) = rne m k.
Proof.
  intros (Hq & Hr & Hs). destruct rec as [q r s].
  cbn [shr_m shr_r shr_s] in Hq, Hr, Hs. subst q.
  unfold rne.
  destruct r, s; cbn [shr_m shr_r shr_s loc_of_shr_record round_nearest_even].
  - assert (2 ^ k <= 2 * (m mod 2 ^ k)) by (apply Hr; reflexivity).
    assert (2 * (m mod 2 ^ k) <> 2 ^ k) by (apply Hs; reflexivity).
    destruct (Z.ltb_spec (2 * (m mod 2 ^ k)) (2 ^ k)); [lia|].
    destruct (Z.eqb_spec (2 * (m mod 2 ^ k)) (2 ^ k)); [lia|reflexivity].
  - assert (2 ^ k <= 2 * (m mod 2 ^ k)) by (apply Hr; reflexivity).
    destruct (Z.ltb_spec (2 * (m mod 2 ^ k)) (2 ^ k)); [lia|].
    destruct (Z.eqb_spec (2 * (m mod 2 ^ k)) (2 ^ k)) as [E|N]; [reflexivity|].
    assert (false = true) by (apply Hs; split; lia). discriminate.
  - destruct (Z.ltb_spec (2 * (m mod 2 ^ k)) (2 ^ k)) as [L|L]; [reflexivity|].
    assert (false = true) by (apply Hr; lia). discriminate.
  - destruct (Z.ltb_spec (2 * (m mod 2 ^ k)) (2 ^ k)) as [L|L]; [reflexivity|].
    assert (false = true) by (apply Hr; lia). discriminate.
Qed.

Lemma rne_bounds m k :
  0 <= m -> 0 <= k ->
  m / 2 ^ k <= rne m k <= m / 2 ^ k + 1 /\
  2 * (rne m k * 2 ^ k - m) <= 2 ^ k /\
  2 * (m - rne m k * 2 ^ k) <= 2 ^ k.
Proof.
  intros Hm Hk.
  assert (Hp : 0 < 2 ^ k) by (apply Z.pow_pos_nonneg; lia).
  pose proof (Z.div_mod m (2 ^ k) ltac:(lia)) as Edm.
  pose proof (Z.mod_pos_bound m (2 ^ k) Hp) as Bm.
  unfold rne.
  destruct (Z.ltb_spec (2 * (m mod 2 ^ k)) (2 ^ k)); [nia|].
  destruct (Z.eqb_spec (2 * (m mod 2 ^ k)) (2 ^ k)); [destruct (Z.even _); nia|nia].
Qed.


Lemma binary_round_aux_finish m e l :
  binary_round_aux prec emax false m e l =
  finish (round_nearest_even (shr_m (fst (shr_fexp prec emax m e l)))
                             (loc_of_shr_record (fst (shr_fexp prec emax m e l))))
         (snd (shr_fexp prec emax m e l)).
Proof.
  unfold binary_round_aux, finish.
  destruct (shr_fexp prec emax m e l) as [mrs e']. reflexivity.
Qed.

Lemma shr_fexp_noshift m e l :
  Zdigits2 m = 53 -> -1074 <= e ->
  shr_fexp prec emax m e l = (shr_record_of_loc m l, e).
Proof.
  intros Hd He. unfold shr_fexp. rewrite Hd, fexp_eq.
  replace (Z.max (53 + e - 53) (-1074) - e) with 0 by lia. reflexivity.
Qed.

Lemma finish_normal R e :
  2 ^ 52 <= R <= 2 ^ 53 -> -1074 <= e <= 970 -> finish R e = normal R e.
Proof.
  intros HR He. unfold finish, normal.
  destruct (Z.ltb_spec R (2 ^ 53)) as [Hlt|Hge].
  - rewrite shr_fexp_noshift by (try apply Zdigits2_unique; lia).
    cbn [shr_record_of_loc shr_m].
    destruct R as [|p|p]; try lia.
    replace (e <=? Float64.emax - Float64.prec) with true
      by (symmetry; apply Z.leb_le; unfold Float64.emax, Float64.prec; lia).
    reflexivity.
  - assert (R = 2 ^ 53) by lia. subst R.
    unfold shr_fexp. 
    replace (Zdigits2 (2 ^ 53)) with 54 by reflexivity.
    rewrite fexp_eq.
    replace (Z.max (54 + e - 53) (-1074) - e) with 1 by lia.
    cbn [shr_record_of_loc shr iter_pos]. 
    replace (e + 1 <=? Float64.emax - Float64.prec) with true
      by (symmetry; apply Z.leb_le; unfold Float64.emax, Float64.prec; lia).
    reflexivity.
Qed.

Lemma loc_of_shr_record_of_loc m l :
  loc_of_shr_record (shr_record_of_loc m l) = l /\
  shr_m (shr_record_of_loc m l) = m.
Proof. destruct l as [|[| |]]; split; reflexivity. Qed.

(** Rounding a mantissa that already has 53 bits. *)
Lemma binary_round_aux_53 m e l :
  2 ^ 52 <= m < 2 ^ 53 -> -1074 <= e <= 970 ->
  binary_round_aux prec emax false m e l = normal (round_nearest_even m l) e.
Proof.
  intros Hm He. rewrite binary_round_aux_finish.
  rewrite shr_fexp_noshift by (try apply Zdigits2_unique; lia).
  cbn [fst snd].
  destruct (loc_of_shr_record_of_loc m l) as [-> ->].
  apply finish_normal; [|assumption].
  destruct l as [|[| |]]; cbn [round_nearest_even]; try lia.
  destruct (Z.even m); lia.
Qed.

(** Rounding an integer of more than 53 bits. *)
Lemma binary_round_aux_wide m d :
  53 < d <= 1000 -> 2 ^ (d - 1) <= m < 2 ^ d ->
  binary_round_aux prec emax false m 0 loc_Exact = normal (rne m (d - 53)) (d - 53).
Proof.
  intros Hd Hm. rewrite binary_round_aux_finish.
  assert (Hdig : Zdigits2 m = d) by (apply Zdigits2_unique; lia).
  assert (Hm0 : 0 <= m) by (pose proof (Z.pow_pos_nonneg 2 (d - 1)); lia).
  unfold shr_fexp at 1 2 3. rewrite Hdig, fexp_eq.
  replace (Z.max (d + 0 - 53) (-1074) - 0) with (d - 53) by lia.
  destruct (d - 53) as [|k|k] eqn:Ek; try lia.
  cbn [shr fst snd shr_record_of_loc].
  rewrite iter_pos_nat.
  pose proof (shifted_iter m (Pos.to_nat k) Hm0) as Hsh.
  rewrite positive_nat_Z in Hsh.
  rewrite (round_shifted _ _ _ Hsh).
  replace (0 + Z.pos k) with (Z.pos k) by lia.
  apply finish_normal; [|lia].
  pose proof (rne_bounds m (Z.pos k) Hm0 ltac:(lia)) as (B1 & B2 & B3).
  assert (E : 2 ^ d = 2 ^ 53 * 2 ^ Z.pos k) by (rewrite <- Z.pow_add_r by lia; f_equal; lia).
  assert (E' : 2 ^ (d - 1) = 2 ^ 52 * 2 ^ Z.pos k) by (rewrite <- Z.pow_add_r by lia; f_equal; lia).
  assert (Hp : 0 < 2 ^ Z.pos k) by (apply Z.pow_pos_nonneg; lia).
  assert (2 ^ 52 <= m / 2 ^ Z.pos k) by (apply Z.div_le_lower_bound; lia).
  assert (m / 2 ^ Z.pos k < 2 ^ 53) by (apply Z.div_lt_upper_bound; lia).
  lia.
Qed.


(** *** [float64(n)] for a 64-bit [n] *)

Lemma of_Z_small n :
  0 < n < 2 ^ 53 ->
  Float64.of_Z n =
  S754_finite false (Z.to_pos (n * 2 ^ (53 - Zdigits2 n))) (Zdigits2 n - 53).
Proof.
  intros Hn. destruct n as [|p|p]; try lia.
  pose proof (Zdigits2_bounds p) as Hb.
  set (d := Zdigits2 (Zpos p)) in *.
  assert (Hd1 : 1 <= d) by (subst d; simpl; lia).
  assert (Hd : d <= 53).
  { destruct (Z_le_gt_dec d 53) as [|Hgt]; [assumption|].
    assert (2 ^ 53 <= 2 ^ (d - 1)) by (apply Z.pow_le_mono_r; lia). lia. }
  unfold Float64.of_Z, binary_normalize, binary_round.
  fold prec emax. change (Z.pos (digits2_pos p)) with d.
  rewrite fexp_eq. unfold shl_align.
  replace (Z.max (d + 0 - 53) (-1074) - 0) with (d - 53) by lia.
  replace (Z.max (d + 0 - 53) (-1074)) with (d - 53) by lia.
  assert (Epow : 2 ^ 52 = 2 ^ (d - 1) * 2 ^ (53 - d))
    by (rewrite <- Z.pow_add_r by lia; f_equal; lia).
  assert (Epow' : 2 ^ 53 = 2 ^ d * 2 ^ (53 - d))
    by (rewrite <- Z.pow_add_r by lia; f_equal; lia).
  assert (Hp : 0 < 2 ^ (53 - d)) by (apply Z.pow_pos_nonneg; lia).
  destruct (d - 53) as [|k|k] eqn:Ek; try lia.
  - replace (53 - d) with 0 in * by lia. rewrite Z.pow_0_r, Z.mul_1_r in *.
    rewrite binary_round_aux_53 by lia.
    cbn [round_nearest_even]. unfold normal.
    destruct (Z.ltb_spec (Z.pos p) (2 ^ 53)); [reflexivity|lia].
  - replace (53 - d) with (Z.pos k) in * by lia.
    rewrite binary_round_aux_53 by (rewrite ?Pos_iter_xO; nia).
    cbn [round_nearest_even]. unfold normal. rewrite Pos_iter_xO.
    destruct (Z.ltb_spec (Z.pos p * 2 ^ Z.pos k) (2 ^ 53)); [|nia].
    reflexivity.
Qed.

Lemma of_Z_large n :
  2 ^ 53 <= n < 2 ^ 64 ->
  53 < Zdigits2 n <= 64 /\
  Float64.of_Z n = normal (rne n (Zdigits2 n - 53)) (Zdigits2 n - 53).
Proof.
  intros Hn. destruct n as [|p|p]; try lia.
  pose proof (Zdigits2_bounds p) as Hb.
  set (d := Zdigits2 (Zpos p)) in *.
  assert (Hd1 : 53 < d).
  { destruct (Z_lt_ge_dec 53 d) as [|Hge]; [assumption|].
    assert (2 ^ d <= 2 ^ 53) by (apply Z.pow_le_mono_r; lia). lia. }
  assert (Hd : d <= 64).
  { destruct (Z_le_gt_dec d 64) as [|Hgt]; [assumption|].
    assert (2 ^ 64 <= 2 ^ (d - 1)) by (apply Z.pow_le_mono_r; lia). lia. }
  split; [lia|].
  unfold Float64.of_Z, binary_normalize, binary_round.
  fold prec emax. change (Z.pos (digits2_pos p)) with d.
  rewrite fexp_eq. unfold shl_align.
  replace (Z.max (d + 0 - 53) (-1074) - 0) with (d - 53) by lia.
  destruct (d - 53) as [|k|k] eqn:Ek; try lia.
  rewrite <- Ek. apply binary_round_aux_wide; lia.
Qed.

(** The binary64 value of a positive 64-bit integer: a 53-bit mantissa [mx]
    at exponent [ex], exact below [2^53] and within half a unit in the last
    place above. *)
Lemma of_Z_spec n :
  0 < n < 2 ^ 64 ->
  exists mx ex,
    Float64.of_Z n = S754_finite false mx ex /\
    2 ^ 52 <= Zpos mx < 2 ^ 53 /\ -52 <= ex <= 12 /\
    ((ex <= 0 /\ Zpos mx = n * 2 ^ (- ex)) \/
     (0 < ex /\ 2 ^ 53 <= n /\
      2 * (Zpos mx * 2 ^ ex - n) <= 2 ^ ex /\
      (n <= Zpos mx * 2 ^ ex \/
       (2 ^ (ex + 52) <= n /\ 2 * (n - Zpos mx * 2 ^ ex) <= 2 ^ ex)))).
Proof.
  intros Hn. destruct (Z_lt_ge_dec n (2 ^ 53)) as [Hs|Hl].
  - rewrite of_Z_small by lia.
    destruct n as [|p|p]; try lia.
    pose proof (Zdigits2_bounds p) as Hb.
    set (d := Zdigits2 (Zpos p)) in *.
    assert (Hd1 : 1 <= d) by (subst d; simpl; lia).
    assert (Hd : d <= 53).
    { destruct (Z_le_gt_dec d 53) as [|Hgt]; [assumption|].
      assert (2 ^ 53 <= 2 ^ (d - 1)) by (apply Z.pow_le_mono_r; lia). lia. }
    assert (Epow : 2 ^ 52 = 2 ^ (d - 1) * 2 ^ (53 - d))
      by (rewrite <- Z.pow_add_r by lia; f_equal; lia).
    assert (Epow' : 2 ^ 53 = 2 ^ d * 2 ^ (53 - d))
      by (rewrite <- Z.pow_add_r by lia; f_equal; lia).
    assert (Hp : 0 < 2 ^ (53 - d)) by (apply Z.pow_pos_nonneg; lia).
    exists (Z.to_pos (Z.pos p * 2 ^ (53 - d))), (d - 53).
    rewrite Z2Pos.id by nia.
    split; [reflexivity|]. split; [nia|]. split; [lia|].
    left. split; [lia|]. f_equal. f_equal. lia.
  - destruct (of_Z_large n ltac:(lia)) as [Hd ->].
    set (d := Zdigits2 n) in *.
    assert (Hn0 : 0 <= n) by lia.
    pose proof (rne_bounds n (d - 53) Hn0 ltac:(lia)) as (B1 & B2 & B3).
    assert (Hb : 2 ^ (d - 1) <= n < 2 ^ d).
    { destruct n as [|p|p]; try lia. apply Zdigits2_bounds. }
    set (k := d - 53) in *.
    assert (E : 2 ^ d = 2 ^ 53 * 2 ^ k) by (rewrite <- Z.pow_add_r by lia; f_equal; lia).
    assert (E' : 2 ^ (d - 1) = 2 ^ 52 * 2 ^ k) by (rewrite <- Z.pow_add_r by lia; f_equal; lia).
    assert (Hp : 0 < 2 ^ k) by (apply Z.pow_pos_nonneg; lia).
    assert (2 ^ 52 <= n / 2 ^ k) by (apply Z.div_le_lower_bound; lia).
    assert (n / 2 ^ k < 2 ^ 53) by (apply Z.div_lt_upper_bound; lia).
    unfold normal. destruct (Z.ltb_spec (rne n k) (2 ^ 53)) as [Hlt|Hge].
    + exists (Z.to_pos (rne n k)), k. rewrite Z2Pos.id by lia.
      split; [reflexivity|]. split; [lia|]. split; [lia|].
      right. split; [lia|]. split; [lia|]. split; [lia|].
      right. split; [|lia]. replace (k + 52) with (d - 1) by lia. lia.
    + exists (Z.to_pos (2 ^ 52)), (k + 1). rewrite Z2Pos.id by lia.
      split; [reflexivity|]. split; [lia|]. split; [lia|].
      assert (Ek : 2 ^ (k + 1) = 2 * 2 ^ k) by (rewrite Z.pow_add_r by lia; lia).
      right. split; [lia|]. split; [lia|]. rewrite Ek.
      split; [nia|]. left. nia.
Qed.

(** *** [uint64(math.Sqrt(f))] for a normal [f] of moderate exponent *)

Lemma to_uint64_normal R e :
  2 ^ 52 <= R <= 2 ^ 53 -> -52 <= e <= -20 ->
  Float64.to_uint64 (normal R e) = R / 2 ^ (- e).
Proof.
  intros HR He. unfold normal.
  assert (Hp : 0 < 2 ^ (- e)) by (apply Z.pow_pos_nonneg; lia).
  assert (Hp52 : 2 ^ (- e) <= 2 ^ 52) by (apply Z.pow_le_mono_r; lia).
  assert (Hp20 : 2 ^ 20 <= 2 ^ (- e)) by (apply Z.pow_le_mono_r; lia).
  destruct (Z.ltb_spec R (2 ^ 53)) as [Hlt|Hge].
  - unfold Float64.to_uint64. rewrite Z2Pos.id by lia.
    destruct (Z.leb_spec 0 e); [lia|].
    assert (1 <= R / 2 ^ (- e)) by (apply Z.div_le_lower_bound; lia).
    assert (R / 2 ^ (- e) < 2 ^ 53) by (apply Z.div_lt_upper_bound; nia).
    destruct (Z.eqb_spec (R / 2 ^ (- e)) 0); [lia|].
    destruct (Z.ltb_spec (R / 2 ^ (- e)) U64.modulus); [reflexivity|].
    unfold U64.modulus in *. lia.
  - assert (R = 2 ^ 53) by lia. subst R.
    unfold Float64.to_uint64. rewrite Z2Pos.id by lia.
    destruct (Z.leb_spec 0 (e + 1)); [lia|].
    assert (E2 : 2 ^ (- e) = 2 * 2 ^ (- (e + 1))).
    { replace (- e) with (1 + - (e + 1)) by lia. rewrite Z.pow_add_r by lia. lia. }
    assert (Hp' : 0 < 2 ^ (- (e + 1))) by (apply Z.pow_pos_nonneg; lia).
    assert (Ediv : 2 ^ 53 / 2 ^ (- e) = 2 ^ 52 / 2 ^ (- (e + 1))).
    { rewrite E2. change (2 ^ 53) with (2 * 2 ^ 52).
      rewrite Z.div_mul_cancel_l by lia. reflexivity. }
    rewrite Ediv.
    assert (1 <= 2 ^ 52 / 2 ^ (- (e + 1))) by (apply Z.div_le_lower_bound; lia).
    assert (2 ^ 52 / 2 ^ (- (e + 1)) < 2 ^ 53) by (apply Z.div_lt_upper_bound; nia).
    destruct (Z.eqb_spec (2 ^ 52 / 2 ^ (- (e + 1))) 0); [lia|].
    destruct (Z.ltb_spec (2 ^ 52 / 2 ^ (- (e + 1))) U64.modulus); [reflexivity|].
    unfold U64.modulus in *. lia.
Qed.

Lemma sqrt_float_guess mx ex :
  2 ^ 52 <= Zpos mx < 2 ^ 53 -> -52 <= ex <= 12 ->
  Float64.to_uint64 (Float64.sqrt (S754_finite false mx ex)) =
  sqrt_round (Zpos mx * 2 ^ (ex + 2 * (26 - Z.div2 ex))) / 2 ^ (26 - Z.div2 ex).
Proof.
  intros Hm He.
  unfold Float64.sqrt, SFsqrt, SFsqrt_core_binary. fold prec emax.
  rewrite (Zdigits2_unique (Zpos mx) 53) by lia.
  assert (Ediv2 : Z.div2 (53 + ex + 1) = 27 + Z.div2 ex).
  { rewrite !Z.div2_div. replace (53 + ex + 1) with (27 * 2 + ex) by lia.
    rewrite Z.div_add_l by lia. reflexivity. }
  assert (Bdiv2 : 2 * Z.div2 ex <= ex <= 2 * Z.div2 ex + 1).
  { pose proof (Z.div2_odd ex) as Ho. destruct (Z.odd ex); cbn [Z.b2z] in Ho; lia. }
  rewrite Ediv2, fexp_eq.
  set (t := 26 - Z.div2 ex).
  replace (Z.min (Z.max (27 + Z.div2 ex - 53) (-1074)) (Z.div2 ex)) with (- t) by lia.
  replace (ex - 2 * - t) with (ex + 2 * t) by lia.
  set (s := ex + 2 * t).
  assert (Hs : 52 <= s <= 53) by lia.
  set (M := Zpos mx * 2 ^ s).
  assert (EM : match s with
               | Z.pos _ => Z.shiftl (Z.pos mx) s
               | 0 => Z.pos mx
               | Z.neg _ => 0
               end = M).
  { destruct s as [|p|p] eqn:Es; try lia. rewrite Z.shiftl_mul_pow2 by lia. reflexivity. }
  rewrite EM.
  assert (HM : 2 ^ 104 <= M < 2 ^ 106).
  { subst M. assert (s = 52 \/ s = 53) as [-> | ->] by lia; lia. }
  assert (Hq : 2 ^ 52 <= Z.sqrt M < 2 ^ 53).
  { split.
    - change (2 ^ 52) with (Z.sqrt (2 ^ 104)). apply Z.sqrt_le_mono. lia.
    - apply Z.sqrt_lt_square; lia. }
  pose proof (Z.sqrtrem_spec M ltac:(lia)) as Hspec.
  pose proof (Z.sqrtrem_sqrt M) as Hfst.
  destruct (Z.sqrtrem M) as [q r]. cbn [fst] in Hfst. subst q.
  destruct Hspec as [HMr Hr].
  rewrite binary_round_aux_53 by lia.
  assert (ER : round_nearest_even (Z.sqrt M)
                 (if r =? 0 then loc_Exact
                  else loc_Inexact (if r <=? Z.sqrt M then Lt else Gt)) = sqrt_round M).
  { unfold sqrt_round. replace (M - Z.sqrt M * Z.sqrt M) with r by lia.
    destruct (Z.eqb_spec r 0) as [E0|N0]; cbn [round_nearest_even].
    - destruct (Z.ltb_spec (Z.sqrt M) r); [lia|reflexivity].
    - destruct (Z.leb_spec r (Z.sqrt M)); cbn [round_nearest_even];
        destruct (Z.ltb_spec (Z.sqrt M) r); try lia; reflexivity. }
  rewrite ER.
  rewrite to_uint64_normal.
  - replace (- - t) with t by lia. reflexivity.
  - unfold sqrt_round. destruct (_ <? _); lia.
  - lia.
Qed.

End FloatFacts.

(** ** The integer square root *)

Lemma sqrt_round_cases M :
  0 <= M ->
  let q := Z.sqrt M in
  q * q <= M < (q + 1) * (q + 1) /\ 0 <= q /\
  ((sqrt_round M = q /\ M <= q * q + q) \/
   (sqrt_round M = q + 1 /\ q * q + q < M)).
Proof.
  intros HM q. pose proof (Z.sqrt_spec M HM) as Hs. cbv zeta in Hs. fold q in Hs.
  pose proof (Z.sqrt_nonneg M). fold q in H.
  split; [lia|]. split; [lia|].
  unfold sqrt_round. fold q.
  destruct (Z.ltb_spec q (M - q * q)); [right|left]; lia.
Qed.

(** The rounded square root of [F], scaled by [P], truncated: within one of
    [k] as soon as [F] is close enough to the interval [k^2, (k+1)^2). *)
Lemma sqrt_round_div F P k :
  2 <= P -> 1 <= k -> 0 <= F ->
  P * (k * k - F) < k ->
  F <= k * k + 3 * k + 2 ->
  k <= sqrt_round (F * P * P) / P <= k + 1.
Proof.
  intros HP Hk HF H1 H2.
  assert (HM : 0 <= F * P * P) by nia.
  destruct (sqrt_round_cases _ HM) as (Hq & Hq0 & Hcase).
  set (M := F * P * P) in *. set (q := Z.sqrt M) in *.
  set (R := sqrt_round M) in *.
  split.
  - apply Z.div_le_lower_bound; [lia|].
    destruct (Z_le_gt_dec (P * k) R) as [|Hlt]; [assumption|exfalso].
    assert (HkP : 1 <= k * P) by nia.
    assert (Hup : M <= (k * P - 1) * (k * P - 1) + (k * P - 1)).
    { destruct Hcase as [[ER Hle]|[ER Hgt]].
      - assert (q <= k * P - 1) by lia. nia.
      - assert (q + 1 <= k * P - 1) by lia. nia. }
    assert (Hfac : P * (F * P - k * k * P + k) <= 0) by (subst M; nia).
    assert (F * P - k * k * P + k <= 0) by nia.
    nia.
  - assert (R / P < k + 2); [|lia].
    apply Z.div_lt_upper_bound; [lia|].
    destruct (Z_lt_ge_dec R (P * (k + 2))) as [|Hge]; [assumption|exfalso].
    assert (Hq' : (k + 2) * P - 1 <= q) by (destruct Hcase as [[ER _]|[ER _]]; lia).
    assert (0 <= (k + 2) * P - 1) by nia.
    assert (Hlow : ((k + 2) * P - 1) * ((k + 2) * P - 1) <= M) by nia.
    assert (HF2 : M <= (k + 1) * (k + 2) * P * P).
    { subst M. assert (F * (P * P) <= (k + 1) * (k + 2) * (P * P)); [|lia].
      apply Z.mul_le_mono_nonneg_r; nia. }
    assert (Hz : (k + 2) * P * (P - 2) + 1 <= 0) by nia.
    assert (0 <= (k + 2) * P * (P - 2)) by (apply Z.mul_nonneg_nonneg; nia).
    lia.
Qed.

Lemma sqrt_guess_bounds n :
  0 < n < 2 ^ 64 -> Z.sqrt n <= sqrt_guess n <= Z.sqrt n + 1.
Proof.
  intros Hn.
  destruct (of_Z_spec n Hn) as (mx & ex & Hof & Hmx & Hex & Hval).
  unfold sqrt_guess. rewrite Hof, sqrt_float_guess by assumption.
  pose proof (Z.sqrt_spec n ltac:(lia)) as Hk. cbv zeta in Hk.
  set (k := Z.sqrt n) in *.
  assert (Hk1 : 1 <= k).
  { change 1 with (Z.sqrt 1). apply Z.sqrt_le_mono. lia. }
  assert (Bdiv2 : 2 * Z.div2 ex <= ex <= 2 * Z.div2 ex + 1).
  { pose proof (Z.div2_odd ex) as Ho. destruct (Z.odd ex); cbn [Z.b2z] in Ho; lia. }
  set (t := 26 - Z.div2 ex) in *.
  assert (Ht : 20 <= t <= 52) by lia.
  assert (HP : 2 ^ 20 <= 2 ^ t) by (apply Z.pow_le_mono_r; lia).
  destruct Hval as [[Hle Hexact]|(Hpos & Hbig & Bhi & Blo)].
  - assert (EM : Z.pos mx * 2 ^ (ex + 2 * t) = n * 2 ^ t * 2 ^ t).
    { rewrite Hexact, <- !Z.mul_assoc, <- !Z.pow_add_r by lia. do 2 f_equal. lia. }
    rewrite EM. apply sqrt_round_div; nia.
  - assert (EM : Z.pos mx * 2 ^ (ex + 2 * t) = Z.pos mx * 2 ^ ex * 2 ^ t * 2 ^ t).
    { rewrite <- !Z.mul_assoc, <- !Z.pow_add_r by lia. do 2 f_equal. lia. }
    rewrite EM. clear EM.
    set (F := Z.pos mx * 2 ^ ex) in *.
    assert (Hk26 : Z.sqrt (2 ^ 53) <= k) by (apply Z.sqrt_le_mono; lia).
    change (Z.sqrt (2 ^ 53)) with 94906265 in Hk26.
    assert (Hpe : 2 ^ ex <= 2 ^ 12) by (apply Z.pow_le_mono_r; lia).
    assert (0 < 2 ^ ex) by (apply Z.pow_pos_nonneg; lia).
    change (2 ^ 12) with 4096 in Hpe.
    assert (HF0 : 0 <= F) by (subst F; apply Z.mul_nonneg_nonneg; lia).
    apply sqrt_round_div; [lia|lia|lia| |lia].
    destruct Blo as [Hge|[Hmag Hclose]].
    { assert (k * k - F <= 0) by lia.
      assert (2 ^ t * (k * k - F) <= 0) by (apply Z.mul_nonneg_nonpos; lia). lia. }
    assert (Hk' : Z.sqrt (2 ^ (ex + 52)) <= k) by (apply Z.sqrt_le_mono; lia).
    assert (Hex' : ex < 12).
    { destruct (Z_lt_ge_dec ex 12); [assumption|].
      assert (2 ^ 64 <= 2 ^ (ex + 52)) by (apply Z.pow_le_mono_r; lia). lia. }
    assert (Hd : k * k - F <= n - F) by lia.
    subst t.
    assert (ex = 1 \/ ex = 2 \/ ex = 3 \/ ex = 4 \/ ex = 5 \/ ex = 6 \/
            ex = 7 \/ ex = 8 \/ ex = 9 \/ ex = 10 \/ ex = 11) as Hcases by lia.
    repeat (destruct Hcases as [Hc|Hcases]);
      try (rewrite Hc in *; vm_compute (Z.sqrt _) in Hk';
           match goal with |- context [2 ^ ?e] => let v := eval vm_compute in (2 ^ e) in
                                                change (2 ^ e) with v end;
           match type of Hclose with context [2 ^ ?e] => let v := eval vm_compute in (2 ^ e) in
                                                change (2 ^ e) with v in Hclose end;
           lia).
    rewrite Hcases in *; vm_compute (Z.sqrt _) in Hk';
           match goal with |- context [2 ^ ?e] => let v := eval vm_compute in (2 ^ e) in
                                                change (2 ^ e) with v end;
           match type of Hclose with context [2 ^ ?e] => let v := eval vm_compute in (2 ^ e) in
                                                change (2 ^ e) with v in Hclose end;
           lia.
Qed.

Lemma newton_at_root n fuel :
  1 <= n < 2 ^ 64 -> newton (S fuel) n (Z.sqrt n) = Ok (Z.sqrt n).
Proof.
  intros Hn.
  pose proof (Z.sqrt_spec n ltac:(lia)) as Hk. cbv zeta in Hk. set (k := Z.sqrt n) in *.
  assert (Hk1 : 1 <= k) by (change 1 with (Z.sqrt 1); apply Z.sqrt_le_mono; lia).
  cbn [newton]. unfold U64.div.
  destruct (Z.eqb_spec k 0); [lia|]. cbn [bind].
  assert (k <= n / k) by (apply Z.div_le_lower_bound; lia).
  assert (n / k < k + 3) by (apply Z.div_lt_upper_bound; nia).
  assert (k < 2 ^ 32) by nia.
  unfold U64.add, U64.wrap, U64.modulus.
  rewrite Z.mod_small by lia.
  assert (k <= (k + n / k) / 2) by (apply Z.div_le_lower_bound; lia).
  destruct (Z.leb_spec k ((k + n / k) / 2)); [reflexivity|lia].
Qed.

(** From a guess that is the root or one above it, the loop returns the
    root within two rounds. *)
Lemma newton_from_guess n x fuel :
  1 <= n < 2 ^ 64 ->
  Z.sqrt n <= x <= Z.sqrt n + 1 ->
  newton (S (S fuel)) n x = Ok (Z.sqrt n).
Proof.
  intros Hn Hx.
  destruct (Z.eq_dec x (Z.sqrt n)) as [->|Hne].
  - apply newton_at_root; assumption.
  - assert (x = Z.sqrt n + 1) by lia. subst x.
    pose proof (Z.sqrt_spec n ltac:(lia)) as Hk. cbv zeta in Hk.
    pose proof (newton_at_root n fuel Hn) as Hroot.
    set (k := Z.sqrt n) in *.
    assert (Hk1 : 1 <= k) by (change 1 with (Z.sqrt 1); apply Z.sqrt_le_mono; lia).
    assert (k < 2 ^ 32) by nia.
    change (newton (S (S fuel)) n (k + 1)) with
      (q <- U64.div n (k + 1) ;;
       let x1 := U64.add (k + 1) q / 2 in
       if k + 1 <=? x1 then Ok (k + 1) else newton (S fuel) n x1).
    unfold U64.div. destruct (Z.eqb_spec (k + 1) 0); [lia|]. cbn [bind]. cbv zeta.
    assert (k - 1 <= n / (k + 1)) by (apply Z.div_le_lower_bound; nia).
    assert (n / (k + 1) < k + 1) by (apply Z.div_lt_upper_bound; nia).
    unfold U64.add, U64.wrap, U64.modulus. rewrite Z.mod_small by lia.
    assert (k <= (k + 1 + n / (k + 1)) / 2) by (apply Z.div_le_lower_bound; lia).
    assert ((k + 1 + n / (k + 1)) / 2 < k + 1) by (apply Z.div_lt_upper_bound; lia).
    assert (E : (k + 1 + n / (k + 1)) / 2 = k) by lia. rewrite E.
    destruct (Z.leb_spec (k + 1) k); [lia|]. exact Hroot.
Qed.

Lemma IntegerSquareRoot_floor n :
  0 <= n < 2 ^ 64 -> IntegerSquareRoot n = Ok (Z.sqrt n).
Proof.
  intros Hn. unfold IntegerSquareRoot.
  destruct (Z.eqb_spec n 0) as [->|Hne]; [reflexivity|].
  apply newton_from_guess; [lia|]. apply sqrt_guess_bounds. lia.
Qed.

(** ** Shared facts about the engine *)

Create HintDb u64 discriminated.

Lemma wrap_small z : 0 <= z < U64.modulus -> U64.wrap z = z.
Proof. intros H. unfold U64.wrap. apply Z.mod_small. exact H. Qed.

Lemma wrap_range z : 0 <= U64.wrap z < U64.modulus.
Proof. unfold U64.wrap. apply Z.mod_pos_bound. reflexivity. Qed.

Lemma wrap_nonneg z : 0 <= U64.wrap z.
Proof. apply wrap_range. Qed.

Lemma div_Ok a b : b <> 0 -> U64.div a b = Ok (a / b).
Proof. intros H. unfold U64.div. destruct (Z.eqb_spec b 0); [contradiction|reflexivity]. Qed.

Lemma sqrt_pos n : 0 < n -> 0 < Z.sqrt n.
Proof. intros H. apply Z.sqrt_pos. exact H. Qed.

#[export] Hint Resolve wrap_range wrap_nonneg sqrt_pos : u64.

Ltac modulus := unfold U64.in_range, U64.modulus in *.

(** The base reward of a listed validator, total on every positive total. *)
Lemma GetBaseReward_value s i v :
  index (Validators s) i = Ok v ->
  0 < TotalActiveBalance s < U64.modulus ->
  GetBaseReward s i =
  Ok (U64.mul (EffectiveBalance v) BASE_REWARD_FACTOR / Z.sqrt (TotalActiveBalance s)).
Proof.
  intros Hi HT. unfold GetBaseReward. rewrite Hi. cbn [bind].
  rewrite IntegerSquareRoot_floor by (modulus; lia). cbn [bind].
  apply div_Ok. pose proof (sqrt_pos (TotalActiveBalance s)). lia.
Qed.

Lemma GetBaseReward_zero_total s i v :
  index (Validators s) i = Ok v ->
  TotalActiveBalance s = 0 ->
  GetBaseReward s i = Panic DivideByZero.
Proof.
  intros Hi HT. unfold GetBaseReward. rewrite Hi, HT. reflexivity.
Qed.

(** Indexing succeeds exactly inside the slice. *)
Lemma index_inside {A : Type} (l : list A) i :
  0 <= i < Z.of_nat (List.length l) -> exists a, index l i = Ok a.
Proof.
  intros H. unfold index. destruct (Z.ltb_spec i 0); [lia|].
  destruct (nth_error l (Z.to_nat i)) eqn:E; [eexists; reflexivity|].
  apply nth_error_None in E. lia.
Qed.

Lemma index_outside {A : Type} (l : list A) i :
  i < 0 \/ Z.of_nat (List.length l) <= i -> index l i = Panic IndexOutOfRange.
Proof.
  intros H. unfold index. destruct (Z.ltb_spec i 0); [reflexivity|].
  destruct (nth_error l (Z.to_nat i)) eqn:E; [|reflexivity].
  assert (Hs : nth_error l (Z.to_nat i) <> None) by congruence.
  apply nth_error_Some in Hs. lia.
Qed.

Lemma index_Ok_inside {A : Type} (l : list A) i a :
  index l i = Ok a -> 0 <= i < Z.of_nat (List.length l).
Proof.
  intros H.
  destruct (Z_lt_ge_dec i 0) as [Hn|Hn];
    [rewrite index_outside in H by lia; discriminate|].
  destruct (Z_lt_ge_dec i (Z.of_nat (List.length l))) as [Hl|Hl]; [lia|].
  rewrite index_outside in H by lia. discriminate.
Qed.

(** A component of the base reward is below [2^58]: three of them add up
    without wrapping. *)
Lemma component_range b w : 0 <= component b w < 2 ^ 58.
Proof.
  unfold component, U64.mul, WEIGHT_DENOMINATOR.
  pose proof (wrap_range (b * w)) as H. unfold U64.modulus in H.
  split; [apply Z.div_pos; lia|].
  apply Z.div_lt_upper_bound; lia.
Qed.

(** The 64-bit sum of the components selected by three flags is their sum. *)
Lemma selected_sum b (cs ct ch : bool) :
  (let reward := 0 in
   let reward :=
     if cs then U64.add reward (component b TIMELY_SOURCE_WEIGHT) else reward in
   let reward :=
     if ct then U64.add reward (component b TIMELY_TARGET_WEIGHT) else reward in
   let reward :=
     if ch then U64.add reward (component b TIMELY_HEAD_WEIGHT) else reward in
   reward) = duties b cs ct ch.
Proof.
  pose proof (component_range b TIMELY_SOURCE_WEIGHT).
  pose proof (component_range b TIMELY_TARGET_WEIGHT).
  pose proof (component_range b TIMELY_HEAD_WEIGHT).
  cbv zeta. unfold duties, U64.add.
  destruct cs, ct, ch;
    repeat match goal with
           | |- context [U64.wrap ?z] =>
               rewrite (wrap_small z) by (unfold U64.modulus; lia)
           end; lia.
Qed.

Lemma duties_range b (cs ct ch : bool) : 0 <= duties b cs ct ch < 2 ^ 60.
Proof.
  pose proof (component_range b TIMELY_SOURCE_WEIGHT).
  pose proof (component_range b TIMELY_TARGET_WEIGHT).
  pose proof (component_range b TIMELY_HEAD_WEIGHT).
  unfold duties. destruct cs, ct, ch; lia.
Qed.

(** The reward of an attestation included without delay. *)
Lemma CalculateAttestationReward_ontime s i b (cs ct ch : bool) d :
  GetBaseReward s i = Ok b ->
  d <= MIN_ATTESTATION_INCLUSION_DELAY ->
  CalculateAttestationReward s i cs ct ch d = Ok (duties b cs ct ch).
Proof.
  intros Hb Hd. unfold CalculateAttestationReward. rewrite Hb. cbn [bind].
  pose proof (selected_sum b cs ct ch) as Hs. cbv zeta in Hs. cbv zeta. rewrite Hs.
  destruct (Z.ltb_spec MIN_ATTESTATION_INCLUSION_DELAY d); [lia|]. reflexivity.
Qed.

(** ** Comparing binary64 values exactly *)

Lemma valid_finite_bounds s m e :
  valid_binary Float64.prec Float64.emax (S754_finite s m e) = true ->
  -1074 <= e <= 971 /\ Zpos m < 2 ^ 53 /\ (-1074 < e -> 2 ^ 52 <= Zpos m).
Proof.
  unfold valid_binary, bounded, canonical_mantissa. intros H.
  apply andb_true_iff in H. destruct H as [Hc He].
  apply Z.eqb_eq in Hc. apply Z.leb_le in He.
  unfold fexp, emin, Float64.prec, Float64.emax in *.
  pose proof (Zdigits2_bounds m) as Hb. cbn [Zdigits2] in Hb.
  set (d := Z.pos (digits2_pos m)) in *.
  assert (Hd : 0 < d) by (subst d; lia).
  destruct (Z_le_gt_dec (3 - 1024 - 53) (d + e - 53)) as [Hn|Hs].
  - assert (d = 53) by lia. replace d with 53 in * by lia.
    repeat split; try lia.
  - assert (e = -1074) by lia.
    assert (2 ^ d <= 2 ^ 52) by (apply Z.pow_le_mono_r; lia).
    repeat split; try lia.
Qed.

Lemma ltb_exact m1 e1 m2 e2 :
  valid_binary Float64.prec Float64.emax (S754_finite false m1 e1) = true ->
  valid_binary Float64.prec Float64.emax (S754_finite false m2 e2) = true ->
  Float64.ltb (S754_finite false m1 e1) (S754_finite false m2 e2) = true <->
  Float64.scaled_value (S754_finite false m1 e1) < Float64.scaled_value (S754_finite false m2 e2).
Proof.
  intros V1 V2.
  destruct (valid_finite_bounds _ _ _ V1) as (He1 & Hm1 & Hn1).
  destruct (valid_finite_bounds _ _ _ V2) as (He2 & Hm2 & Hn2).
  unfold Float64.ltb, SFltb, SFcompare, Float64.scaled_value.
  assert (Hstep : forall a b, -1074 <= a < b ->
                    2 * 2 ^ (a + 1074) <= 2 ^ (b + 1074)).
  { intros a b Hab. rewrite <- Z.pow_succ_r by lia. apply Z.pow_le_mono_r; lia. }
  assert (P1 : 0 < 2 ^ (e1 + 1074)) by (apply Z.pow_pos_nonneg; lia).
  assert (P2 : 0 < 2 ^ (e2 + 1074)) by (apply Z.pow_pos_nonneg; lia).
  destruct (Z.compare_spec e1 e2) as [Heq|Hlt|Hgt].
  - subst e2. rewrite Pos.compare_cont_spec. cbn [Pos.switch_Eq].
    change (Pos.compare m1 m2) with (Z.compare (Zpos m1) (Zpos m2)).
    destruct (Z.compare_spec (Zpos m1) (Zpos m2)); split; intros; try discriminate;
      try reflexivity; nia.
  - pose proof (Hstep e1 e2 ltac:(lia)). split; [intros _|reflexivity].
    assert (2 ^ 52 <= Zpos m2) by (apply Hn2; lia). nia.
  - pose proof (Hstep e2 e1 ltac:(lia)). split; [discriminate|intros Hv].
    assert (2 ^ 52 <= Zpos m1) by (apply Hn1; lia). nia.
Qed.

(** ** What [CalculateRewards] is computed from *)

Import economics.

Lemma GetBaseRewardPerIncrement_value s :
  0 < TotalActiveBalance s < U64.modulus ->
  GetBaseRewardPerIncrement s =
  Ok (EFFECTIVE_BALANCE_INCREMENT * BASE_REWARD_FACTOR / Z.sqrt (TotalActiveBalance s)).
Proof.
  intros HT. unfold GetBaseRewardPerIncrement.
  rewrite IntegerSquareRoot_floor by (modulus; lia). cbn [bind].
  apply div_Ok. pose proof (sqrt_pos (TotalActiveBalance s)). lia.
Qed.

Ltac rewards_fields H :=
  unfold CalculateRewards in H;
  destruct (GetBaseReward _ 0) as [?b|?f]; [|discriminate H];
  destruct (IntegerSquareRoot _) as [?q|?f]; [|discriminate H];
  destruct (CalculateAttestationInclusionReward _ _) as [?a|?f]; [|discriminate H];
  cbn [bind] in H; injection H as H; subst.

(** On a state with a validator and a positive total, [CalculateRewards]
    returns, whatever the rate. *)
Lemma CalculateRewards_total s p :
  Validators s <> [] ->
  0 < TotalActiveBalance s < U64.modulus ->
  exists r, CalculateRewards s p = Ok r.
Proof.
  intros Hne HT. destruct (Validators s) as [|v l] eqn:Hv; [contradiction|].
  assert (Hi : index (Validators s) 0 = Ok v) by (rewrite Hv; reflexivity).
  unfold CalculateRewards, CalculateAttestationInclusionReward.
  rewrite (GetBaseReward_value s 0 v Hi HT).
  rewrite (GetBaseRewardPerIncrement_value s HT).
  rewrite IntegerSquareRoot_floor by (modulus; lia).
  cbn [bind]. eexists. reflexivity.
Qed.

(** ** The claims of the specification *)

(** *** C1 *)

(** C1, as stated, fails: a rate of 0 and a rate of 1.5 are both accepted,
    the first with an infinite multiplier. *)
Lemma CalculateRewards_accepts_any_rate :
  (exists r, CalculateRewards (createNetworkState 4096) (Float64.of_Z 0) = Ok r /\
             ParticipationMultiplier r = S754_infinity false) /\
  (exists r, CalculateRewards (createNetworkState 4096) (Float64.lit 15 10) = Ok r).
Proof.
  split.
  - eexists. split; [vm_compute; reflexivity|reflexivity].
  - eexists. vm_compute. reflexivity.
Qed.

(** C1, amended. [CalculateRewards] checks nothing and has no error
    result. On a state with a validator and a non-zero total it returns a
    result for every participation rate, inside (0, 1] or not, with the
    multiplier [1.0 / rate], infinite at rate 0; with a total of 0 the call
    stops at the integer division by zero in [GetBaseReward], its first
    computation; with no validator it stops at the index. *)
Theorem CalculateRewards_no_validation s p :
  0 <= TotalActiveBalance s < U64.modulus ->
  (Validators s = [] -> CalculateRewards s p = Panic IndexOutOfRange) /\
  (Validators s <> [] -> TotalActiveBalance s = 0 ->
   GetBaseReward s 0 = Panic DivideByZero /\
   CalculateRewards s p = Panic DivideByZero) /\
  (Validators s <> [] -> TotalActiveBalance s <> 0 ->
   exists r, CalculateRewards s p = Ok r /\
             ParticipationRate r = p /\
             ParticipationMultiplier r = Float64.div (Float64.of_Z 1) p /\
             (p = Float64.of_Z 0 -> ParticipationMultiplier r = S754_infinity false)).
Proof.
  intros HT. split; [|split].
  - intros Hnil. unfold CalculateRewards, GetBaseReward. rewrite Hnil. reflexivity.
  - intros Hne H0. destruct (Validators s) as [|v l] eqn:Hv; [contradiction|].
    assert (Hg : GetBaseReward s 0 = Panic DivideByZero).
    { apply (GetBaseReward_zero_total s 0 v); [rewrite Hv; reflexivity|exact H0]. }
    split; [exact Hg|]. unfold CalculateRewards. rewrite Hg. reflexivity.
  - intros Hne Hpos.
    destruct (CalculateRewards_total s p Hne ltac:(lia)) as [r Hr].
    exists r. split; [exact Hr|].
    assert (Hm : ParticipationMultiplier r = Float64.div (Float64.of_Z 1) p)
      by (rewards_fields Hr; reflexivity).
    split; [rewards_fields Hr; reflexivity|]. split; [exact Hm|].
    intros Hzero. rewrite Hm, Hzero. reflexivity.
Qed.

Lemma CalculateRewards_no_validation_witness :
  CalculateRewards (singleValidatorState MAX_EFFECTIVE_BALANCE 0 0 1000 998 "")
                   (Float64.lit 95 100)
  = Panic DivideByZero /\
  exists r,
    CalculateRewards (createNetworkState 4) (Float64.of_Z 0) = Ok r /\
    ParticipationMultiplier r = S754_infinity false.
Proof.
  split.
  - destruct (CalculateRewards_no_validation
                (singleValidatorState MAX_EFFECTIVE_BALANCE 0 0 1000 998 "")
                (Float64.lit 95 100)) as (_ & H & _).
    + vm_compute. split; [discriminate|reflexivity].
    + apply H; [discriminate|reflexivity].
  - destruct (CalculateRewards_no_validation (createNetworkState 4) (Float64.of_Z 0))
      as (_ & _ & H).
    + vm_compute. split; [discriminate|reflexivity].
    + destruct H as (r & Hr & _ & _ & Hinf); [discriminate|discriminate|].
      exists r. split; [exact Hr|]. apply Hinf. reflexivity.
Defined.

(** *** C2 *)

(** C2. For every 64-bit unsigned [n], [IntegerSquareRoot n] returns the
    floor of the square root of [n]: the result [r] satisfies
    [r^2 <= n < (r+1)^2]; and [IntegerSquareRoot 0] is 0. The loop needs at
    most two rounds from its floating-point guess, so the result does not
    depend on the iteration bound of the model. *)
Theorem IntegerSquareRoot_correct n :
  0 <= n < 2 ^ 64 ->
  exists r,
    IntegerSquareRoot n = Ok r /\
    0 <= r /\ r * r <= n < (r + 1) * (r + 1) /\
    (0 < n -> forall fuel, newton (S (S fuel)) n (sqrt_guess n) = Ok r) /\
    IntegerSquareRoot 0 = Ok 0.
Proof.
  intros Hn. exists (Z.sqrt n).
  split; [apply IntegerSquareRoot_floor; exact Hn|].
  pose proof (Z.sqrt_spec n (proj1 Hn)) as Hs. cbv zeta in Hs.
  pose proof (Z.sqrt_nonneg n) as H0.
  split; [exact H0|]. split; [lia|]. split; [|reflexivity].
  intros Hpos fuel. apply newton_from_guess; [lia|].
  apply sqrt_guess_bounds. lia.
Qed.

Lemma IntegerSquareRoot_correct_witness :
  exists r,
    IntegerSquareRoot 131072000000000 = Ok r /\
    0 <= r /\ r * r <= 131072000000000 < (r + 1) * (r + 1) /\
    (0 < 131072000000000 ->
     forall fuel, newton (S (S fuel)) 131072000000000 (sqrt_guess 131072000000000) = Ok r) /\
    IntegerSquareRoot 0 = Ok 0.
Proof. apply (IntegerSquareRoot_correct 131072000000000). lia. Defined.

(** *** C3 *)

(** C3, as stated, fails on [GetBaseReward]: a validator whose stored
    effective balance is twice the maximum gets twice the clamped reward. *)
Lemma GetBaseReward_not_clamped :
  GetBaseReward doubleBalanceState 0 = Ok 16190875 /\
  GetBaseReward doubleBalanceState 0 <>
    Ok (Z.min (2 * MAX_EFFECTIVE_BALANCE) MAX_EFFECTIVE_BALANCE * BASE_REWARD_FACTOR
        / Z.sqrt (TotalActiveBalance doubleBalanceState)).
Proof. split; [vm_compute; reflexivity|vm_compute; discriminate]. Qed.

(** C3, amended. [GetBaseReward] multiplies the validator's stored
    effective balance, unclamped, by [BASE_REWARD_FACTOR] in 64 bits and
    divides by the integer square root of the total, with no further
    division by [BASE_REWARDS_PER_EPOCH] (the legacy formula divides once
    more); for a balance up to [MAX_EFFECTIVE_BALANCE] that is the clamped
    formula. The clamp itself is in [Calculator.CalculateBaseReward] of
    package [rewards], which computes
    [min(balance, MAX) * BaseRewardFactor / isqrt(total)]. *)
Theorem base_reward_formula s i v c b :
  index (Validators s) i = Ok v ->
  0 <= EffectiveBalance v ->
  0 < TotalActiveBalance s < U64.modulus ->
  0 < rewards.TotalActiveBalance c ->
  GetBaseReward s i =
    Ok (U64.mul (EffectiveBalance v) BASE_REWARD_FACTOR / Z.sqrt (TotalActiveBalance s)) /\
  (EffectiveBalance v <= MAX_EFFECTIVE_BALANCE ->
   GetBaseReward s i =
     Ok (Z.min (EffectiveBalance v) MAX_EFFECTIVE_BALANCE * BASE_REWARD_FACTOR
         / Z.sqrt (TotalActiveBalance s))) /\
  GetBaseReward_legacy s i =
    Ok (U64.mul (EffectiveBalance v) BASE_REWARD_FACTOR / Z.sqrt (TotalActiveBalance s)
        / BASE_REWARDS_PER_EPOCH) /\
  rewards.CalculateBaseReward c b =
    Ok (U64.mul (Z.min b rewards.MAX_EFFECTIVE_BALANCE) (rewards.BaseRewardFactor c)
        / Z.sqrt (rewards.TotalActiveBalance c)).
Proof.
  intros Hi Hv HT Hc.
  pose proof (GetBaseReward_value s i v Hi HT) as Hg.
  split; [exact Hg|]. split; [|split].
  - intros Hmax. rewrite Hg. do 2 f_equal.
    rewrite Z.min_l by exact Hmax.
    unfold U64.mul. apply wrap_small.
    unfold MAX_EFFECTIVE_BALANCE, BASE_REWARD_FACTOR, U64.modulus in *. lia.
  - unfold GetBaseReward_legacy. rewrite Hi. cbn [bind].
    rewrite IntegerSquareRoot_floor by (modulus; lia). cbn [bind].
    rewrite div_Ok; [reflexivity|].
    assert (0 < Z.sqrt (TotalActiveBalance s)) by (apply sqrt_pos; lia). lia.
  - unfold rewards.CalculateBaseReward, rewards.IntegerSquareRoot.
    rewrite div_Ok by (pose proof (sqrt_pos _ Hc); lia).
    do 3 f_equal.
    destruct (Z.ltb_spec rewards.MAX_EFFECTIVE_BALANCE b); lia.
Qed.

Lemma base_reward_formula_witness :
  GetBaseReward (createNetworkState 4) 0 = Ok 5724348 /\
  rewards.CalculateBaseReward
    {| rewards.BaseRewardFactor := 64; rewards.TotalActiveBalance := 128000000000 |}
    64000000000 = Ok 5724348.
Proof.
  destruct (base_reward_formula (createNetworkState 4) 0
              (mkValidator MAX_EFFECTIVE_BALANCE 0)
              {| rewards.BaseRewardFactor := 64;
                 rewards.TotalActiveBalance := 128000000000 |}
              64000000000)
    as (H1 & _ & _ & H3).
  - reflexivity.
  - vm_compute. discriminate.
  - vm_compute. split; reflexivity.
  - reflexivity.
  - split; [rewrite H1|rewrite H3]; reflexivity.
Defined.

(** *** C4 *)

(** The participation block of [CalculateRewards] is
    [participation_economics] at binary64, applied to the two baseline
    annual rewards. *)
Lemma CalculateRewards_economics s p r :
  CalculateRewards s p = Ok r ->
  participation_economics float64_arithmetic
    (baseline_attestation_annual r) (baseline_proposer_annual r) p =
  {| baseAPY := BaseAPY r;
     participationMultiplier := ParticipationMultiplier r;
     attestationAnnual := AttestationRewardsAnnual r;
     proposerAnnual := ProposerRewardsAnnual r;
     totalAnnual := TotalAnnualRewards r;
     effectiveAPY := EffectiveAPY r |}.
Proof.
  intros H. rewards_fields H. reflexivity.
Qed.

(** C4, as stated, fails in binary64: with 4096 validators at a rate of 0.9
    the effective APY and the quotient [base_apy / rate] differ in the last
    place. *)
Lemma effective_apy_not_exact :
  exists r,
    CalculateRewards (createNetworkState 4096) (Float64.lit 9 10) = Ok r /\
    EffectiveAPY r = S754_finite false 6070899268416988 (-47) /\
    Float64.div (BaseAPY r) (Float64.lit 9 10)
      = S754_finite false 6070899268416987 (-47) /\
    Float64.eqb (EffectiveAPY r) (Float64.div (BaseAPY r) (Float64.lit 9 10)) = false.
Proof.
  eexists. split; [vm_compute; reflexivity|].
  split; [reflexivity|]. split; vm_compute; reflexivity.
Qed.

(** C4, amended. On every state with a validator and a positive total, and
    for every rate, [CalculateRewards] returns a result whose multiplier is
    the binary64 quotient [1.0 / rate]; the annual rewards are the two
    baseline values times it, and the effective APY is their sum over
    [MAX_EFFECTIVE_BALANCE], times 100: the participation block of the
    code, at binary64. The same block read over the rationals gives exactly
    [effective_apy = base_apy / rate] and a multiplier [1 / rate] for every
    non-zero rate; in binary64 every operation rounds and the equality can
    fail in the last place. *)
Theorem participation_identity s p :
  Validators s <> [] ->
  0 < TotalActiveBalance s < U64.modulus ->
  exists r,
    CalculateRewards s p = Ok r /\
    ParticipationMultiplier r = Float64.div (Float64.of_Z 1) p /\
    AttestationRewardsAnnual r
      = Float64.mul (baseline_attestation_annual r) (ParticipationMultiplier r) /\
    ProposerRewardsAnnual r
      = Float64.mul (baseline_proposer_annual r) (ParticipationMultiplier r) /\
    EffectiveAPY r
      = Float64.mul
          (Float64.div (Float64.add (AttestationRewardsAnnual r) (ProposerRewardsAnnual r))
                       (Float64.of_Z MAX_EFFECTIVE_BALANCE))
          (Float64.of_Z 100) /\
    APY r = EffectiveAPY r /\
    participation_economics float64_arithmetic
      (baseline_attestation_annual r) (baseline_proposer_annual r) p =
    {| baseAPY := BaseAPY r;
       participationMultiplier := ParticipationMultiplier r;
       attestationAnnual := AttestationRewardsAnnual r;
       proposerAnnual := ProposerRewardsAnnual r;
       totalAnnual := TotalAnnualRewards r;
       effectiveAPY := EffectiveAPY r |} /\
    (forall a b q : Q,
       ~ (q == 0)%Q ->
       let e := participation_economics exact_arithmetic a b q in
       (effectiveAPY e == baseAPY e / q)%Q /\
       (participationMultiplier e == 1 / q)%Q /\
       (totalAnnual e == (a + b) / q)%Q).
Proof.
  intros Hne HT. destruct (CalculateRewards_total s p Hne HT) as [r H].
  exists r. split; [exact H|].
  pose proof (CalculateRewards_economics s p r H) as He.
  do 5 (split; [clear He; rewards_fields H; reflexivity|]).
  split; [exact He|].
  intros a b q Hq e. subst e.
  unfold participation_economics, exact_arithmetic.
  cbn [plus times quot of_int baseAPY effectiveAPY participationMultiplier totalAnnual].
  split; [|split; [reflexivity|]].
  - field. split; [discriminate|exact Hq].
  - field. exact Hq.
Qed.

Lemma participation_identity_witness :
  exists r,
    CalculateRewards (createNetworkState 4) (Float64.lit 1 2) = Ok r /\
    ParticipationMultiplier r = Float64.of_Z 2.
Proof.
  destruct (participation_identity (createNetworkState 4) (Float64.lit 1 2))
    as (r & Hr & Hm & _).
  - discriminate.
  - vm_compute. split; reflexivity.
  - exists r. split; [exact Hr|]. rewrite Hm. vm_compute. reflexivity.
Defined.

(** *** C5 *)

Lemma thresholds_finite :
  threshold_critical = S754_finite false 6004199023210345 (-54) /\
  threshold_leak = S754_finite false 6005099743135819 (-53) /\
  threshold_caution = S754_finite false 7205759403792794 (-53).
Proof. repeat split; vm_compute; reflexivity. Qed.

(** Where the thresholds stand: 0.3333 is below one third, 0.6667 above two
    thirds. *)
Lemma thresholds_off_thirds :
  3 * Float64.scaled_value threshold_critical < Float64.scaled_one /\
  2 * Float64.scaled_one < 3 * Float64.scaled_value threshold_leak.
Proof. split; vm_compute; reflexivity. Qed.

(** C5, as stated, fails between the thirds and the thresholds of the
    code: 0.66669 is at least 2/3 and below 0.8, yet it gets the
    inactivity-leak warning, not the caution; 0.33332 is below 1/3, yet it
    is not critical; and the binary64 value nearest 2/3 is in the leak
    band. *)
Lemma health_bands_not_at_thirds :
  (2 * Float64.scaled_one <= 3 * Float64.scaled_value (Float64.lit 66669 100000) /\
   5 * Float64.scaled_value (Float64.lit 66669 100000) < 4 * Float64.scaled_one /\
   exists r, CalculateRewards (createNetworkState 4096) (Float64.lit 66669 100000) = Ok r /\
             NetworkHealthWarning r = warning_leak) /\
  (3 * Float64.scaled_value (Float64.lit 33332 100000) < Float64.scaled_one /\
   exists r, CalculateRewards (createNetworkState 4096) (Float64.lit 33332 100000) = Ok r /\
             NetworkHealthWarning r = warning_leak) /\
  (exists r, CalculateRewards (createNetworkState 4096) (Float64.lit 2 3) = Ok r /\
             NetworkHealthWarning r = warning_leak) /\
  warning_leak <> warning_caution /\ warning_leak <> warning_critical.
Proof.
  split; [|split; [|split; [|split]]].
  - split; [vm_compute; discriminate|]. split; [vm_compute; reflexivity|].
    eexists. split; [vm_compute; reflexivity|reflexivity].
  - split; [vm_compute; reflexivity|].
    eexists. split; [vm_compute; reflexivity|reflexivity].
  - eexists. split; [vm_compute; reflexivity|reflexivity].
  - discriminate.
  - discriminate.
Qed.

(** C5, amended. On every state with a validator and a positive total, the
    warning of the result follows bands cut at the binary64 constants
    0.3333, 0.6667 and 0.8: below 0.3333 critical, from 0.3333 to below
    0.6667 the inactivity-leak warning, from 0.6667 to below 0.8 the caution,
    from 0.8 no warning. For a positive finite rate the comparison is that
    of the exact values. Every rate from one third to two thirds lies in the
    leak band: 0.3333 is below one third and 0.6667 above two thirds. *)
Theorem network_health_bands s p :
  Validators s <> [] ->
  0 < TotalActiveBalance s < U64.modulus ->
  exists r,
    CalculateRewards s p = Ok r /\
    NetworkHealthWarning r =
      (if Float64.ltb p threshold_critical then warning_critical
       else if Float64.ltb p threshold_leak then warning_leak
       else if Float64.ltb p threshold_caution then warning_caution
       else ""%string) /\
    InactivityLeakActive r = Float64.ltb p threshold_leak /\
    (forall m e,
       p = S754_finite false m e ->
       valid_binary Float64.prec Float64.emax p = true ->
       let v := Float64.scaled_value p in
       let critical := Float64.scaled_value threshold_critical in
       let leak := Float64.scaled_value threshold_leak in
       let caution := Float64.scaled_value threshold_caution in
       (v < critical -> NetworkHealthWarning r = warning_critical) /\
       (critical <= v < leak -> NetworkHealthWarning r = warning_leak) /\
       (leak <= v < caution -> NetworkHealthWarning r = warning_caution) /\
       (caution <= v -> NetworkHealthWarning r = ""%string) /\
       (Float64.scaled_one <= 3 * v <= 2 * Float64.scaled_one ->
        NetworkHealthWarning r = warning_leak)) /\
    3 * Float64.scaled_value threshold_critical < Float64.scaled_one /\
    2 * Float64.scaled_one < 3 * Float64.scaled_value threshold_leak.
Proof.
  intros Hne HT. destruct (CalculateRewards_total s p Hne HT) as [r H].
  exists r. split; [exact H|].
  assert (Hw : NetworkHealthWarning r = networkHealthWarning p)
    by (rewards_fields H; reflexivity).
  assert (Hl : InactivityLeakActive r = Float64.ltb p threshold_leak)
    by (rewards_fields H; reflexivity).
  split; [rewrite Hw; reflexivity|]. split; [exact Hl|].
  split; [|exact thresholds_off_thirds].
  intros m e Hp Hvalid v critical leak caution.
  rewrite Hw. unfold networkHealthWarning.
  destruct thresholds_finite as (E1 & E2 & E3).
  destruct thresholds_off_thirds as (T1 & T2).
  pose proof (ltb_exact m e 6004199023210345 (-54)) as L1.
  pose proof (ltb_exact m e 6005099743135819 (-53)) as L2.
  pose proof (ltb_exact m e 7205759403792794 (-53)) as L3.
  rewrite <- Hp, <- E1 in L1. rewrite <- Hp, <- E2 in L2. rewrite <- Hp, <- E3 in L3.
  specialize (L1 Hvalid ltac:(rewrite E1; reflexivity)).
  specialize (L2 Hvalid ltac:(rewrite E2; reflexivity)).
  specialize (L3 Hvalid ltac:(rewrite E3; reflexivity)).
  fold v critical in L1. fold v leak in L2. fold v caution in L3.
  fold critical in T1. fold leak in T2.
  assert (O12 : critical < leak) by (vm_compute; reflexivity).
  assert (O23 : leak < caution) by (vm_compute; reflexivity).
  clearbody v critical leak caution.
  destruct (Float64.ltb p threshold_critical) eqn:B1;
    destruct (Float64.ltb p threshold_leak) eqn:B2;
    destruct (Float64.ltb p threshold_caution) eqn:B3;
    repeat match goal with
           | L : true = true <-> _ |- _ =>
               let T := fresh "T" in pose proof (proj1 L eq_refl) as T; clear L
           | L : false = true <-> ?P |- _ =>
               let T := fresh "T" in
               assert (T : ~ P) by (intro X; apply L in X; discriminate X); clear L
           end;
    repeat split; intros; try reflexivity; exfalso; lia.
Qed.

Lemma network_health_bands_witness :
  exists r,
    CalculateRewards (createNetworkState 4) (Float64.lit 1 2) = Ok r /\
    NetworkHealthWarning r = warning_leak.
Proof.
  destruct (network_health_bands (createNetworkState 4) (Float64.lit 1 2))
    as (r & Hr & Hw & _).
  - discriminate.
  - vm_compute. split; reflexivity.
  - exists r. split; [exact Hr|]. rewrite Hw. vm_compute. reflexivity.
Defined.

(** *** C6 *)

(** C6: the code at the slashing example of the README,
    [-v 4096 -s 100 --penalties]. The product
    [effective_balance * min(...)] is about [3 * 10^23] and wraps in 64
    bits: the code reports 48_606 where the formula gives 2_343_750_000. *)
Theorem CalculateSlashingPenalties_wraps :
  exists r,
    CalculateSlashingPenalties (createNetworkState 4096) 0 (100 * MAX_EFFECTIVE_BALANCE)
      = Ok r /\
    InitialPenalty r = MAX_EFFECTIVE_BALANCE / MIN_SLASHING_PENALTY_QUOTIENT_BELLATRIX /\
    ProportionalPenalty r = 48606 /\
    MAX_EFFECTIVE_BALANCE
      * Z.min (100 * MAX_EFFECTIVE_BALANCE * PROPORTIONAL_SLASHING_MULTIPLIER_BELLATRIX)
              (TotalActiveBalance (createNetworkState 4096))
      / TotalActiveBalance (createNetworkState 4096) = 2343750000 /\
    U64.modulus <=
      MAX_EFFECTIVE_BALANCE
      * Z.min (100 * MAX_EFFECTIVE_BALANCE * PROPORTIONAL_SLASHING_MULTIPLIER_BELLATRIX)
              (TotalActiveBalance (createNetworkState 4096)).
Proof.
  eexists. split; [vm_compute; reflexivity|].
  repeat split; vm_compute; try reflexivity. discriminate.
Qed.

(** Where nothing wraps, [CalculateSlashingPenalties] is the formula of the
    specification. *)
Lemma CalculateSlashingPenalties_in_range s i v totalSlashedBalance :
  index (Validators s) i = Ok v ->
  0 <= EffectiveBalance v -> 0 <= totalSlashedBalance ->
  0 < TotalActiveBalance s < U64.modulus ->
  let fork := GetForkConfig (CurrentFork s) in
  let clamped :=
    Z.min (totalSlashedBalance * ProportionalSlashingMultiplier fork)
          (TotalActiveBalance s) in
  totalSlashedBalance * ProportionalSlashingMultiplier fork < U64.modulus ->
  EffectiveBalance v * clamped < U64.modulus ->
  exists r,
    CalculateSlashingPenalties s i totalSlashedBalance = Ok r /\
    InitialPenalty r = EffectiveBalance v / MinSlashingPenaltyQuotient fork /\
    ProportionalPenalty r = EffectiveBalance v * clamped / TotalActiveBalance s /\
    ProportionalPenalty r <= EffectiveBalance v /\
    TotalPenalty r = U64.add (InitialPenalty r) (ProportionalPenalty r) /\
    WhistleblowerReward r = EffectiveBalance v / WHISTLEBLOWER_REWARD_QUOTIENT /\
    ProposerReward r = WhistleblowerReward r / PROPOSER_REWARD_QUOTIENT.
Proof.
  intros Hi Hv Hts HT fork clamped Hm Hp.
  assert (Hq : 0 < MinSlashingPenaltyQuotient fork /\
               0 <= ProportionalSlashingMultiplier fork).
  { subst fork. unfold GetForkConfig, fork_case.
    destruct (String.eqb _ "phase0"); [cbv; split; [reflexivity|discriminate]|].
    destruct (String.eqb _ "altair"); [cbv; split; [reflexivity|discriminate]|].
    destruct (String.eqb _ "bellatrix" || String.eqb _ "merge");
      cbv; split; [reflexivity|discriminate|reflexivity|discriminate]. }
  unfold CalculateSlashingPenalties. rewrite Hi. cbn [bind]. fold fork.
  rewrite div_Ok by lia. cbn [bind].
  assert (E1 : U64.mul totalSlashedBalance (ProportionalSlashingMultiplier fork)
               = totalSlashedBalance * ProportionalSlashingMultiplier fork).
  { unfold U64.mul. apply wrap_small. nia. }
  assert (E2 : calculator.min
                 (totalSlashedBalance * ProportionalSlashingMultiplier fork)
                 (TotalActiveBalance s) = clamped).
  { unfold calculator.min. subst clamped.
    destruct (Z.ltb_spec (totalSlashedBalance * ProportionalSlashingMultiplier fork)
                (TotalActiveBalance s)); lia. }
  rewrite E1, E2.
  assert (Hc : 0 <= clamped <= TotalActiveBalance s) by (subst clamped; nia).
  unfold U64.mul. rewrite wrap_small by nia.
  rewrite div_Ok by lia. cbn [bind].
  eexists. split; [reflexivity|].
  cbn [InitialPenalty ProportionalPenalty TotalPenalty WhistleblowerReward ProposerReward].
  repeat split; try reflexivity.
  apply Z.div_le_upper_bound; [lia|]. nia.
Qed.

(** Wrapped or not, the proportional penalty never exceeds the effective
    balance. *)
Lemma ProportionalPenalty_bounded s i v totalSlashedBalance :
  index (Validators s) i = Ok v ->
  0 <= EffectiveBalance v ->
  0 < TotalActiveBalance s < U64.modulus ->
  exists r,
    CalculateSlashingPenalties s i totalSlashedBalance = Ok r /\
    0 <= ProportionalPenalty r <= EffectiveBalance v.
Proof.
  intros Hi Hv HT.
  unfold CalculateSlashingPenalties. rewrite Hi. cbn [bind].
  set (fork := GetForkConfig (CurrentFork s)).
  assert (Hq : MinSlashingPenaltyQuotient fork <> 0).
  { subst fork. unfold GetForkConfig, fork_case.
    destruct (String.eqb _ "phase0"); [discriminate|].
    destruct (String.eqb _ "altair"); [discriminate|].
    destruct (String.eqb _ "bellatrix" || String.eqb _ "merge"); discriminate. }
  rewrite (div_Ok _ _ Hq). cbn [bind].
  rewrite div_Ok by lia. cbn [bind].
  eexists. split; [reflexivity|]. cbn [ProportionalPenalty].
  set (x := U64.mul totalSlashedBalance (ProportionalSlashingMultiplier fork)).
  assert (Hx : 0 <= x < U64.modulus) by (subst x; unfold U64.mul; auto with u64).
  assert (Hm : 0 <= calculator.min x (TotalActiveBalance s) <= TotalActiveBalance s).
  { unfold calculator.min. destruct (Z.ltb_spec x (TotalActiveBalance s)); lia. }
  set (m := calculator.min x (TotalActiveBalance s)) in *.
  assert (Hw : 0 <= U64.mul (EffectiveBalance v) m <= EffectiveBalance v * m).
  { unfold U64.mul. split; [apply wrap_range|].
    unfold U64.wrap. apply Z.mod_le; [nia|reflexivity]. }
  split.
  - apply Z.div_pos; lia.
  - apply Z.div_le_upper_bound; [lia|]. nia.
Qed.

(** *** C7 *)



(** *** C8 *)

Lemma GetForkConfig_default fork :
  fork <> "phase0"%string -> fork <> "altair"%string ->
  fork <> "bellatrix"%string -> fork <> "merge"%string ->
  GetForkConfig fork = GetForkConfig "bellatrix".
Proof.
  intros H1 H2 H3 H4. unfold GetForkConfig, fork_case.
  apply String.eqb_neq in H1, H2, H3, H4. rewrite H1, H2, H3, H4. reflexivity.
Qed.

Lemma InactivityPenaltyQuotient_pos fork :
  0 < InactivityPenaltyQuotient (GetForkConfig fork) <= INACTIVITY_PENALTY_QUOTIENT.
Proof.
  unfold GetForkConfig, fork_case.
  destruct (String.eqb fork "phase0"); [cbv; split; [reflexivity|discriminate]|].
  destruct (String.eqb fork "altair"); [cbv; split; [reflexivity|discriminate]|].
  destruct (String.eqb fork "bellatrix" || String.eqb fork "merge");
    cbv; split; [reflexivity|discriminate|reflexivity|discriminate].
Qed.

Lemma fork_quotients fork :
  let c := GetForkConfig fork in
  (c = GetForkConfig "phase0" \/ c = GetForkConfig "altair"
   \/ c = GetForkConfig "bellatrix") /\
  0 < InactivityPenaltyQuotient c /\
  0 < MinSlashingPenaltyQuotient c /\
  0 < ProportionalSlashingMultiplier c.
Proof.
  unfold GetForkConfig, fork_case.
  destruct (String.eqb fork "phase0");
    [cbv; repeat split; auto|].
  destruct (String.eqb fork "altair");
    [cbv; repeat split; auto|].
  destruct (String.eqb fork "bellatrix" || String.eqb fork "merge");
    cbv; repeat split; auto.
Qed.

(** The inactivity penalty of a listed validator, for every fork name. *)
Lemma GetInactivityPenalty_value s i v :
  index (Validators s) i = Ok v ->
  GetInactivityPenalty s i =
  Ok (if CurrentEpoch s <=? U64.add (FinalizedEpoch s) MIN_ATTESTATION_INCLUSION_DELAY
      then 0
      else U64.mul (EffectiveBalance v) (types.InactivityScore v)
           / (INACTIVITY_SCORE_BIAS
              * InactivityPenaltyQuotient (GetForkConfig (CurrentFork s)))).
Proof.
  intros Hi. unfold GetInactivityPenalty. rewrite Hi. cbn [bind].
  destruct (CurrentEpoch s <=? _); [reflexivity|].
  pose proof (InactivityPenaltyQuotient_pos (CurrentFork s)) as Hq.
  set (q := InactivityPenaltyQuotient (GetForkConfig (CurrentFork s))) in *.
  assert (Hden : U64.mul INACTIVITY_SCORE_BIAS q = INACTIVITY_SCORE_BIAS * q).
  { unfold U64.mul. apply wrap_small.
    unfold INACTIVITY_SCORE_BIAS, INACTIVITY_PENALTY_QUOTIENT, U64.modulus in *. lia. }
  rewrite Hden. apply div_Ok. unfold INACTIVITY_SCORE_BIAS. lia.
Qed.

(** C8, as stated, fails where the 64-bit arithmetic of the code wraps
    around. With a balance of 32 ETH and a score of 10^9 the product passes
    [2^64] and the penalty is 100979625629, not 238418579101. With a
    finalized epoch of [2^64 - 1] and a score of 3996 (what the command line
    sets for 999 epochs without finality) the 64-bit sum
    [finalized_epoch + 1] is 0: the current epoch 1000 is not above
    [finalized_epoch + 1], yet the penalty is 952720, not 0. *)
Lemma GetInactivityPenalty_wraps :
  (let s := singleValidatorState MAX_EFFECTIVE_BALANCE 1000000000
              (4096 * MAX_EFFECTIVE_BALANCE) 1000 988 "" in
   FinalizedEpoch s + MIN_ATTESTATION_INCLUSION_DELAY < CurrentEpoch s /\
   GetInactivityPenalty s 0 = Ok 100979625629 /\
   MAX_EFFECTIVE_BALANCE * 1000000000
   / (INACTIVITY_SCORE_BIAS * InactivityPenaltyQuotient (GetForkConfig (CurrentFork s)))
   = 238418579101) /\
  (let s := singleValidatorState MAX_EFFECTIVE_BALANCE 3996
              (4096 * MAX_EFFECTIVE_BALANCE) 1000 (2 ^ 64 - 1) "" in
   CurrentEpoch s <= FinalizedEpoch s + MIN_ATTESTATION_INCLUSION_DELAY /\
   GetInactivityPenalty s 0 = Ok 952720).
Proof.
  split; cbv zeta.
  - split; [vm_compute; reflexivity|]. split; vm_compute; reflexivity.
  - split; [vm_compute; discriminate|vm_compute; reflexivity].
Qed.

(** C8, amended. For every state and listed validator [GetInactivityPenalty]
    returns a value, whatever the fork name. The epoch sum
    [finalized_epoch + MIN_ATTESTATION_INCLUSION_DELAY] and the product
    [effective_balance * inactivity_score] are 64-bit: the penalty is 0 when
    the current epoch is not above the 64-bit sum, and the 64-bit product
    over [INACTIVITY_SCORE_BIAS * quotient] otherwise. Where the sum fits in
    64 bits the penalty is 0 exactly when
    [current_epoch <= finalized_epoch + MIN_ATTESTATION_INCLUSION_DELAY], and
    where the product fits too it is
    [effective_balance * inactivity_score / (INACTIVITY_SCORE_BIAS * quotient)]
    in the other case. The quotient is the one of the state's fork, an
    unknown fork name giving the default (bellatrix) quotient. *)
Theorem GetInactivityPenalty_formula s i v :
  index (Validators s) i = Ok v ->
  let quotient := InactivityPenaltyQuotient (GetForkConfig (CurrentFork s)) in
  ((U64.add (FinalizedEpoch s) MIN_ATTESTATION_INCLUSION_DELAY < CurrentEpoch s ->
    GetInactivityPenalty s i =
      Ok (U64.mul (EffectiveBalance v) (InactivityScore v)
          / (INACTIVITY_SCORE_BIAS * quotient))) /\
   (CurrentEpoch s <= U64.add (FinalizedEpoch s) MIN_ATTESTATION_INCLUSION_DELAY ->
    GetInactivityPenalty s i = Ok 0)) /\
  (0 <= FinalizedEpoch s ->
   FinalizedEpoch s + MIN_ATTESTATION_INCLUSION_DELAY < U64.modulus ->
   (CurrentEpoch s <= FinalizedEpoch s + MIN_ATTESTATION_INCLUSION_DELAY ->
    GetInactivityPenalty s i = Ok 0) /\
   (FinalizedEpoch s + MIN_ATTESTATION_INCLUSION_DELAY < CurrentEpoch s ->
    0 <= EffectiveBalance v * InactivityScore v < U64.modulus ->
    GetInactivityPenalty s i =
      Ok (EffectiveBalance v * InactivityScore v
          / (INACTIVITY_SCORE_BIAS * quotient)))) /\
  (CurrentFork s <> "phase0"%string -> CurrentFork s <> "altair"%string ->
   CurrentFork s <> "bellatrix"%string -> CurrentFork s <> "merge"%string ->
   quotient = INACTIVITY_PENALTY_QUOTIENT_BELLATRIX) /\
  InactivityPenaltyQuotient (GetForkConfig "phase0") = INACTIVITY_PENALTY_QUOTIENT /\
  InactivityPenaltyQuotient (GetForkConfig "altair") = INACTIVITY_PENALTY_QUOTIENT_ALTAIR /\
  InactivityPenaltyQuotient (GetForkConfig "bellatrix")
    = INACTIVITY_PENALTY_QUOTIENT_BELLATRIX.
Proof.
  intros Hi quotient. subst quotient.
  pose proof (GetInactivityPenalty_value s i v Hi) as Hv.
  split; [|split; [|split; [|repeat split]]].
  - split; intros Hwin; rewrite Hv.
    + destruct (Z.leb_spec (CurrentEpoch s)
                  (U64.add (FinalizedEpoch s) MIN_ATTESTATION_INCLUSION_DELAY));
        [lia|reflexivity].
    + destruct (Z.leb_spec (CurrentEpoch s)
                  (U64.add (FinalizedEpoch s) MIN_ATTESTATION_INCLUSION_DELAY));
        [reflexivity|lia].
  - intros Hf Hsum.
    assert (Hadd : U64.add (FinalizedEpoch s) MIN_ATTESTATION_INCLUSION_DELAY
                   = FinalizedEpoch s + MIN_ATTESTATION_INCLUSION_DELAY).
    { unfold U64.add. apply wrap_small. unfold MIN_ATTESTATION_INCLUSION_DELAY in *. lia. }
    rewrite Hv, Hadd.
    destruct (Z.leb_spec (CurrentEpoch s)
                (FinalizedEpoch s + MIN_ATTESTATION_INCLUSION_DELAY)).
    + split; [reflexivity|lia].
    + split; [lia|]. intros _ Hprod.
      unfold U64.mul. rewrite wrap_small by exact Hprod. reflexivity.
  - intros H1 H2 H3 H4. rewrite GetForkConfig_default by assumption. reflexivity.
Qed.

Lemma GetInactivityPenalty_formula_witness :
  GetInactivityPenalty
    (singleValidatorState MAX_EFFECTIVE_BALANCE 40 (4096 * MAX_EFFECTIVE_BALANCE)
                          1000 988 "capella") 0
  = Ok (MAX_EFFECTIVE_BALANCE * 40
        / (INACTIVITY_SCORE_BIAS * INACTIVITY_PENALTY_QUOTIENT_BELLATRIX)).
Proof.
  destruct (GetInactivityPenalty_formula
              (singleValidatorState MAX_EFFECTIVE_BALANCE 40
                 (4096 * MAX_EFFECTIVE_BALANCE) 1000 988 "capella")
              0 (mkValidator MAX_EFFECTIVE_BALANCE 40))
    as (_ & H2 & H3 & _).
  - reflexivity.
  - destruct H2 as (_ & H2).
    + vm_compute. discriminate.
    + vm_compute. reflexivity.
    + rewrite H2.
      * rewrite H3 by discriminate. reflexivity.
      * vm_compute. reflexivity.
      * vm_compute. split; [discriminate|reflexivity].
Defined.

(** *** C9 *)



(** *** C10 *)

(** The divisor of a late attestation: the 64-bit value of
    [PROPOSER_REWARD_QUOTIENT + d - MIN_ATTESTATION_INCLUSION_DELAY]. *)
Lemma delay_divisor d :
  U64.sub (U64.add PROPOSER_REWARD_QUOTIENT d) MIN_ATTESTATION_INCLUSION_DELAY
  = U64.wrap (PROPOSER_REWARD_QUOTIENT + d - MIN_ATTESTATION_INCLUSION_DELAY).
Proof.
  unfold U64.sub, U64.add, U64.wrap. apply Zminus_mod_idemp_l.
Qed.

(** The reward of a late attestation, from the on-time reward. *)
Lemma CalculateAttestationReward_late s i b (cs ct ch : bool) d :
  GetBaseReward s i = Ok b ->
  MIN_ATTESTATION_INCLUSION_DELAY < d ->
  CalculateAttestationReward s i cs ct ch d =
  if 0 <? duties b cs ct ch
  then U64.div (duties b cs ct ch * PROPOSER_REWARD_QUOTIENT)
               (U64.wrap (PROPOSER_REWARD_QUOTIENT + d - MIN_ATTESTATION_INCLUSION_DELAY))
  else Ok 0.
Proof.
  intros Hb Hd. unfold CalculateAttestationReward. rewrite Hb. cbn [bind].
  pose proof (selected_sum b cs ct ch) as Hs. cbv zeta in Hs. cbv zeta. rewrite Hs.
  pose proof (duties_range b cs ct ch) as Hr.
  destruct (Z.ltb_spec MIN_ATTESTATION_INCLUSION_DELAY d); [|lia]. cbn [andb].
  destruct (Z.ltb_spec 0 (duties b cs ct ch)) as [Hpos|Hzero].
  - rewrite delay_divisor. unfold U64.mul.
    rewrite wrap_small by (unfold PROPOSER_REWARD_QUOTIENT, U64.modulus; lia).
    reflexivity.
  - f_equal. lia.
Qed.

(** C10, as stated, fails for the last delays of the 64-bit range, where the
    divisor [PROPOSER_REWARD_QUOTIENT + d - MIN_ATTESTATION_INCLUSION_DELAY]
    wraps around: at [d = 2^64 - 7] it is 0 and the call panics; at
    [d = 2^64 - 6] it is 1 and the reward is 8 times the on-time reward. *)
Lemma CalculateAttestationReward_delay_wraps :
  let s := createNetworkState 4 in
  CalculateAttestationReward s 0 true true true MIN_ATTESTATION_INCLUSION_DELAY
    = Ok 4829918 /\
  MIN_ATTESTATION_INCLUSION_DELAY < 2 ^ 64 - 7 < 2 ^ 64 - 6 /\
  2 ^ 64 - 6 < U64.modulus /\
  CalculateAttestationReward s 0 true true true (2 ^ 64 - 7) = Panic DivideByZero /\
  CalculateAttestationReward s 0 true true true (2 ^ 64 - 6) = Ok 38639344 /\
  4829918 * PROPOSER_REWARD_QUOTIENT
  / (PROPOSER_REWARD_QUOTIENT + (2 ^ 64 - 6) - MIN_ATTESTATION_INCLUSION_DELAY) = 0 /\
  4829918 < 38639344.
Proof.
  cbv zeta. repeat split; vm_compute; reflexivity.
Qed.

(** C10, amended. On a state with a positive total and a listed validator,
    for every delay [d] above [MIN_ATTESTATION_INCLUSION_DELAY] whose divisor
    [PROPOSER_REWARD_QUOTIENT + d - MIN_ATTESTATION_INCLUSION_DELAY] fits in
    64 bits, [CalculateAttestationReward] returns the on-time reward times
    [PROPOSER_REWARD_QUOTIENT] divided by that divisor; over these delays it
    is never above the on-time reward and does not increase with the delay.
    The divisor is a 64-bit value: for every delay above the minimum the
    reward is the on-time reward times [PROPOSER_REWARD_QUOTIENT] (a product
    that always fits) divided by the 64-bit divisor, or 0 when the on-time
    reward is 0. *)
Theorem CalculateAttestationReward_delay s i v cs ct ch :
  index (Validators s) i = Ok v ->
  0 < TotalActiveBalance s < U64.modulus ->
  exists ontime,
    CalculateAttestationReward s i cs ct ch MIN_ATTESTATION_INCLUSION_DELAY = Ok ontime /\
    0 <= ontime /\
    (forall d d',
       MIN_ATTESTATION_INCLUSION_DELAY < d <= d' ->
       PROPOSER_REWARD_QUOTIENT + d' - MIN_ATTESTATION_INCLUSION_DELAY < U64.modulus ->
       exists late late',
         CalculateAttestationReward s i cs ct ch d = Ok late /\
         CalculateAttestationReward s i cs ct ch d' = Ok late' /\
         late = ontime * PROPOSER_REWARD_QUOTIENT
                / (PROPOSER_REWARD_QUOTIENT + d - MIN_ATTESTATION_INCLUSION_DELAY) /\
         late <= ontime /\ late' <= late) /\
    (forall d,
       MIN_ATTESTATION_INCLUSION_DELAY < d ->
       CalculateAttestationReward s i cs ct ch d =
       if 0 <? ontime
       then U64.div (ontime * PROPOSER_REWARD_QUOTIENT)
              (U64.wrap (PROPOSER_REWARD_QUOTIENT + d - MIN_ATTESTATION_INCLUSION_DELAY))
       else Ok 0).
Proof.
  intros Hi HT.
  pose proof (GetBaseReward_value s i v Hi HT) as Hg.
  set (b := U64.mul (EffectiveBalance v) BASE_REWARD_FACTOR
            / Z.sqrt (TotalActiveBalance s)) in *.
  pose proof (duties_range b cs ct ch) as Hr.
  set (ontime := duties b cs ct ch) in *.
  assert (Hlate : forall x, MIN_ATTESTATION_INCLUSION_DELAY < x ->
            PROPOSER_REWARD_QUOTIENT + x - MIN_ATTESTATION_INCLUSION_DELAY < U64.modulus ->
            CalculateAttestationReward s i cs ct ch x =
            Ok (ontime * PROPOSER_REWARD_QUOTIENT
                / (PROPOSER_REWARD_QUOTIENT + x - MIN_ATTESTATION_INCLUSION_DELAY))).
  { intros x Hx Hfit. rewrite (CalculateAttestationReward_late s i b cs ct ch x Hg Hx).
    fold ontime.
    unfold MIN_ATTESTATION_INCLUSION_DELAY, PROPOSER_REWARD_QUOTIENT in *.
    destruct (Z.ltb_spec 0 ontime) as [Hpos|Hzero].
    - rewrite wrap_small by lia. apply div_Ok. lia.
    - replace ontime with 0 by lia. reflexivity. }
  exists ontime.
  split; [apply (CalculateAttestationReward_ontime s i b cs ct ch _ Hg); lia|].
  split; [lia|]. split.
  - intros d d' Hd Hfit. eexists _, _.
    split; [apply Hlate; lia|]. split; [apply Hlate; lia|].
    split; [reflexivity|].
    unfold MIN_ATTESTATION_INCLUSION_DELAY, PROPOSER_REWARD_QUOTIENT in *.
    split.
    + apply Z.div_le_upper_bound; nia.
    + apply Z.div_le_compat_l; lia.
  - intros d Hd. apply (CalculateAttestationReward_late s i b cs ct ch d Hg Hd).
Qed.

Lemma CalculateAttestationReward_delay_witness :
  exists ontime late late',
    CalculateAttestationReward (createNetworkState 4) 0 true true false 1 = Ok ontime /\
    CalculateAttestationReward (createNetworkState 4) 0 true true false 3 = Ok late /\
    CalculateAttestationReward (createNetworkState 4) 0 true true false 5 = Ok late' /\
    late = ontime * 8 / (8 + 3 - 1) /\ late <= ontime /\ late' <= late.
Proof.
  destruct (CalculateAttestationReward_delay (createNetworkState 4) 0
              (mkValidator MAX_EFFECTIVE_BALANCE 0) true true false)
    as (ontime & H1 & _ & H2 & _).
  - reflexivity.
  - vm_compute. split; reflexivity.
  - destruct (H2 3 5) as (late & late' & H3 & H4 & H5).
    + vm_compute. split; [reflexivity|discriminate].
    + vm_compute. reflexivity.
    + exists ontime, late, late'. split; [exact H1|].
      split; [exact H3|]. split; [exact H4|]. exact H5.
Defined.

(** * Further properties of the engine *)

(** ** The integer square root *)

(** X1. [IntegerSquareRoot] inverts squaring: for every [k] below [2^32] it
    returns [k] on [k * k], and on every number from [k * k] up to
    [k * k + 2 * k], the last one before the next square. *)
Theorem IntegerSquareRoot_of_square k j :
  0 <= k < 2 ^ 32 ->
  0 <= j <= 2 * k ->
  IntegerSquareRoot (k * k) = Ok k /\
  IntegerSquareRoot (k * k + j) = Ok k.
Proof.
  intros Hk Hj.
  assert (S : forall x, 0 <= x <= 2 * k -> IntegerSquareRoot (k * k + x) = Ok k).
  { intros x Hx. rewrite IntegerSquareRoot_floor by nia.
    f_equal. apply Z.sqrt_unique. nia. }
  split; [|apply S; exact Hj].
  replace (k * k) with (k * k + 0) by lia. apply S. lia.
Qed.

Lemma IntegerSquareRoot_of_square_witness :
  IntegerSquareRoot (4294967295 * 4294967295) = Ok 4294967295 /\
  IntegerSquareRoot (4294967295 * 4294967295 + 8589934590) = Ok 4294967295.
Proof.
  apply (IntegerSquareRoot_of_square 4294967295 8589934590); lia.
Defined.

(** X2. [IntegerSquareRoot] is monotone on the 64-bit integers, its result
    is below [2^32], and it is 0 only at 0. *)
Theorem IntegerSquareRoot_monotone n m :
  0 <= n <= m ->
  m < 2 ^ 64 ->
  exists a b,
    IntegerSquareRoot n = Ok a /\ IntegerSquareRoot m = Ok b /\
    0 <= a <= b /\ b < 2 ^ 32 /\ (0 < n -> 0 < a).
Proof.
  intros Hn Hm. exists (Z.sqrt n), (Z.sqrt m).
  split; [apply IntegerSquareRoot_floor; lia|].
  split; [apply IntegerSquareRoot_floor; lia|].
  pose proof (Z.sqrt_le_mono n m ltac:(lia)).
  pose proof (Z.sqrt_nonneg n).
  pose proof (Z.sqrt_spec m ltac:(lia)) as Hs. cbv zeta in Hs.
  split; [lia|]. split; [nia|]. apply sqrt_pos.
Qed.

Lemma IntegerSquareRoot_monotone_witness :
  exists a b,
    IntegerSquareRoot 32000000000 = Ok a /\
    IntegerSquareRoot 18446744073709551615 = Ok b /\
    0 <= a <= b /\ b < 2 ^ 32 /\ (0 < 32000000000 -> 0 < a).
Proof.
  apply (IntegerSquareRoot_monotone 32000000000 18446744073709551615); lia.
Defined.

(** ** Failures of the base reward *)

(** X3. [GetBaseReward] fails in exactly two ways: with an index-out-of-range
    panic when the index is not one of the validators (whatever the total),
    and with a division by zero when the index is valid and the total active
    balance is 0. On a valid index and a positive total it returns a 64-bit
    value. *)
Theorem GetBaseReward_outcome s i :
  0 <= TotalActiveBalance s < U64.modulus ->
  let n := Z.of_nat (List.length (Validators s)) in
  (i < 0 \/ n <= i -> GetBaseReward s i = Panic IndexOutOfRange) /\
  (0 <= i < n -> TotalActiveBalance s = 0 -> GetBaseReward s i = Panic DivideByZero) /\
  (0 <= i < n -> 0 < TotalActiveBalance s ->
   exists b, GetBaseReward s i = Ok b /\ 0 <= b < U64.modulus).
Proof.
  intros HT n. split; [|split].
  - intros Hi. unfold GetBaseReward. rewrite (index_outside _ _ Hi). reflexivity.
  - intros Hi H0. destruct (index_inside _ _ Hi) as [v Hv].
    apply (GetBaseReward_zero_total s i v Hv H0).
  - intros Hi Hpos. destruct (index_inside _ _ Hi) as [v Hv].
    rewrite (GetBaseReward_value s i v Hv) by lia.
    eexists. split; [reflexivity|].
    pose proof (sqrt_pos _ Hpos) as Hk.
    pose proof (wrap_range (EffectiveBalance v * BASE_REWARD_FACTOR)) as Hw.
    unfold U64.mul. split; [apply Z.div_pos; lia|].
    apply Z.div_lt_upper_bound; [lia|]. nia.
Qed.

Lemma GetBaseReward_outcome_witness :
  GetBaseReward (createNetworkState 4) 4 = Panic IndexOutOfRange /\
  GetBaseReward (createNetworkState 4) (-1) = Panic IndexOutOfRange /\
  exists b, GetBaseReward (createNetworkState 4) 3 = Ok b /\ 0 <= b < U64.modulus.
Proof.
  destruct (GetBaseReward_outcome (createNetworkState 4) 4) as (H1 & _ & _);
    [vm_compute; split; [discriminate|reflexivity]|].
  destruct (GetBaseReward_outcome (createNetworkState 4) (-1)) as (H2 & _ & _);
    [vm_compute; split; [discriminate|reflexivity]|].
  destruct (GetBaseReward_outcome (createNetworkState 4) 3) as (_ & _ & H3);
    [vm_compute; split; [discriminate|reflexivity]|].
  split; [apply H1; right; vm_compute; discriminate|].
  split; [apply H2; left; reflexivity|].
  apply H3; vm_compute; [split; [discriminate|reflexivity]|reflexivity].
Defined.


(** ** Attestation rewards and the penalties for missed duties *)

(** X4. The division of [CalculateAttestationReward] by
    [PROPOSER_REWARD_QUOTIENT + inclusionDelay - MIN_ATTESTATION_INCLUSION_DELAY]
    is a 64-bit one: for a listed validator on a positive total, the call
    panics with a division by zero exactly when the delay is [2^64 - 7] and
    the on-time reward is positive. Every other delay returns, and a delay
    of at most [MIN_ATTESTATION_INCLUSION_DELAY] returns the on-time
    reward. *)
Theorem CalculateAttestationReward_outcome s i v (cs ct ch : bool) d :
  index (Validators s) i = Ok v ->
  0 < TotalActiveBalance s < U64.modulus ->
  0 <= d < U64.modulus ->
  exists ontime,
    CalculateAttestationReward s i cs ct ch MIN_ATTESTATION_INCLUSION_DELAY = Ok ontime /\
    0 <= ontime /\
    (d <= MIN_ATTESTATION_INCLUSION_DELAY ->
     CalculateAttestationReward s i cs ct ch d = Ok ontime) /\
    (d = U64.modulus - 7 -> 0 < ontime ->
     CalculateAttestationReward s i cs ct ch d = Panic DivideByZero) /\
    (d <> U64.modulus - 7 \/ ontime = 0 ->
     exists late, CalculateAttestationReward s i cs ct ch d = Ok late).
Proof.
  intros Hi HT Hd.
  pose proof (GetBaseReward_value s i v Hi HT) as Hg.
  set (b := U64.mul (EffectiveBalance v) BASE_REWARD_FACTOR
            / Z.sqrt (TotalActiveBalance s)) in *.
  pose proof (duties_range b cs ct ch) as Hr.
  exists (duties b cs ct ch).
  split; [apply CalculateAttestationReward_ontime; [exact Hg|lia]|].
  split; [lia|].
  split; [intros Hle; apply CalculateAttestationReward_ontime; assumption|].
  pose proof (selected_sum b cs ct ch) as Hs. cbv zeta in Hs.
  assert (Hdiv : U64.sub (U64.add PROPOSER_REWARD_QUOTIENT d) MIN_ATTESTATION_INCLUSION_DELAY
                 = (d + 7) mod U64.modulus).
  { unfold U64.sub, U64.add, U64.wrap, PROPOSER_REWARD_QUOTIENT,
      MIN_ATTESTATION_INCLUSION_DELAY.
    rewrite Zminus_mod_idemp_l. f_equal. lia. }
  split.
  - intros Hd7 Hpos. unfold CalculateAttestationReward. rewrite Hg. cbn [bind].
    cbv zeta. rewrite Hs, Hdiv.
    destruct (Z.ltb_spec MIN_ATTESTATION_INCLUSION_DELAY d) as [_|Hle];
      [|unfold MIN_ATTESTATION_INCLUSION_DELAY, U64.modulus in *; lia].
    destruct (Z.ltb_spec 0 (duties b cs ct ch)); [|lia]. cbn [andb].
    replace (d + 7) with (0 + 1 * U64.modulus) by lia.
    rewrite Z.mod_add by (unfold U64.modulus; lia).
    reflexivity.
  - intros Hcase. unfold CalculateAttestationReward. rewrite Hg. cbn [bind].
    cbv zeta. rewrite Hs, Hdiv.
    destruct (MIN_ATTESTATION_INCLUSION_DELAY <? d); cbn [andb];
      [|eexists; reflexivity].
    destruct (Z.ltb_spec 0 (duties b cs ct ch)) as [Hpos|Hzero];
      [|eexists; reflexivity].
    assert (Hne : (d + 7) mod U64.modulus <> 0).
    { unfold U64.modulus in *.
      destruct (Z_lt_ge_dec (d + 7) (2 ^ 64)) as [Hlt|Hge].
      - rewrite Z.mod_small by lia. lia.
      - replace (d + 7) with (d + 7 - 2 ^ 64 + 1 * 2 ^ 64) by lia.
        rewrite Z.mod_add by lia. rewrite Z.mod_small by lia. lia. }
    rewrite (div_Ok _ _ Hne). eexists. reflexivity.
Qed.

Lemma CalculateAttestationReward_outcome_witness :
  exists ontime,
    CalculateAttestationReward (createNetworkState 4) 0 true true true 1 = Ok ontime /\
    0 < ontime /\
    CalculateAttestationReward (createNetworkState 4) 0 true true true (U64.modulus - 7)
      = Panic DivideByZero.
Proof.
  destruct (CalculateAttestationReward_outcome (createNetworkState 4) 0
              (mkValidator MAX_EFFECTIVE_BALANCE 0) true true true (U64.modulus - 7))
    as (ontime & H1 & _ & _ & H2 & _).
  - reflexivity.
  - vm_compute. split; reflexivity.
  - vm_compute. split; [discriminate|reflexivity].
  - exists ontime.
    assert (Hpos : 0 < ontime)
      by (vm_compute in H1; injection H1 as <-; reflexivity).
    split; [exact H1|]. split; [exact Hpos|]. apply H2; [reflexivity|exact Hpos].
Defined.

(** What [CalculatePenalties] returns once the base reward is known. *)
Lemma CalculatePenalties_value s i v b (cs ct ch : bool) :
  index (Validators s) i = Ok v ->
  GetBaseReward s i = Ok b ->
  exists inactivity,
    GetInactivityPenalty s i = Ok inactivity /\
    calculator_penalties.CalculatePenalties s i cs ct ch =
    Ok {| calculator_penalties.SourcePenalty :=
            if negb cs then component b TIMELY_SOURCE_WEIGHT else 0;
          calculator_penalties.TargetPenalty :=
            if negb ct then component b TIMELY_TARGET_WEIGHT else 0;
          calculator_penalties.HeadPenalty :=
            if negb ch then component b TIMELY_HEAD_WEIGHT else 0;
          calculator_penalties.TotalAttestationPenalty :=
            duties b (negb cs) (negb ct) (negb ch);
          calculator_penalties.InactivityScore := types.InactivityScore v;
          calculator_penalties.InactivityPenalty := inactivity;
          calculator_penalties.DailyAttestationPenalty :=
            Float64.div
              (Float64.of_Z (U64.mul (duties b (negb cs) (negb ct) (negb ch)) EPOCHS_PER_DAY))
              (Float64.of_Z 1000000000);
          calculator_penalties.DailyInactivityPenalty :=
            Float64.div (Float64.of_Z (U64.mul inactivity EPOCHS_PER_DAY))
                        (Float64.of_Z 1000000000) |}.
Proof.
  intros Hi Hb.
  pose proof (GetInactivityPenalty_value s i v Hi) as Hp.
  eexists. split; [exact Hp|].
  unfold calculator_penalties.CalculatePenalties. rewrite Hb, Hi. cbn [bind].
  assert (Hsum : U64.add
                   (U64.add (if negb cs then component b TIMELY_SOURCE_WEIGHT else 0)
                            (if negb ct then component b TIMELY_TARGET_WEIGHT else 0))
                   (if negb ch then component b TIMELY_HEAD_WEIGHT else 0)
                 = duties b (negb cs) (negb ct) (negb ch)).
  { pose proof (component_range b TIMELY_SOURCE_WEIGHT).
    pose proof (component_range b TIMELY_TARGET_WEIGHT).
    pose proof (component_range b TIMELY_HEAD_WEIGHT).
    unfold duties, U64.add.
    destruct cs, ct, ch; cbn [negb];
      repeat match goal with
             | |- context [U64.wrap ?z] =>
                 rewrite (wrap_small z) by (unfold U64.modulus; lia)
             end; lia. }
  cbv zeta. rewrite Hsum, Hp.
  unfold MIN_ATTESTATION_INCLUSION_DELAY.
  destruct (Z.ltb_spec (U64.add (FinalizedEpoch s) 1) (CurrentEpoch s));
    destruct (Z.leb_spec (CurrentEpoch s) (U64.add (FinalizedEpoch s) 1));
    try lia; reflexivity.
Qed.

(** X5. For a listed validator on a positive total, the reward of an
    attestation included on time and the attestation penalty of
    [CalculatePenalties] for the same three flags add up to the reward of an
    attestation with all three duties done: each component is either earned
    or lost. The penalty total is the sum of its three components, and with
    all three duties done it is 0. *)
Theorem penalties_complement_rewards s i v (cs ct ch : bool) :
  index (Validators s) i = Ok v ->
  0 < TotalActiveBalance s < U64.modulus ->
  exists reward penalties full,
    CalculateAttestationReward s i cs ct ch MIN_ATTESTATION_INCLUSION_DELAY = Ok reward /\
    calculator_penalties.CalculatePenalties s i cs ct ch = Ok penalties /\
    CalculateAttestationReward s i true true true MIN_ATTESTATION_INCLUSION_DELAY = Ok full /\
    reward + calculator_penalties.TotalAttestationPenalty penalties = full /\
    calculator_penalties.TotalAttestationPenalty penalties
      = calculator_penalties.SourcePenalty penalties
        + calculator_penalties.TargetPenalty penalties
        + calculator_penalties.HeadPenalty penalties /\
    0 <= reward /\ 0 <= calculator_penalties.TotalAttestationPenalty penalties /\
    (cs = true -> ct = true -> ch = true ->
     calculator_penalties.TotalAttestationPenalty penalties = 0).
Proof.
  intros Hi HT.
  pose proof (GetBaseReward_value s i v Hi HT) as Hg.
  set (b := U64.mul (EffectiveBalance v) BASE_REWARD_FACTOR
            / Z.sqrt (TotalActiveBalance s)) in *.
  destruct (CalculatePenalties_value s i v b cs ct ch Hi Hg) as (ip & _ & Hc).
  exists (duties b cs ct ch). eexists. exists (duties b true true true).
  split; [apply CalculateAttestationReward_ontime; [exact Hg|lia]|].
  split; [exact Hc|].
  split; [apply CalculateAttestationReward_ontime; [exact Hg|lia]|].
  cbn [calculator_penalties.TotalAttestationPenalty calculator_penalties.SourcePenalty
       calculator_penalties.TargetPenalty calculator_penalties.HeadPenalty].
  pose proof (duties_range b cs ct ch).
  pose proof (duties_range b (negb cs) (negb ct) (negb ch)).
  split; [unfold duties; destruct cs, ct, ch; cbn [negb]; lia|].
  split; [unfold duties; destruct cs, ct, ch; cbn [negb]; lia|].
  split; [lia|]. split; [lia|].
  intros -> -> ->. reflexivity.
Qed.

Lemma penalties_complement_rewards_witness :
  exists reward penalties full,
    CalculateAttestationReward (createNetworkState 4) 0 true false true 1 = Ok reward /\
    calculator_penalties.CalculatePenalties (createNetworkState 4) 0 true false true
      = Ok penalties /\
    CalculateAttestationReward (createNetworkState 4) 0 true true true 1 = Ok full /\
    reward + calculator_penalties.TotalAttestationPenalty penalties = full.
Proof.
  destruct (penalties_complement_rewards (createNetworkState 4) 0
              (mkValidator MAX_EFFECTIVE_BALANCE 0) true false true)
    as (reward & penalties & full & H1 & H2 & H3 & H4 & _).
  - reflexivity.
  - vm_compute. split; reflexivity.
  - exists reward, penalties, full. repeat split; assumption.
Defined.

(** X6. [CalculatePenalties] fails exactly when [GetBaseReward] fails, with
    the same panic. When the base reward is returned, so is the result; its
    inactivity penalty is the value [GetInactivityPenalty] returns for the
    same validator (the epoch test in front of that call changes nothing),
    and its inactivity score is the validator's. *)
Theorem CalculatePenalties_outcome s i (cs ct ch : bool) :
  (forall f, GetBaseReward s i = Panic f ->
             calculator_penalties.CalculatePenalties s i cs ct ch = Panic f) /\
  (forall b, GetBaseReward s i = Ok b ->
     exists penalties v,
       calculator_penalties.CalculatePenalties s i cs ct ch = Ok penalties /\
       index (Validators s) i = Ok v /\
       GetInactivityPenalty s i = Ok (calculator_penalties.InactivityPenalty penalties) /\
       calculator_penalties.InactivityScore penalties = types.InactivityScore v).
Proof.
  split.
  - intros f Hf. unfold calculator_penalties.CalculatePenalties. rewrite Hf. reflexivity.
  - intros b Hb.
    destruct (index (Validators s) i) as [v|f] eqn:Hi;
      [|unfold GetBaseReward in Hb; rewrite Hi in Hb; discriminate Hb].
    destruct (CalculatePenalties_value s i v b cs ct ch Hi Hb) as (ip & Hp & Hc).
    eexists. exists v. split; [exact Hc|]. split; [reflexivity|].
    split; [exact Hp|reflexivity].
Qed.

(** ** Inactivity *)

(** X7. [GetInactivityPenalty] fails only on an index outside the
    validators; no fork name can make its division fail. For a listed
    validator the penalty under every fork name is one of three values, those
    of phase0, altair and bellatrix, and these are ordered: phase0 the
    mildest, bellatrix the harshest. *)
Theorem GetInactivityPenalty_by_fork s i v :
  index (Validators s) i = Ok v ->
  exists p0 p1 p2,
    GetInactivityPenalty (set_fork s "phase0") i = Ok p0 /\
    GetInactivityPenalty (set_fork s "altair") i = Ok p1 /\
    GetInactivityPenalty (set_fork s "bellatrix") i = Ok p2 /\
    0 <= p0 <= p1 /\ p1 <= p2 /\
    forall fork,
      exists p, GetInactivityPenalty (set_fork s fork) i = Ok p /\
                (p = p0 \/ p = p1 \/ p = p2).
Proof.
  intros Hi.
  assert (Hv : forall fork, index (Validators (set_fork s fork)) i = Ok v) by (intro; exact Hi).
  assert (Hg : forall fork,
             GetInactivityPenalty (set_fork s fork) i =
             Ok (if CurrentEpoch s <=? U64.add (FinalizedEpoch s) MIN_ATTESTATION_INCLUSION_DELAY
                 then 0
                 else U64.mul (EffectiveBalance v) (types.InactivityScore v)
                      / (INACTIVITY_SCORE_BIAS
                         * InactivityPenaltyQuotient (GetForkConfig fork)))).
  { intros fork. rewrite (GetInactivityPenalty_value _ i v (Hv fork)). reflexivity. }
  eexists _, _, _.
  split; [apply Hg|]. split; [apply Hg|]. split; [apply Hg|].
  pose proof (wrap_range (EffectiveBalance v * types.InactivityScore v)) as Hn.
  fold (U64.mul (EffectiveBalance v) (types.InactivityScore v)) in Hn.
  set (n := U64.mul (EffectiveBalance v) (types.InactivityScore v)) in *.
  destruct (CurrentEpoch s <=? _).
  - split; [lia|]. split; [lia|].
    intros fork. eexists. split; [apply Hg|]. left. reflexivity.
  - change (InactivityPenaltyQuotient (GetForkConfig "phase0")) with 67108864.
    change (InactivityPenaltyQuotient (GetForkConfig "altair")) with 50331648.
    change (InactivityPenaltyQuotient (GetForkConfig "bellatrix")) with 33554432.
    unfold INACTIVITY_SCORE_BIAS.
    split; [split; [apply Z.div_pos; lia|apply Z.div_le_compat_l; lia]|].
    split; [apply Z.div_le_compat_l; lia|].
    intros fork. eexists. split; [apply Hg|].
    destruct (fork_quotients fork) as ([E|[E|E]] & _); cbv zeta in E; rewrite E.
    + left. reflexivity.
    + right. left. reflexivity.
    + right. right. reflexivity.
Qed.

Lemma GetInactivityPenalty_by_fork_witness :
  exists p0 p1 p2,
    GetInactivityPenalty
      (set_fork (singleValidatorState MAX_EFFECTIVE_BALANCE 40
                   (4096 * MAX_EFFECTIVE_BALANCE) 1000 990 "") "phase0") 0 = Ok p0 /\
    GetInactivityPenalty
      (set_fork (singleValidatorState MAX_EFFECTIVE_BALANCE 40
                   (4096 * MAX_EFFECTIVE_BALANCE) 1000 990 "") "altair") 0 = Ok p1 /\
    GetInactivityPenalty
      (set_fork (singleValidatorState MAX_EFFECTIVE_BALANCE 40
                   (4096 * MAX_EFFECTIVE_BALANCE) 1000 990 "") "bellatrix") 0 = Ok p2 /\
    0 <= p0 <= p1 /\ p1 <= p2.
Proof.
  destruct (GetInactivityPenalty_by_fork
              (singleValidatorState MAX_EFFECTIVE_BALANCE 40
                 (4096 * MAX_EFFECTIVE_BALANCE) 1000 990 "") 0
              (mkValidator MAX_EFFECTIVE_BALANCE 40))
    as (p0 & p1 & p2 & H0 & H1 & H2 & H3 & H4 & _).
  - reflexivity.
  - exists p0, p1, p2. repeat split; try assumption; apply H3.
Defined.







(** ** Slashing *)

(** What [CalculateSlashingPenalties] returns for a listed validator on a
    non-zero total. *)
Lemma CalculateSlashingPenalties_value s i v totalSlashedBalance :
  index (Validators s) i = Ok v ->
  TotalActiveBalance s <> 0 ->
  let fork := GetForkConfig (CurrentFork s) in
  let initial := EffectiveBalance v / MinSlashingPenaltyQuotient fork in
  let proportional :=
    U64.mul (EffectiveBalance v)
      (calculator.min (U64.mul totalSlashedBalance (ProportionalSlashingMultiplier fork))
                      (TotalActiveBalance s))
    / TotalActiveBalance s in
  CalculateSlashingPenalties s i totalSlashedBalance =
  Ok {| InitialPenalty := initial;
        ProportionalPenalty := proportional;
        TotalPenalty := U64.add initial proportional;
        PercentageOfStake :=
          Float64.mul
            (Float64.div (Float64.of_Z (U64.add initial proportional))
                         (Float64.of_Z (EffectiveBalance v)))
            (Float64.of_Z 100);
        WhistleblowerReward := EffectiveBalance v / WHISTLEBLOWER_REWARD_QUOTIENT;
        ProposerReward :=
          EffectiveBalance v / WHISTLEBLOWER_REWARD_QUOTIENT / PROPOSER_REWARD_QUOTIENT |}.
Proof.
  intros Hi HT fork initial proportional.
  unfold CalculateSlashingPenalties. rewrite Hi. cbn [bind]. fold fork.
  destruct (fork_quotients (CurrentFork s)) as (_ & _ & Hq & _). fold fork in Hq.
  rewrite div_Ok by lia. cbn [bind].
  rewrite div_Ok by exact HT. cbn [bind]. reflexivity.
Qed.

(** X10. [CalculateSlashingPenalties] fails in exactly two ways, whatever
    the fork name and the slashed balance: an index outside the validators
    panics with index out of range, and a valid index on a total active
    balance of 0 panics with a division by zero. Otherwise it returns; for an
    effective balance below [2^63] the initial penalty is at most 1/32 of
    the balance, the proportional penalty at most the balance, and the total
    is their sum, so at most 33/32 of the balance. *)
Theorem CalculateSlashingPenalties_outcome s i totalSlashedBalance :
  0 <= TotalActiveBalance s < U64.modulus ->
  let n := Z.of_nat (List.length (Validators s)) in
  (i < 0 \/ n <= i ->
   CalculateSlashingPenalties s i totalSlashedBalance = Panic IndexOutOfRange) /\
  (0 <= i < n -> TotalActiveBalance s = 0 ->
   CalculateSlashingPenalties s i totalSlashedBalance = Panic DivideByZero) /\
  (0 <= i < n -> 0 < TotalActiveBalance s ->
   exists r v,
     CalculateSlashingPenalties s i totalSlashedBalance = Ok r /\
     index (Validators s) i = Ok v /\
     (0 <= EffectiveBalance v < 2 ^ 63 ->
      0 <= 32 * InitialPenalty r <= EffectiveBalance v /\
      0 <= ProportionalPenalty r <= EffectiveBalance v /\
      TotalPenalty r = InitialPenalty r + ProportionalPenalty r /\
      32 * TotalPenalty r <= 33 * EffectiveBalance v)).
Proof.
  intros HT n. split; [|split].
  - intros Hi. unfold CalculateSlashingPenalties.
    rewrite (index_outside _ _ Hi). reflexivity.
  - intros Hi H0. destruct (index_inside _ _ Hi) as [v Hv].
    unfold CalculateSlashingPenalties. rewrite Hv. cbn [bind].
    destruct (fork_quotients (CurrentFork s)) as (_ & _ & Hq & _). cbv zeta in Hq.
    rewrite div_Ok by lia. cbn [bind]. rewrite H0. reflexivity.
  - intros Hi Hpos. destruct (index_inside _ _ Hi) as [v Hv].
    pose proof (CalculateSlashingPenalties_value s i v totalSlashedBalance Hv
                  ltac:(lia)) as Hc. cbv zeta in Hc.
    eexists. exists v. split; [exact Hc|]. split; [exact Hv|].
    intros Hb. cbn [InitialPenalty ProportionalPenalty TotalPenalty].
    set (fork := GetForkConfig (CurrentFork s)).
    set (x := U64.mul totalSlashedBalance (ProportionalSlashingMultiplier fork)).
    assert (Hx : 0 <= x < U64.modulus) by (subst x; unfold U64.mul; auto with u64).
    assert (Hm : 0 <= calculator.min x (TotalActiveBalance s) <= TotalActiveBalance s).
    { unfold calculator.min. destruct (Z.ltb_spec x (TotalActiveBalance s)); lia. }
    set (m := calculator.min x (TotalActiveBalance s)) in *.
    assert (Hw : 0 <= U64.mul (EffectiveBalance v) m <= EffectiveBalance v * m).
    { unfold U64.mul. split; [apply wrap_range|].
      unfold U64.wrap. apply Z.mod_le; [nia|reflexivity]. }
    assert (Hp : 0 <= U64.mul (EffectiveBalance v) m / TotalActiveBalance s
                 <= EffectiveBalance v).
    { split; [apply Z.div_pos; lia|]. apply Z.div_le_upper_bound; [lia|]. nia. }
    assert (Hi32 : 0 <= 32 * (EffectiveBalance v / MinSlashingPenaltyQuotient fork)
                   <= EffectiveBalance v).
    { assert (Hq : MinSlashingPenaltyQuotient fork = 128
                   \/ MinSlashingPenaltyQuotient fork = 64
                   \/ MinSlashingPenaltyQuotient fork = 32).
      { destruct (fork_quotients (CurrentFork s)) as ([E|[E|E]] & _);
          cbv zeta in E; fold fork in E; rewrite E; cbv; auto. }
      destruct Hq as [E|[E|E]]; rewrite E;
        pose proof (Z.div_mod (EffectiveBalance v) 128 ltac:(lia));
        pose proof (Z.mod_pos_bound (EffectiveBalance v) 128 ltac:(lia));
        pose proof (Z.div_mod (EffectiveBalance v) 64 ltac:(lia));
        pose proof (Z.mod_pos_bound (EffectiveBalance v) 64 ltac:(lia));
        pose proof (Z.div_mod (EffectiveBalance v) 32 ltac:(lia));
        pose proof (Z.mod_pos_bound (EffectiveBalance v) 32 ltac:(lia));
        lia. }
    split; [exact Hi32|]. split; [exact Hp|].
    assert (Hsum : U64.add (EffectiveBalance v / MinSlashingPenaltyQuotient fork)
                     (U64.mul (EffectiveBalance v) m / TotalActiveBalance s)
                   = EffectiveBalance v / MinSlashingPenaltyQuotient fork
                     + U64.mul (EffectiveBalance v) m / TotalActiveBalance s).
    { unfold U64.add. apply wrap_small. unfold U64.modulus. lia. }
    rewrite Hsum. split; [reflexivity|lia].
Qed.

Lemma CalculateSlashingPenalties_outcome_witness :
  CalculateSlashingPenalties (createNetworkState 4) 4 MAX_EFFECTIVE_BALANCE
    = Panic IndexOutOfRange /\
  CalculateSlashingPenalties (singleValidatorState MAX_EFFECTIVE_BALANCE 0 0 1000 998 "")
    0 MAX_EFFECTIVE_BALANCE = Panic DivideByZero /\
  exists r, CalculateSlashingPenalties (createNetworkState 4) 0 MAX_EFFECTIVE_BALANCE = Ok r.
Proof.
  destruct (CalculateSlashingPenalties_outcome (createNetworkState 4) 4 MAX_EFFECTIVE_BALANCE)
    as (H1 & _ & _); [vm_compute; split; [discriminate|reflexivity]|].
  destruct (CalculateSlashingPenalties_outcome
              (singleValidatorState MAX_EFFECTIVE_BALANCE 0 0 1000 998 "")
              0 MAX_EFFECTIVE_BALANCE)
    as (_ & H2 & _); [vm_compute; split; [discriminate|reflexivity]|].
  destruct (CalculateSlashingPenalties_outcome (createNetworkState 4) 0 MAX_EFFECTIVE_BALANCE)
    as (_ & _ & H3); [vm_compute; split; [discriminate|reflexivity]|].
  split; [apply H1; right; vm_compute; discriminate|].
  split; [apply H2; [vm_compute; split; [discriminate|reflexivity]|reflexivity]|].
  destruct H3 as (r & _ & Hr & _);
    [vm_compute; split; [discriminate|reflexivity]|reflexivity|].
  exists r. exact Hr.
Defined.

(** X11. The whistleblower split is the same in both places that compute
    it: the whistleblower and proposer rewards in the result of
    [CalculateSlashingPenalties] are the pair [CalculateWhistleblowerReward]
    returns for the validator's effective balance. For a non-negative
    balance the proposer's part is the balance divided by 4096, and eight
    proposer parts never exceed the whistleblower reward, nor 512
    whistleblower rewards the balance. *)
Theorem whistleblower_split s i v totalSlashedBalance :
  index (Validators s) i = Ok v ->
  0 < TotalActiveBalance s < U64.modulus ->
  0 <= EffectiveBalance v ->
  exists r,
    CalculateSlashingPenalties s i totalSlashedBalance = Ok r /\
    calculator_rewards.CalculateWhistleblowerReward (EffectiveBalance v)
      = (WhistleblowerReward r, ProposerReward r) /\
    ProposerReward r = EffectiveBalance v / 4096 /\
    0 <= PROPOSER_REWARD_QUOTIENT * ProposerReward r <= WhistleblowerReward r /\
    WHISTLEBLOWER_REWARD_QUOTIENT * WhistleblowerReward r <= EffectiveBalance v.
Proof.
  intros Hi HT Hb.
  pose proof (CalculateSlashingPenalties_value s i v totalSlashedBalance Hi
                ltac:(lia)) as Hc. cbv zeta in Hc.
  eexists. split; [exact Hc|]. cbn [WhistleblowerReward ProposerReward].
  unfold calculator_rewards.CalculateWhistleblowerReward,
    WHISTLEBLOWER_REWARD_QUOTIENT, PROPOSER_REWARD_QUOTIENT.
  split; [reflexivity|].
  split; [rewrite Z.div_div by lia; reflexivity|].
  pose proof (Z.div_mod (EffectiveBalance v) 512 ltac:(lia)).
  pose proof (Z.mod_pos_bound (EffectiveBalance v) 512 ltac:(lia)).
  pose proof (Z.div_mod (EffectiveBalance v / 512) 8 ltac:(lia)).
  pose proof (Z.mod_pos_bound (EffectiveBalance v / 512) 8 ltac:(lia)).
  lia.
Qed.

Lemma whistleblower_split_witness :
  exists r,
    CalculateSlashingPenalties (createNetworkState 4) 0 MAX_EFFECTIVE_BALANCE = Ok r /\
    calculator_rewards.CalculateWhistleblowerReward MAX_EFFECTIVE_BALANCE
      = (WhistleblowerReward r, ProposerReward r) /\
    ProposerReward r = MAX_EFFECTIVE_BALANCE / 4096.
Proof.
  destruct (whistleblower_split (createNetworkState 4) 0
              (mkValidator MAX_EFFECTIVE_BALANCE 0) MAX_EFFECTIVE_BALANCE)
    as (r & H1 & H2 & H3 & _).
  - reflexivity.
  - vm_compute. split; reflexivity.
  - vm_compute. discriminate.
  - exists r. repeat split; assumption.
Defined.

(** ** The comparison helpers *)

(** X12. The churn limit [EstimateValidatorQueue] divides by is always
    between [MIN_PER_EPOCH_CHURN_LIMIT] and
    [MAX_PER_EPOCH_ACTIVATION_CHURN_LIMIT], so the division is never by zero:
    it is 4 below 327680 validators, [validators / 65536] from there to
    524287, and 8 from 524288 on. A negative count, converted to [uint64],
    also gives 8. With nothing pending both results are 0. *)
Theorem EstimateValidatorQueue_churn currentValidators pendingValidators :
  - 2 ^ 63 <= currentValidators < 2 ^ 63 ->
  exists churnLimit,
    limits.MIN_PER_EPOCH_CHURN_LIMIT <= churnLimit
      <= limits.MAX_PER_EPOCH_ACTIVATION_CHURN_LIMIT /\
    calculator_comparison.EstimateValidatorQueue currentValidators pendingValidators
      = (Float64.div (Float64.of_Z pendingValidators) (Float64.of_Z churnLimit),
         Float64.div
           (Float64.div (Float64.of_Z pendingValidators) (Float64.of_Z churnLimit))
           (Float64.of_Z EPOCHS_PER_DAY)) /\
    (0 <= currentValidators < 327680 -> churnLimit = 4) /\
    (327680 <= currentValidators < 524288 ->
     churnLimit = currentValidators / limits.CHURN_LIMIT_QUOTIENT) /\
    (524288 <= currentValidators -> churnLimit = 8) /\
    (currentValidators < 0 -> churnLimit = 8) /\
    (pendingValidators = 0 ->
     calculator_comparison.EstimateValidatorQueue currentValidators pendingValidators
       = (S754_zero false, S754_zero false)).
Proof.
  intros Hc.
  unfold calculator_comparison.EstimateValidatorQueue, calculator_comparison.max,
    calculator.min, limits.MIN_PER_EPOCH_CHURN_LIMIT,
    limits.MAX_PER_EPOCH_ACTIVATION_CHURN_LIMIT, limits.CHURN_LIMIT_QUOTIENT.
  set (q := U64.wrap currentValidators / 65536).
  assert (Hq : (0 <= currentValidators -> q = currentValidators / 65536)
               /\ (currentValidators < 0 -> 2 ^ 47 <= q) /\ 0 <= q).
  { subst q. unfold U64.wrap, U64.modulus. split; [|split].
    - intros Hp. rewrite Z.mod_small by lia. reflexivity.
    - intros Hn.
      replace currentValidators with (currentValidators + 2 ^ 64 + (-1) * 2 ^ 64) by lia.
      rewrite Z.mod_add by lia. rewrite Z.mod_small by lia.
      apply Z.div_le_lower_bound; lia.
    - apply Z.div_pos; [|lia]. apply Z.mod_pos_bound. lia. }
  destruct Hq as (Hq1 & Hq2 & Hq3).
  set (c := if (if q <? 4 then 4 else q) <? 8 then (if q <? 4 then 4 else q) else 8).
  assert (Hcv : 4 <= c <= 8).
  { subst c. destruct (Z.ltb_spec q 4); [cbn; lia|].
    destruct (Z.ltb_spec q 8); lia. }
  exists c. split; [exact Hcv|]. split; [reflexivity|].
  assert (Hlow : 0 <= currentValidators < 327680 -> q < 5).
  { intros H. rewrite Hq1 by lia. apply Z.div_lt_upper_bound; lia. }
  assert (Hmid : 327680 <= currentValidators -> 5 <= q).
  { intros H. rewrite Hq1 by lia. apply Z.div_le_lower_bound; lia. }
  assert (Hhigh : 524288 <= currentValidators -> 8 <= q).
  { intros H. rewrite Hq1 by lia. apply Z.div_le_lower_bound; lia. }
  assert (Hmid' : currentValidators < 524288 -> 0 <= currentValidators -> q < 8).
  { intros H H0. rewrite Hq1 by lia. apply Z.div_lt_upper_bound; lia. }
  split.
  { intros H. specialize (Hlow H). subst c.
    destruct (Z.ltb_spec q 4); [reflexivity|].
    destruct (Z.ltb_spec q 8); lia. }
  split.
  { intros H. rewrite <- Hq1 by lia. specialize (Hmid ltac:(lia)).
    specialize (Hmid' ltac:(lia) ltac:(lia)). subst c.
    destruct (Z.ltb_spec q 4); [lia|]. destruct (Z.ltb_spec q 8); lia. }
  split.
  { intros H. specialize (Hhigh H). subst c.
    destruct (Z.ltb_spec q 4); [lia|]. destruct (Z.ltb_spec q 8); lia. }
  split.
  { intros H. specialize (Hq2 H). subst c.
    destruct (Z.ltb_spec q 4); [lia|]. destruct (Z.ltb_spec q 8); lia. }
  intros ->. fold c.
  assert (Hcases : c = 4 \/ c = 5 \/ c = 6 \/ c = 7 \/ c = 8) by lia.
  destruct Hcases as [E|[E|[E|[E|E]]]]; rewrite E; vm_compute; reflexivity.
Qed.

Lemma EstimateValidatorQueue_churn_witness :
  exists churnLimit,
    4 <= churnLimit <= 8 /\
    calculator_comparison.EstimateValidatorQueue 400000 1000
      = (Float64.div (Float64.of_Z 1000) (Float64.of_Z churnLimit),
         Float64.div (Float64.div (Float64.of_Z 1000) (Float64.of_Z churnLimit))
                     (Float64.of_Z EPOCHS_PER_DAY)) /\
    churnLimit = 400000 / 65536.
Proof.
  destruct (EstimateValidatorQueue_churn 400000 1000) as (c & H1 & H2 & _ & H3 & _).
  - lia.
  - exists c. split; [exact H1|]. split; [exact H2|]. apply H3. lia.
Defined.

(** X13. [CalculateBreakEvenTime] returns three positive infinities for
    every yield that is zero (of either sign), negative or negative
    infinity. A yield that is not a number is not caught by the test
    [apy <= 0]: the three results are then not numbers. An infinite positive
    yield gives three zeros, and a positive finite one gives
    [100 / apy] years, twelve times as many months and 365.25 times as many
    days. *)
Theorem CalculateBreakEvenTime_cases apy :
  let inf := S754_infinity false in
  let zero := S754_zero false in
  match apy with
  | S754_nan =>
      calculator_comparison.CalculateBreakEvenTime apy = (S754_nan, S754_nan, S754_nan)
  | S754_zero _ | S754_infinity true | S754_finite true _ _ =>
      calculator_comparison.CalculateBreakEvenTime apy = (inf, inf, inf)
  | S754_infinity false =>
      calculator_comparison.CalculateBreakEvenTime apy = (zero, zero, zero)
  | S754_finite false _ _ =>
      let years := Float64.div (Float64.of_Z 100) apy in
      calculator_comparison.CalculateBreakEvenTime apy
        = (years, Float64.mul years (Float64.of_Z 12),
           Float64.mul years (Float64.lit 36525 100))
  end.
Proof.
  destruct apy as [s|s| |s m e]; cbv zeta.
  - destruct s; reflexivity.
  - destruct s; vm_compute; reflexivity.
  - vm_compute. reflexivity.
  - destruct s; reflexivity.
Qed.


(** ** The states built by the front end and by the comparison *)

Lemma store_middle {A : Type} (p l : list A) a v k :
  List.length p = k -> store (p ++ a :: l) k v = p ++ v :: l.
Proof.
  intros <-. induction p as [|h p IH]; cbn [List.length app store]; [reflexivity|].
  rewrite IH. reflexivity.
Qed.

Lemma nth_error_middle {A : Type} (p l : list A) a k :
  List.length p = k -> nth_error (p ++ a :: l) k = Some a.
Proof.
  intros <-. induction p as [|h p IH]; cbn [List.length app nth_error]; [reflexivity|].
  exact IH.
Qed.

Lemma repeat_snoc {A : Type} (v : A) k l :
  repeat v k ++ v :: l = repeat v (S k) ++ l.
Proof.
  induction k as [|k IH]; cbn [repeat app]; [reflexivity|].
  rewrite IH. reflexivity.
Qed.

Lemma set_validator_middle p a l v total current finalized justified fork slashings k :
  List.length p = k ->
  set_validator
    {| Validators := p ++ a :: l; TotalActiveBalance := total; CurrentEpoch := current;
       FinalizedEpoch := finalized; JustifiedEpoch := justified; CurrentFork := fork;
       SlashingsPerEpoch := slashings |} k v
  = {| Validators := p ++ v :: l; TotalActiveBalance := total; CurrentEpoch := current;
       FinalizedEpoch := finalized; JustifiedEpoch := justified; CurrentFork := fork;
       SlashingsPerEpoch := slashings |}.
Proof.
  intros Hp. unfold set_validator.
  cbn [Validators TotalActiveBalance CurrentEpoch FinalizedEpoch JustifiedEpoch
       CurrentFork SlashingsPerEpoch].
  rewrite (store_middle _ _ _ _ _ Hp). reflexivity.
Qed.

Lemma set_score_middle p b l score total current finalized justified fork slashings k :
  List.length p = k ->
  set_score
    {| Validators := p ++ mkValidator b 0 :: l; TotalActiveBalance := total;
       CurrentEpoch := current; FinalizedEpoch := finalized; JustifiedEpoch := justified;
       CurrentFork := fork; SlashingsPerEpoch := slashings |} k score
  = {| Validators := p ++ mkValidator b score :: l; TotalActiveBalance := total;
       CurrentEpoch := current; FinalizedEpoch := finalized; JustifiedEpoch := justified;
       CurrentFork := fork; SlashingsPerEpoch := slashings |}.
Proof.
  intros Hp. unfold set_score. cbn [Validators].
  rewrite (nth_error_middle _ _ _ _ Hp).
  rewrite (set_validator_middle _ _ _ _ _ _ _ _ _ _ _ Hp). reflexivity.
Qed.

(** One round of the loop of [createNetworkState]. *)
Lemma init_validator_round ie n k total :
  (k < n)%nat ->
  main.init_validator ie (after_rounds ie n k total) k = after_rounds ie n (S k) total.
Proof.
  intros Hk. unfold main.init_validator, after_rounds.
  replace (n - k)%nat with (S (n - S k)) by lia. cbn [repeat].
  set (l := repeat zero_Validator (n - S k)).
  cbv zeta.
  destruct (0 <? ie) eqn:Hleak.
  - set (vf := mkValidator MAX_EFFECTIVE_BALANCE (U64.wrap (ie * 4))).
    assert (Hp : List.length (repeat vf k) = k) by apply repeat_length.
    rewrite (set_validator_middle _ _ _ _ _ _ _ _ _ _ _ Hp).
    rewrite (set_score_middle _ _ _ _ _ _ _ _ _ _ _ Hp).
    unfold set_finalized.
    cbn [Validators TotalActiveBalance CurrentEpoch FinalizedEpoch JustifiedEpoch
         CurrentFork SlashingsPerEpoch andb Nat.ltb Nat.leb].
    fold vf. rewrite repeat_snoc. reflexivity.
  - set (vf := mkValidator MAX_EFFECTIVE_BALANCE 0).
    assert (Hp : List.length (repeat vf k) = k) by apply repeat_length.
    rewrite (set_validator_middle _ _ _ _ _ _ _ _ _ _ _ Hp).
    cbn [andb]. rewrite repeat_snoc. reflexivity.
Qed.

Lemma init_validator_rounds ie n total (m k : nat) :
  (k + m <= n)%nat ->
  fold_left (main.init_validator ie) (seq k m) (after_rounds ie n k total)
  = after_rounds ie n (k + m) total.
Proof.
  revert k. induction m as [|m IH]; intros k Hk.
  - cbn [seq fold_left]. rewrite Nat.add_0_r. reflexivity.
  - cbn [seq fold_left]. rewrite init_validator_round by lia.
    rewrite IH by lia. f_equal. lia.
Qed.

(** The loop of [createNetworkState], run to its end. *)
Lemma createNetworkState_value ie validators :
  0 <= validators ->
  main.createNetworkState ie validators =
  Returns (after_rounds ie (Z.to_nat validators) (Z.to_nat validators)
             (U64.mul (U64.wrap validators) MAX_EFFECTIVE_BALANCE)).
Proof.
  intros Hn. unfold main.createNetworkState, make_validators.
  destruct (Z.ltb_spec validators 0); [lia|]. f_equal.
  unfold range_validators. cbn [Validators]. rewrite repeat_length.
  set (n := Z.to_nat validators).
  pose proof (init_validator_rounds ie n
                (U64.mul (U64.wrap validators) MAX_EFFECTIVE_BALANCE) n 0 ltac:(lia)) as Hfold.
  cbn [Nat.add] in Hfold. rewrite <- Hfold. f_equal.
  unfold after_rounds. rewrite Nat.sub_0_r. cbn [repeat app Nat.ltb Nat.leb].
  rewrite andb_false_r. reflexivity.
Qed.

Lemma after_rounds_done n :
  after_rounds 0 n n (U64.mul (U64.wrap (Z.of_nat n)) MAX_EFFECTIVE_BALANCE)
  = createNetworkState n.
Proof.
  unfold after_rounds, createNetworkState. cbn [Z.ltb Z.compare andb].
  rewrite Nat.sub_diag. cbn [repeat]. rewrite app_nil_r. f_equal.
  unfold U64.mul, U64.wrap. rewrite Z.mul_mod_idemp_l by (unfold U64.modulus; lia).
  reflexivity.
Qed.

(** The fields of the state [createNetworkState] returns. *)
Lemma createNetworkState_fields inactivityEpochs validators :
  0 <= validators ->
  exists state,
    main.createNetworkState inactivityEpochs validators = Returns state /\
    Validators state =
      repeat (mkValidator MAX_EFFECTIVE_BALANCE
                (if 0 <? inactivityEpochs then U64.wrap (inactivityEpochs * 4) else 0))
             (Z.to_nat validators) /\
    TotalActiveBalance state = U64.mul (U64.wrap validators) MAX_EFFECTIVE_BALANCE /\
    CurrentEpoch state = 1000 /\
    FinalizedEpoch state =
      (if (0 <? inactivityEpochs) && (0 <? validators)
       then U64.sub (U64.sub 1000 (U64.wrap inactivityEpochs)) 2
       else 998) /\
    CurrentFork state = ""%string /\
    (inactivityEpochs <= 0 -> state = createNetworkState (Z.to_nat validators)).
Proof.
  intros Hn. eexists. split; [apply createNetworkState_value; exact Hn|].
  unfold after_rounds.
  cbn [Validators TotalActiveBalance CurrentEpoch FinalizedEpoch CurrentFork].
  rewrite Nat.sub_diag. cbn [repeat]. rewrite app_nil_r.
  split; [reflexivity|]. split; [reflexivity|]. split; [reflexivity|].
  split; [|split; [reflexivity|]].
  - assert (E : (0 <? Z.to_nat validators)%nat = (0 <? validators)).
    { destruct (Z.ltb_spec 0 validators); destruct (Nat.ltb_spec 0 (Z.to_nat validators));
        try reflexivity; lia. }
    rewrite E. reflexivity.
  - intros Hie. destruct (Z.ltb_spec 0 inactivityEpochs); [lia|]. cbn [andb].
    pose proof (after_rounds_done (Z.to_nat validators)) as Hd.
    rewrite Z2Nat.id in Hd by exact Hn. rewrite <- Hd.
    unfold after_rounds. cbn [Z.ltb Z.compare andb].
    rewrite Nat.sub_diag. cbn [repeat]. rewrite app_nil_r. reflexivity.
Qed.

(** X14. [createNetworkState] of the command line panics on a negative
    count ([make] with a negative length). Otherwise it returns as many
    validators as asked, all at the maximal effective balance and with the
    same inactivity score, [4 * inactivityEpochs] reduced modulo [2^64] when
    the [--inactivity] flag is positive and 0 otherwise; the finalized epoch
    is moved only when that flag is positive and there is a validator.
    Without the flag the state is the one of [validators] validators used
    throughout this development. *)
Theorem createNetworkState_state inactivityEpochs validators :
  (validators < 0 ->
   main.createNetworkState inactivityEpochs validators = MakeSliceLen) /\
  (0 <= validators ->
   exists state,
     main.createNetworkState inactivityEpochs validators = Returns state /\
     Validators state =
       repeat (mkValidator MAX_EFFECTIVE_BALANCE
                 (if 0 <? inactivityEpochs then U64.wrap (inactivityEpochs * 4) else 0))
              (Z.to_nat validators) /\
     TotalActiveBalance state = U64.mul (U64.wrap validators) MAX_EFFECTIVE_BALANCE /\
     CurrentEpoch state = 1000 /\
     FinalizedEpoch state =
       (if (0 <? inactivityEpochs) && (0 <? validators)
        then U64.sub (U64.sub 1000 (U64.wrap inactivityEpochs)) 2
        else 998) /\
     (inactivityEpochs <= 0 -> state = createNetworkState (Z.to_nat validators))).
Proof.
  split.
  - intros Hn. unfold main.createNetworkState, make_validators.
    destruct (Z.ltb_spec validators 0); [reflexivity|lia].
  - intros Hn.
    destruct (createNetworkState_fields inactivityEpochs validators Hn)
      as (state & H1 & H2 & H3 & H4 & H5 & _ & H6).
    exists state. repeat split; assumption.
Qed.

(** X15. With [--inactivity i] for [i] from 1 to 999 and at least one
    validator, the state of the command line is in an inactivity leak, every
    validator's score is what [i] epochs of [CalculateInactivityScore] for
    an inactive validator without finality give from 0, and
    [GetInactivityPenalty] returns
    [MAX_EFFECTIVE_BALANCE * i / INACTIVITY_PENALTY_QUOTIENT_BELLATRIX]. *)
Theorem createNetworkState_inactivity inactivityEpochs validators :
  0 < validators ->
  1 <= inactivityEpochs <= 999 ->
  exists state,
    main.createNetworkState inactivityEpochs validators = Returns state /\
    (forall v, In v (Validators state) ->
       types.InactivityScore v
         = iterate_score (Z.to_nat inactivityEpochs) false false 0) /\
    GetInactivityPenalty state 0 =
      Ok (MAX_EFFECTIVE_BALANCE * inactivityEpochs
          / INACTIVITY_PENALTY_QUOTIENT_BELLATRIX).
Proof.
  intros Hn Hie.
  eexists. split; [apply createNetworkState_value; lia|].
  destruct (Z.ltb_spec 0 inactivityEpochs) as [_|]; [|lia].
  assert (Hw : U64.wrap (inactivityEpochs * 4) = inactivityEpochs * 4)
    by (apply wrap_small; unfold U64.modulus; lia).
  assert (Hscore : iterate_score (Z.to_nat inactivityEpochs) false false 0
                   = inactivityEpochs * 4).
  { unfold iterate_score.
    assert (G : forall k : nat, Z.of_nat k <= 999 ->
                  Nat.iter k (fun s => CalculateInactivityScore s false false) 0
                  = Z.of_nat k * 4).
    { induction k as [|k IH]; intros Hk; [reflexivity|].
      rewrite Nat.iter_succ, IH by lia.
      unfold CalculateInactivityScore, INACTIVITY_SCORE_BIAS, U64.add. cbn [negb].
      rewrite wrap_small by (unfold U64.modulus; lia). lia. }
    rewrite G by lia. lia. }
  split.
  - intros v Hv. unfold after_rounds in Hv. cbn [Validators] in Hv.
    destruct (Z.ltb_spec 0 inactivityEpochs) as [_|]; [|lia].
    rewrite Nat.sub_diag in Hv. cbn [repeat] in Hv. rewrite app_nil_r in Hv.
    apply repeat_spec in Hv. subst v. cbn [mkValidator types.InactivityScore].
    rewrite Hw, Hscore. reflexivity.
  - set (state := after_rounds _ _ _ _).
    set (n := Z.to_nat validators).
    assert (Hlist : Validators state =
                    mkValidator MAX_EFFECTIVE_BALANCE (inactivityEpochs * 4)
                    :: repeat (mkValidator MAX_EFFECTIVE_BALANCE (inactivityEpochs * 4))
                         (Nat.pred n)).
    { subst state. unfold after_rounds. cbn [Validators].
      destruct (Z.ltb_spec 0 inactivityEpochs) as [_|]; [|lia].
      rewrite Nat.sub_diag. cbn [repeat]. rewrite app_nil_r. rewrite Hw.
      fold n. destruct n as [|n'] eqn:En; [lia|]. reflexivity. }
    assert (Hi : index (Validators state) 0
                 = Ok (mkValidator MAX_EFFECTIVE_BALANCE (inactivityEpochs * 4)))
      by (rewrite Hlist; reflexivity).
    rewrite (GetInactivityPenalty_value state 0 _ Hi).
    assert (Hf : FinalizedEpoch state
                 = U64.sub (U64.sub 1000 (U64.wrap inactivityEpochs)) 2).
    { subst state. unfold after_rounds. cbn [FinalizedEpoch].
      destruct (Z.ltb_spec 0 inactivityEpochs) as [_|]; [|lia].
      destruct (Nat.ltb_spec 0 (Z.to_nat validators)); [reflexivity|lia]. }
    assert (Hc : CurrentEpoch state = 1000) by reflexivity.
    assert (Hfork : CurrentFork state = ""%string) by reflexivity.
    rewrite Hf, Hc, Hfork.
    assert (Hleak : (1000 <=? U64.add (U64.sub (U64.sub 1000 (U64.wrap inactivityEpochs)) 2)
                                 MIN_ATTESTATION_INCLUSION_DELAY) = false).
    { apply Z.leb_gt.
      unfold U64.add, U64.sub, U64.wrap, MIN_ATTESTATION_INCLUSION_DELAY, U64.modulus.
      rewrite (Z.mod_small inactivityEpochs) by lia.
      rewrite Zminus_mod_idemp_l, Zplus_mod_idemp_l.
      replace (1000 - inactivityEpochs - 2 + 1) with (999 - inactivityEpochs) by lia.
      rewrite Z.mod_small by lia. lia. }
    rewrite Hleak. f_equal.
    cbn [mkValidator EffectiveBalance types.InactivityScore].
    change (InactivityPenaltyQuotient (GetForkConfig "")) with 33554432.
    unfold U64.mul, MAX_EFFECTIVE_BALANCE, INACTIVITY_SCORE_BIAS,
      INACTIVITY_PENALTY_QUOTIENT_BELLATRIX.
    rewrite wrap_small by (unfold U64.modulus; lia).
    replace (32000000000 * (inactivityEpochs * 4))
      with (4 * (32000000000 * inactivityEpochs)) by lia.
    rewrite Z.div_mul_cancel_l by lia. reflexivity.
Qed.

Lemma createNetworkState_inactivity_witness :
  exists state,
    main.createNetworkState 10 4096 = Returns state /\
    GetInactivityPenalty state 0 =
      Ok (MAX_EFFECTIVE_BALANCE * 10 / INACTIVITY_PENALTY_QUOTIENT_BELLATRIX).
Proof.
  destruct (createNetworkState_inactivity 10 4096) as (state & H1 & _ & H2);
    [lia|lia|].
  exists state. split; [exact H1|exact H2].
Defined.




(** ** The comparison across validator counts *)

Lemma comparison_state_value count :
  0 <= count ->
  calculator_comparison.comparison_state count
  = Returns (createNetworkState (Z.to_nat count)).
Proof.
  intros Hc.
  change (calculator_comparison.comparison_state count)
    with (main.createNetworkState 0 count).
  destruct (createNetworkState_fields 0 count Hc) as (state & Hr & _ & _ & _ & _ & _ & He).
  rewrite Hr, He by lia. reflexivity.
Qed.

Lemma createNetworkState_total (n : nat) :
  0 < Z.of_nat n <= 576460752 ->
  TotalActiveBalance (createNetworkState n) = Z.of_nat n * MAX_EFFECTIVE_BALANCE /\
  0 < TotalActiveBalance (createNetworkState n) < U64.modulus /\
  Validators (createNetworkState n) <> [].
Proof.
  intros Hn. unfold createNetworkState. cbn [TotalActiveBalance Validators].
  unfold U64.mul, MAX_EFFECTIVE_BALANCE.
  rewrite wrap_small by (unfold U64.modulus; lia).
  split; [reflexivity|]. split; [unfold U64.modulus; lia|].
  destruct n; [lia|discriminate].
Qed.

Lemma comparison_entry_value participation count :
  0 < count <= 576460752 ->
  exists rewards,
    CalculateRewards (createNetworkState (Z.to_nat count)) participation = Ok rewards /\
    calculator_comparison.comparison_entry participation count =
    Returns
      {| calculator_comparison.ValidatorCount := count;
         calculator_comparison.TotalStaked := 32 * count;
         calculator_comparison.BaseReward := BaseRewardPerEpoch rewards;
         calculator_comparison.AnnualRewards :=
           Float64.div (TotalAnnualRewards rewards) (Float64.of_Z 1000000000);
         calculator_comparison.APY := types.APY rewards;
         calculator_comparison.DailyRewards :=
           Float64.div (types.DailyRewards rewards) (Float64.of_Z 1000000000) |}.
Proof.
  intros Hc.
  destruct (createNetworkState_total (Z.to_nat count) ltac:(lia)) as (Ht & Hr & Hv).
  destruct (CalculateRewards_total _ participation Hv Hr) as [rewards Hrw].
  exists rewards. split; [exact Hrw|].
  unfold calculator_comparison.comparison_entry.
  rewrite comparison_state_value by lia. rewrite Hrw, Ht.
  rewrite Z2Nat.id by lia. unfold MAX_EFFECTIVE_BALANCE.
  replace (count * 32000000000) with (32 * count * 1000000000) by lia.
  rewrite Z.div_mul by lia. reflexivity.
Qed.

(** X17. For counts from 1 to 576460752 (the largest whose total balance
    fits in 64 bits), [ValidatorSetComparison] returns one entry per count,
    in the order given: the entry carries its count, a total stake of 32 per
    validator, and the base reward and yield [CalculateRewards] computes on
    the state of that many validators at the given rate. *)
Theorem ValidatorSetComparison_entries participation validatorCounts :
  Forall (fun count => 0 < count <= 576460752) validatorCounts ->
  exists results,
    calculator_comparison.ValidatorSetComparison participation validatorCounts
      = Returns results /\
    Forall2
      (fun count entry =>
         calculator_comparison.ValidatorCount entry = count /\
         calculator_comparison.TotalStaked entry = 32 * count /\
         exists rewards,
           CalculateRewards (createNetworkState (Z.to_nat count)) participation
             = Ok rewards /\
           calculator_comparison.BaseReward entry = BaseRewardPerEpoch rewards /\
           calculator_comparison.APY entry = types.APY rewards)
      validatorCounts results.
Proof.
  induction 1 as [|count rest Hc _ IH].
  - exists []. split; [reflexivity|constructor].
  - destruct IH as (results & Hr & Hall).
    destruct (comparison_entry_value participation count Hc) as (rewards & Hrw & He).
    eexists. split.
    + cbn [calculator_comparison.ValidatorSetComparison]. rewrite He, Hr. reflexivity.
    + constructor; [|exact Hall].
      cbn [calculator_comparison.ValidatorCount calculator_comparison.TotalStaked
           calculator_comparison.BaseReward calculator_comparison.APY].
      split; [reflexivity|]. split; [reflexivity|].
      exists rewards. split; [exact Hrw|]. split; reflexivity.
Qed.

Lemma ValidatorSetComparison_entries_witness :
  exists results,
    calculator_comparison.ValidatorSetComparison (Float64.lit 95 100) [4; 4096]
      = Returns results /\
    map calculator_comparison.ValidatorCount results = [4; 4096] /\
    map calculator_comparison.TotalStaked results = [128; 131072].
Proof.
  destruct (ValidatorSetComparison_entries (Float64.lit 95 100) [4; 4096])
    as (results & Hr & Hall).
  - repeat constructor; lia.
  - exists results. split; [exact Hr|].
    inversion Hall as [|c1 e1 l1 l1' (A1 & B1 & _) Hall1]; subst.
    inversion Hall1 as [|c2 e2 l2 l2' (A2 & B2 & _) Hall2]; subst.
    inversion Hall2; subst. cbn [map]. rewrite A1, B1, A2, B2. split; reflexivity.
Defined.

(** X18. [ValidatorSetComparison] does not return when a count is not
    positive. A negative count panics in [make]; a count of 0 builds a state
    without validators, on which [CalculateRewards] panics with an index out
    of range. Whenever the call returns, every count was positive and there
    are as many results as counts. *)
Theorem ValidatorSetComparison_nonpositive participation :
  (forall count rest, count < 0 ->
     calculator_comparison.ValidatorSetComparison participation (count :: rest)
       = MakeSliceLen) /\
  (forall rest,
     calculator_comparison.ValidatorSetComparison participation (0 :: rest)
       = Fails IndexOutOfRange) /\
  (forall validatorCounts results,
     calculator_comparison.ValidatorSetComparison participation validatorCounts
       = Returns results ->
     Forall (fun count => 0 < count) validatorCounts /\
     List.length results = List.length validatorCounts).
Proof.
  assert (Hneg : forall count, count < 0 ->
            calculator_comparison.comparison_entry participation count = MakeSliceLen).
  { intros count Hc.
    unfold calculator_comparison.comparison_entry, calculator_comparison.comparison_state,
      make_validators.
    destruct (Z.ltb_spec count 0); [reflexivity|lia]. }
  assert (Hzero : calculator_comparison.comparison_entry participation 0
                  = Fails IndexOutOfRange) by reflexivity.
  split; [|split].
  - intros count rest Hc. cbn [calculator_comparison.ValidatorSetComparison].
    rewrite (Hneg count Hc). reflexivity.
  - intros rest. cbn [calculator_comparison.ValidatorSetComparison].
    rewrite Hzero. reflexivity.
  - induction validatorCounts as [|count rest IH]; intros results Hr.
    + injection Hr as <-. split; [constructor|reflexivity].
    + cbn [calculator_comparison.ValidatorSetComparison] in Hr.
      destruct (calculator_comparison.comparison_entry participation count)
        as [entry|f|] eqn:He; try discriminate Hr.
      destruct (calculator_comparison.ValidatorSetComparison participation rest)
        as [results'|f|] eqn:Hrest; try discriminate Hr.
      injection Hr as <-. destruct (IH results' eq_refl) as [Hall Hlen].
      split; [|cbn [List.length]; rewrite Hlen; reflexivity].
      constructor; [|exact Hall].
      destruct (Z_lt_ge_dec count 0) as [Hn|Hn]; [rewrite Hneg in He by exact Hn; discriminate|].
      destruct (Z.eq_dec count 0) as [->|Hnz]; [rewrite Hzero in He; discriminate|lia].
Qed.


(** ** Number formatting of the front end *)

Lemma concat_cons x xs :
  String.concat "" (x :: xs) = (x ++ String.concat "" xs)%string.
Proof.
  destruct xs as [|y ys]; cbn [String.concat].
  - induction x as [|c x IH]; cbn [String.append]; [reflexivity|].
    rewrite <- IH. reflexivity.
  - reflexivity.
Qed.

Lemma digits_comma_free u :
  comma_free (DecimalString.NilEmpty.string_of_uint u) = true.
Proof.
  induction u; cbn [DecimalString.NilEmpty.string_of_uint comma_free];
    try reflexivity; exact IHu.
Qed.

Lemma FormatUint_comma_free n : comma_free (main.FormatUint n) = true.
Proof.
  unfold main.FormatUint, DecimalString.NilZero.string_of_uint.
  destruct (N.to_uint (Z.to_N n)); try apply digits_comma_free. reflexivity.
Qed.

Lemma strip_group len i str :
  comma_free str = true ->
  strip_commas (String.concat "" (main.group_digits len i str)) = str.
Proof.
  revert i. induction str as [|c str IH]; intros i Hf; [reflexivity|].
  cbn [comma_free] in Hf. apply andb_true_iff in Hf. destruct Hf as [Hc Hf].
  apply negb_true_iff in Hc.
  cbn [main.group_digits].
  destruct ((0 <? i)%nat && ((len - i) mod 3 =? 0)%nat);
    cbn [app]; rewrite !concat_cons; cbn [String.append strip_commas];
    try (change (Ascii.eqb comma comma) with true; cbv iota);
    rewrite Hc, IH by exact Hf; reflexivity.
Qed.

Lemma length_group len i str :
  (0 < i)%nat -> len = (i + String.length str)%nat ->
  String.length (String.concat "" (main.group_digits len i str))
  = (String.length str + String.length str / 3)%nat.
Proof.
  revert i. induction str as [|c str IH]; intros i Hi Hlen; [reflexivity|].
  cbn [String.length] in Hlen.
  cbn [main.group_digits].
  destruct (Nat.ltb_spec 0 i) as [_|]; [|lia]. cbn [andb].
  replace (len - i)%nat with (S (String.length str)) by lia.
  pose proof (IH (S i) ltac:(lia) ltac:(lia)) as IH'.
  destruct (Nat.eqb_spec (S (String.length str) mod 3) 0) as [Hm|Hm];
    cbn [app]; rewrite !concat_cons; cbn [String.append String.length];
    rewrite IH'.
  - pose proof (Nat.div_mod_eq (S (String.length str)) 3).
    pose proof (Nat.div_mod_eq (String.length str) 3).
    pose proof (Nat.mod_upper_bound (String.length str) 3 ltac:(lia)).
    lia.
  - pose proof (Nat.div_mod_eq (S (String.length str)) 3).
    pose proof (Nat.div_mod_eq (String.length str) 3).
    pose proof (Nat.mod_upper_bound (String.length str) 3 ltac:(lia)).
    pose proof (Nat.mod_upper_bound (S (String.length str)) 3 ltac:(lia)).
    lia.
Qed.

(** X19. [formatNumber] only inserts commas: dropping them gives back the
    decimal digits of the number, which read back as the number itself. A
    number of [d] digits gets [(d - 1) / 3] commas. *)
Theorem formatNumber_round_trip n :
  0 <= n ->
  strip_commas (main.formatNumber n) = main.FormatUint n /\
  (exists u,
     DecimalString.NilZero.uint_of_string (strip_commas (main.formatNumber n)) = Some u /\
     Z.of_N (N.of_uint u) = n) /\
  String.length (main.formatNumber n)
  = (String.length (main.FormatUint n)
     + (String.length (main.FormatUint n) - 1) / 3)%nat.
Proof.
  intros Hn.
  assert (Hs : strip_commas (main.formatNumber n) = main.FormatUint n).
  { unfold main.formatNumber. apply strip_group. apply FormatUint_comma_free. }
  split; [exact Hs|]. split.
  - rewrite Hs. unfold main.FormatUint. exists (N.to_uint (Z.to_N n)). split.
    + apply DecimalString.NilZero.usu.
      destruct (Z.to_N n); [discriminate|apply DecimalPos.Unsigned.to_uint_nonnil].
    + rewrite DecimalN.Unsigned.of_to. apply Z2N.id. exact Hn.
  - unfold main.formatNumber. cbv zeta.
    destruct (main.FormatUint n) as [|c str]; [reflexivity|].
    cbn [main.group_digits Nat.ltb Nat.leb andb app].
    rewrite concat_cons. cbn [String.append String.length].
    rewrite (length_group (S (String.length str)) 1 str) by lia.
    replace (S (String.length str) - 1)%nat with (String.length str) by lia.
    reflexivity.
Qed.

Lemma formatNumber_round_trip_witness :
  main.formatNumber 131072000000000 = "131,072,000,000,000"%string /\
  strip_commas (main.formatNumber 131072000000000) = main.FormatUint 131072000000000.
Proof.
  split; [vm_compute; reflexivity|].
  apply (formatNumber_round_trip 131072000000000). lia.
Defined.


(** ** The participation rate: checks and classifications *)

(** A rate below the critical threshold is below the leak threshold, for
    every binary64 value. *)
Lemma below_critical_below_leak p :
  Float64.ltb p threshold_critical = true -> Float64.ltb p threshold_leak = true.
Proof.
  destruct thresholds_finite as (E1 & E2 & _). rewrite E1, E2.
  unfold Float64.ltb, SFltb, SFcompare.
  destruct p as [s|s| |s m e]; try (destruct s; intros H; (discriminate H || reflexivity)).
  - intros H; discriminate H.
  - destruct s; [reflexivity|].
    destruct (Z.compare_spec e (-54)) as [He|He|He];
      destruct (Z.compare_spec e (-53)) as [He'|He'|He']; try lia;
      intros H; (discriminate H || reflexivity).
Qed.

Lemma CalculateRewards_warning s p r :
  CalculateRewards s p = Ok r ->
  NetworkHealthWarning r = networkHealthWarning p /\
  InactivityLeakActive r = Float64.ltb p threshold_leak.
Proof.
  intros H. split; rewards_fields H; reflexivity.
Qed.

(** X20. The network status printed by [compareParticipationRates] and the
    warning of [CalculateRewards] classify every rate the same way: the
    status is Healthy exactly when the warning is empty, critical exactly
    when the warning is the critical one, and likewise for the inactivity
    leak and the reduced security. *)
Theorem network_status_agrees s p :
  Validators s <> [] ->
  0 < TotalActiveBalance s < U64.modulus ->
  exists r,
    CalculateRewards s p = Ok r /\
    (main.network_status p = "Healthy"%string <-> NetworkHealthWarning r = ""%string) /\
    (main.network_status p = "CRITICAL - No finality"%string
     <-> NetworkHealthWarning r = warning_critical) /\
    (main.network_status p = "Inactivity leak active"%string
     <-> NetworkHealthWarning r = warning_leak) /\
    (main.network_status p = "Reduced security"%string
     <-> NetworkHealthWarning r = warning_caution).
Proof.
  intros Hne HT. destruct (CalculateRewards_total s p Hne HT) as [r H].
  exists r. split; [exact H|].
  destruct (CalculateRewards_warning s p r H) as [Hw _]. rewrite Hw.
  unfold main.network_status, networkHealthWarning.
  change (Float64.lit 3333 10000) with threshold_critical.
  change (Float64.lit 6667 10000) with threshold_leak.
  change (Float64.lit 8 10) with threshold_caution.
  destruct (Float64.ltb p threshold_critical);
    [|destruct (Float64.ltb p threshold_leak);
      [|destruct (Float64.ltb p threshold_caution)]];
    repeat split; intros X; (discriminate X || reflexivity).
Qed.

Lemma network_status_agrees_witness :
  exists r,
    CalculateRewards (createNetworkState 4) (Float64.lit 7 10) = Ok r /\
    main.network_status (Float64.lit 7 10) = "Reduced security"%string /\
    NetworkHealthWarning r = warning_caution.
Proof.
  destruct (network_status_agrees (createNetworkState 4) (Float64.lit 7 10))
    as (r & Hr & _ & _ & _ & Hc).
  - discriminate.
  - vm_compute. split; reflexivity.
  - exists r. split; [exact Hr|].
    assert (Hs : main.network_status (Float64.lit 7 10) = "Reduced security"%string)
      by (vm_compute; reflexivity).
    split; [exact Hs|]. apply Hc. exact Hs.
Defined.

(** X21. In the result of [CalculateRewards] the inactivity-leak flag and
    the warning agree for every rate, not-a-number included: the flag is set
    exactly when the warning is the critical one or the inactivity-leak
    one. *)
Theorem inactivity_leak_flag_agrees s p :
  Validators s <> [] ->
  0 < TotalActiveBalance s < U64.modulus ->
  exists r,
    CalculateRewards s p = Ok r /\
    (InactivityLeakActive r = true <->
     NetworkHealthWarning r = warning_critical \/ NetworkHealthWarning r = warning_leak).
Proof.
  intros Hne HT. destruct (CalculateRewards_total s p Hne HT) as [r H].
  exists r. split; [exact H|].
  destruct (CalculateRewards_warning s p r H) as [Hw Hl]. rewrite Hw, Hl.
  unfold networkHealthWarning.
  pose proof (below_critical_below_leak p) as Hb.
  destruct (Float64.ltb p threshold_critical);
    [rewrite Hb by reflexivity; split; [left; reflexivity|reflexivity]|].
  destruct (Float64.ltb p threshold_leak);
    [split; [right; reflexivity|reflexivity]|].
  destruct (Float64.ltb p threshold_caution);
    (split; [discriminate|intros [X|X]; discriminate X]).
Qed.

Lemma inactivity_leak_flag_agrees_witness :
  exists r,
    CalculateRewards (createNetworkState 4) S754_nan = Ok r /\
    InactivityLeakActive r = false /\ NetworkHealthWarning r = ""%string.
Proof.
  destruct (inactivity_leak_flag_agrees (createNetworkState 4) S754_nan)
    as (r & Hr & _).
  - discriminate.
  - vm_compute. split; reflexivity.
  - exists r. split; [exact Hr|].
    destruct (CalculateRewards_warning _ _ _ Hr) as [Hw Hl].
    rewrite Hw, Hl. split; reflexivity.
Defined.

(** ** The per-epoch part of [CalculateRewards] *)

(** X22. The per-epoch integers of [CalculateRewards] are those of the
    single-validator functions for validator 0: the base reward is
    [GetBaseReward]'s, the attestation reward per epoch is what
    [CalculateAttestationReward] gives for an attestation with the three
    duties done and no delay, and it is the sum of the source, target and
    head rewards. None of them, nor the square root, depends on the
    participation rate. *)
Theorem CalculateRewards_per_epoch s p p' :
  Validators s <> [] ->
  0 < TotalActiveBalance s < U64.modulus ->
  exists r r' b full,
    CalculateRewards s p = Ok r /\
    CalculateRewards s p' = Ok r' /\
    GetBaseReward s 0 = Ok b /\
    CalculateAttestationReward s 0 true true true MIN_ATTESTATION_INCLUSION_DELAY
      = Ok full /\
    BaseRewardPerEpoch r = b /\
    AttestationRewardPerEpoch r = full /\
    SourceReward r + TargetReward r + HeadReward r = full /\
    SqrtTotalBalance r = Z.sqrt (TotalActiveBalance s) /\
    BaseRewardPerEpoch r' = BaseRewardPerEpoch r /\
    SourceReward r' = SourceReward r /\
    TargetReward r' = TargetReward r /\
    HeadReward r' = HeadReward r /\
    AttestationRewardPerEpoch r' = AttestationRewardPerEpoch r /\
    SqrtTotalBalance r' = SqrtTotalBalance r.
Proof.
  intros Hne HT.
  destruct (Validators s) as [|v l] eqn:Hv; [contradiction|].
  assert (Hi : index (Validators s) 0 = Ok v) by (rewrite Hv; reflexivity).
  pose proof (GetBaseReward_value s 0 v Hi HT) as Hg.
  pose proof (GetBaseRewardPerIncrement_value s HT) as Hinc.
  set (b := U64.mul (EffectiveBalance v) BASE_REWARD_FACTOR
            / Z.sqrt (TotalActiveBalance s)) in *.
  assert (Hsum : U64.add (U64.add (component b TIMELY_SOURCE_WEIGHT)
                                  (component b TIMELY_TARGET_WEIGHT))
                         (component b TIMELY_HEAD_WEIGHT)
                 = duties b true true true).
  { pose proof (component_range b TIMELY_SOURCE_WEIGHT).
    pose proof (component_range b TIMELY_TARGET_WEIGHT).
    pose proof (component_range b TIMELY_HEAD_WEIGHT).
    unfold duties, U64.add.
    repeat match goal with
           | |- context [U64.wrap ?z] =>
               rewrite (wrap_small z) by (unfold U64.modulus; lia)
           end; lia. }
  assert (Hr : forall q, exists r,
             CalculateRewards s q = Ok r /\
             BaseRewardPerEpoch r = b /\
             SourceReward r = component b TIMELY_SOURCE_WEIGHT /\
             TargetReward r = component b TIMELY_TARGET_WEIGHT /\
             HeadReward r = component b TIMELY_HEAD_WEIGHT /\
             AttestationRewardPerEpoch r = duties b true true true /\
             SqrtTotalBalance r = Z.sqrt (TotalActiveBalance s)).
  { intros q. unfold CalculateRewards, CalculateAttestationInclusionReward.
    rewrite Hg, Hinc. rewrite IntegerSquareRoot_floor by (modulus; lia).
    cbn [bind]. eexists. split; [reflexivity|].
    cbn [BaseRewardPerEpoch SourceReward TargetReward HeadReward
         AttestationRewardPerEpoch SqrtTotalBalance].
    rewrite Hsum. repeat split; reflexivity. }
  destruct (Hr p) as (r & R0 & R1 & R2 & R3 & R4 & R5 & R6).
  destruct (Hr p') as (r' & R0' & R1' & R2' & R3' & R4' & R5' & R6').
  exists r, r', b, (duties b true true true).
  split; [exact R0|]. split; [exact R0'|]. split; [exact Hg|].
  split; [apply CalculateAttestationReward_ontime; [exact Hg|lia]|].
  rewrite R1, R2, R3, R4, R5, R6, R1', R2', R3', R4', R5', R6'.
  repeat split; reflexivity.
Qed.

Lemma CalculateRewards_per_epoch_witness :
  exists r r' b full,
    CalculateRewards (createNetworkState 4096) (Float64.lit 95 100) = Ok r /\
    CalculateRewards (createNetworkState 4096) (Float64.lit 1 2) = Ok r' /\
    GetBaseReward (createNetworkState 4096) 0 = Ok b /\
    CalculateAttestationReward (createNetworkState 4096) 0 true true true 1 = Ok full /\
    BaseRewardPerEpoch r = b /\
    AttestationRewardPerEpoch r = full /\
    AttestationRewardPerEpoch r' = AttestationRewardPerEpoch r.
Proof.
  destruct (CalculateRewards_per_epoch (createNetworkState 4096)
              (Float64.lit 95 100) (Float64.lit 1 2))
    as (r & r' & b & full & H1 & H2 & H3 & H4 & H5 & H6 & _ & _ & _ & _ & _ & _ & H7 & _).
  - discriminate.
  - vm_compute. split; reflexivity.
  - exists r, r', b, full. repeat split; assumption.
Defined.

(** ** Proposer and sync-committee rewards *)

(** X23. [CalculateProposerReward] panics with a division by zero on a
    total active balance of 0 and returns on every other. The reward per
    increment it multiplies by is at least 1 for every 64-bit total, so the
    proposer reward is never below the attesting balance counted in whole
    increments, and it does not decrease when the attesting balance grows
    (for products that fit in 64 bits). *)
Theorem CalculateProposerReward_outcome s attestingBalance attestingBalance' :
  0 <= TotalActiveBalance s < U64.modulus ->
  (TotalActiveBalance s = 0 ->
   calculator_rewards.CalculateProposerReward s attestingBalance = Panic DivideByZero) /\
  (0 < TotalActiveBalance s ->
   let perIncrement :=
     EFFECTIVE_BALANCE_INCREMENT * BASE_REWARD_FACTOR / Z.sqrt (TotalActiveBalance s)
     / PROPOSER_REWARD_QUOTIENT in
   1 <= perIncrement /\
   (0 <= attestingBalance <= attestingBalance' ->
    perIncrement * attestingBalance' < U64.modulus ->
    exists reward reward',
      calculator_rewards.CalculateProposerReward s attestingBalance = Ok reward /\
      calculator_rewards.CalculateProposerReward s attestingBalance' = Ok reward' /\
      reward = perIncrement * attestingBalance / EFFECTIVE_BALANCE_INCREMENT /\
      attestingBalance / EFFECTIVE_BALANCE_INCREMENT <= reward <= reward')).
Proof.
  intros HT. split.
  - intros H0. unfold calculator_rewards.CalculateProposerReward,
      GetBaseRewardPerIncrement. rewrite H0. reflexivity.
  - intros Hpos perIncrement.
    pose proof (GetBaseRewardPerIncrement_value s ltac:(lia)) as Hinc.
    pose proof (sqrt_pos _ Hpos) as Hk.
    pose proof (Z.sqrt_spec (TotalActiveBalance s) ltac:(lia)) as Hs. cbv zeta in Hs.
    assert (Hk32 : Z.sqrt (TotalActiveBalance s) < 2 ^ 32) by (unfold U64.modulus in HT; nia).
    assert (Hq : 1 <= perIncrement).
    { subst perIncrement.
      unfold EFFECTIVE_BALANCE_INCREMENT, BASE_REWARD_FACTOR, PROPOSER_REWARD_QUOTIENT.
      apply Z.div_le_lower_bound; [lia|].
      apply Z.div_le_lower_bound; lia. }
    split; [exact Hq|]. intros Hab Hfit.
    assert (Hv : forall a, 0 <= a <= attestingBalance' ->
              calculator_rewards.CalculateProposerReward s a
              = Ok (perIncrement * a / EFFECTIVE_BALANCE_INCREMENT)).
    { intros a Ha. unfold calculator_rewards.CalculateProposerReward.
      rewrite Hinc. cbn [bind]. fold perIncrement.
      unfold U64.mul. rewrite wrap_small by nia. reflexivity. }
    eexists _, _. split; [apply Hv; lia|]. split; [apply Hv; lia|].
    split; [reflexivity|]. unfold EFFECTIVE_BALANCE_INCREMENT. split.
    + apply Z.div_le_mono; [lia|nia].
    + apply Z.div_le_mono; [lia|nia].
Qed.

Lemma CalculateProposerReward_outcome_witness :
  exists reward reward',
    calculator_rewards.CalculateProposerReward (createNetworkState 4096)
      (2048 * MAX_EFFECTIVE_BALANCE) = Ok reward /\
    calculator_rewards.CalculateProposerReward (createNetworkState 4096)
      (4096 * MAX_EFFECTIVE_BALANCE) = Ok reward' /\
    2048 * MAX_EFFECTIVE_BALANCE / EFFECTIVE_BALANCE_INCREMENT <= reward <= reward'.
Proof.
  destruct (CalculateProposerReward_outcome (createNetworkState 4096)
              (2048 * MAX_EFFECTIVE_BALANCE) (4096 * MAX_EFFECTIVE_BALANCE))
    as (_ & H).
  - vm_compute. split; [discriminate|reflexivity].
  - destruct H as (_ & H); [vm_compute; reflexivity|].
    destruct H as (reward & reward' & H1 & H2 & _ & H3).
    + vm_compute. split; discriminate.
    + vm_compute. reflexivity.
    + exists reward, reward'. repeat split; try assumption; apply H3.
Defined.

(** X24. [CalculateSyncCommitteeReward] fails exactly when [GetBaseReward]
    fails for validator 0, with the same panic. When it returns, the reward
    is proportional to the number of participants: nothing for none, and for
    [k] participants [k] times the reward of one, as long as the product
    fits in 64 bits. *)
Theorem CalculateSyncCommitteeReward_linear s :
  (forall f, GetBaseReward s 0 = Panic f ->
     forall k, calculator_rewards.CalculateSyncCommitteeReward s k = Panic f) /\
  (forall b, GetBaseReward s 0 = Ok b ->
     exists one,
       calculator_rewards.CalculateSyncCommitteeReward s 1 = Ok one /\
       0 <= one < U64.modulus /\
       calculator_rewards.CalculateSyncCommitteeReward s 0 = Ok 0 /\
       forall k, 0 <= k -> one * k < U64.modulus ->
         calculator_rewards.CalculateSyncCommitteeReward s k = Ok (one * k)).
Proof.
  split.
  - intros f Hf k. unfold calculator_rewards.CalculateSyncCommitteeReward.
    rewrite Hf. reflexivity.
  - intros b Hb. unfold calculator_rewards.CalculateSyncCommitteeReward.
    rewrite Hb. cbn [bind]. cbv zeta.
    set (per := U64.mul (U64.mul b (TotalActiveBalance s / EFFECTIVE_BALANCE_INCREMENT))
                  SYNC_REWARD_WEIGHT
                / WEIGHT_DENOMINATOR / SLOTS_PER_EPOCH / limits.SYNC_COMMITTEE_SIZE).
    assert (Hper : 0 <= per < U64.modulus).
    { subst per. unfold WEIGHT_DENOMINATOR, SLOTS_PER_EPOCH, limits.SYNC_COMMITTEE_SIZE.
      set (x := U64.mul _ SYNC_REWARD_WEIGHT).
      assert (Hx : 0 <= x < U64.modulus) by (subst x; unfold U64.mul; auto with u64).
      rewrite !Z.div_div by lia. split; [apply Z.div_pos; lia|].
      apply Z.div_lt_upper_bound; lia. }
    exists per.
    assert (H1 : U64.mul per (U64.wrap 1) = per).
    { unfold U64.mul. rewrite (wrap_small 1) by (unfold U64.modulus; lia).
      rewrite Z.mul_1_r. apply wrap_small. exact Hper. }
    rewrite H1. split; [reflexivity|]. split; [exact Hper|]. split.
    + unfold U64.mul. rewrite (wrap_small 0) by (unfold U64.modulus; lia).
      rewrite Z.mul_0_r. reflexivity.
    + intros k Hk Hfit. f_equal. unfold U64.mul.
      destruct (Z.eq_dec per 0) as [E|E].
      * rewrite E, !Z.mul_0_l. reflexivity.
      * rewrite (wrap_small k) by nia. apply wrap_small. nia.
Qed.


(** ** The impact level of a slashing *)

Lemma impact_thresholds :
  Float64.lit 1 10 = S754_finite false 7205759403792794 (-56) /\
  Float64.of_Z 1 = S754_finite false 4503599627370496 (-52) /\
  Float64.of_Z 5 = S754_finite false 5629499534213120 (-50) /\
  Float64.of_Z 10 = S754_finite false 5629499534213120 (-49) /\
  Float64.lit 333 10 = S754_finite false 4686558362232422 (-47).
Proof. repeat split; vm_compute; reflexivity. Qed.

(** X25. [getSecurityImpactLevel] cuts the percentages into six bands at the
    binary64 values of 0.1, 1, 5, 10 and 33.3, the comparison being that of
    the exact values: a positive finite percentage is Minimal below 0.1, Low
    from 0.1 to below 1, Moderate from 1 to below 5, High from 5 to below 10,
    Critical from 10 to below 33.3 and Catastrophic from 33.3 on. Zero and
    every negative value are Minimal; positive infinity and not-a-number are
    Catastrophic. *)
Theorem getSecurityImpactLevel_bands p :
  let level := calculator_penalties.getSecurityImpactLevel p in
  match p with
  | S754_nan | S754_infinity false => level = "Catastrophic"%string
  | S754_zero _ | S754_infinity true | S754_finite true _ _ => level = "Minimal"%string
  | S754_finite false m e =>
      valid_binary Float64.prec Float64.emax p = true ->
      let v := Float64.scaled_value p in
      let one := Float64.scaled_one in
      let tenth := Float64.scaled_value (Float64.lit 1 10) in
      let third := Float64.scaled_value (Float64.lit 333 10) in
      (v < tenth -> level = "Minimal"%string) /\
      (tenth <= v < one -> level = "Low"%string) /\
      (one <= v < 5 * one -> level = "Moderate"%string) /\
      (5 * one <= v < 10 * one -> level = "High"%string) /\
      (10 * one <= v < third -> level = "Critical"%string) /\
      (third <= v -> level = "Catastrophic"%string)
  end.
Proof.
  cbv zeta. unfold calculator_penalties.getSecurityImpactLevel.
  destruct impact_thresholds as (E1 & E2 & E3 & E4 & E5).
  destruct p as [s|s| |s m e].
  - rewrite E1. reflexivity.
  - rewrite E1, E2, E3, E4, E5. destruct s; reflexivity.
  - rewrite E1, E2, E3, E4, E5. reflexivity.
  - destruct s; [rewrite E1; reflexivity|].
    intros Hvalid.
    pose proof (ltb_exact m e 7205759403792794 (-56) Hvalid eq_refl) as L1.
    pose proof (ltb_exact m e 4503599627370496 (-52) Hvalid eq_refl) as L2.
    pose proof (ltb_exact m e 5629499534213120 (-50) Hvalid eq_refl) as L3.
    pose proof (ltb_exact m e 5629499534213120 (-49) Hvalid eq_refl) as L4.
    pose proof (ltb_exact m e 4686558362232422 (-47) Hvalid eq_refl) as L5.
    rewrite <- E1 in L1. rewrite <- E2 in L2. rewrite <- E3 in L3.
    rewrite <- E4 in L4. rewrite <- E5 in L5.
    assert (V2 : Float64.scaled_value (Float64.of_Z 1) = Float64.scaled_one)
      by (vm_compute; reflexivity).
    assert (V3 : Float64.scaled_value (Float64.of_Z 5) = 5 * Float64.scaled_one)
      by (vm_compute; reflexivity).
    assert (V4 : Float64.scaled_value (Float64.of_Z 10) = 10 * Float64.scaled_one)
      by (vm_compute; reflexivity).
    assert (O1 : Float64.scaled_value (Float64.lit 1 10) < Float64.scaled_one)
      by (vm_compute; reflexivity).
    assert (O5 : 10 * Float64.scaled_one < Float64.scaled_value (Float64.lit 333 10))
      by (vm_compute; reflexivity).
    assert (P1 : 0 < Float64.scaled_one) by (vm_compute; reflexivity).
    rewrite V2 in L2. rewrite V3 in L3. rewrite V4 in L4.
    set (v := Float64.scaled_value (S754_finite false m e)) in *.
    set (one := Float64.scaled_one) in *.
    set (tenth := Float64.scaled_value (Float64.lit 1 10)) in *.
    set (third := Float64.scaled_value (Float64.lit 333 10)) in *.
    clearbody v one tenth third.
    destruct (Float64.ltb _ (Float64.lit 1 10)) eqn:B1;
      destruct (Float64.ltb _ (Float64.of_Z 1)) eqn:B2;
      destruct (Float64.ltb _ (Float64.of_Z 5)) eqn:B3;
      destruct (Float64.ltb _ (Float64.of_Z 10)) eqn:B4;
      destruct (Float64.ltb _ (Float64.lit 333 10)) eqn:B5;
      repeat match goal with
             | L : true = true <-> _ |- _ =>
                 let T := fresh "T" in pose proof (proj1 L eq_refl) as T; clear L
             | L : false = true <-> ?P |- _ =>
                 let T := fresh "T" in
                 assert (T : ~ P) by (intro X; apply L in X; discriminate X); clear L
             end;
      repeat split; intros; try reflexivity; exfalso; lia.
Qed.

Lemma getSecurityImpactLevel_bands_witness :
  calculator_penalties.getSecurityImpactLevel (Float64.lit 25 10) = "Moderate"%string.
Proof.
  pose proof (getSecurityImpactLevel_bands (Float64.lit 25 10)) as H.
  assert (E : Float64.lit 25 10 = S754_finite false 5629499534213120 (-51))
    by (vm_compute; reflexivity).
  rewrite E in H. cbv zeta in H.
  destruct (H eq_refl) as (_ & _ & H3 & _).
  rewrite E. apply H3. vm_compute. split; [discriminate|reflexivity].
Defined.

(** ** The participation check of the command line *)

(** X26. The check of [main] on the participation rate rejects every
    negative value and every value above 1, the infinities included, and
    accepts exactly the rest: zero of either sign, every positive finite
    value up to 1, and not-a-number, which no comparison catches. *)
Theorem participation_check p :
  match p with
  | S754_nan | S754_zero _ => main.participation_rejected p = false
  | S754_infinity _ | S754_finite true _ _ => main.participation_rejected p = true
  | S754_finite false m e =>
      valid_binary Float64.prec Float64.emax p = true ->
      (main.participation_rejected p = true
       <-> Float64.scaled_one < Float64.scaled_value p)
  end.
Proof.
  unfold main.participation_rejected.
  assert (E0 : Float64.of_Z 0 = S754_zero false) by reflexivity.
  assert (E1 : Float64.of_Z 1 = S754_finite false 4503599627370496 (-52))
    by (vm_compute; reflexivity).
  destruct p as [s|s| |s m e].
  - rewrite E0, E1. destruct s; reflexivity.
  - rewrite E0, E1. destruct s; reflexivity.
  - reflexivity.
  - destruct s; [rewrite E0; reflexivity|].
    intros Hvalid.
    pose proof (ltb_exact 4503599627370496 (-52) m e eq_refl Hvalid) as L.
    rewrite <- E1 in L.
    assert (V : Float64.scaled_value (Float64.of_Z 1) = Float64.scaled_one)
      by (vm_compute; reflexivity).
    rewrite V in L. rewrite <- L.
    assert (Hz : Float64.ltb (S754_finite false m e) (Float64.of_Z 0) = false)
      by (rewrite E0; reflexivity).
    rewrite Hz. cbn [orb]. reflexivity.
Qed.

Lemma participation_check_witness :
  main.participation_rejected (Float64.lit 3 2) = true /\
  main.participation_rejected (Float64.of_Z 1) = false.
Proof.
  pose proof (participation_check (Float64.lit 3 2)) as H.
  pose proof (participation_check (Float64.of_Z 1)) as H1.
  assert (E : Float64.lit 3 2 = S754_finite false 6755399441055744 (-52))
    by (vm_compute; reflexivity).
  assert (E1 : Float64.of_Z 1 = S754_finite false 4503599627370496 (-52))
    by (vm_compute; reflexivity).
  rewrite E in H. rewrite E1 in H1. rewrite E, E1.
  split.
  - apply (H eq_refl). vm_compute. reflexivity.
  - apply not_true_is_false. intro B.
    apply (H1 eq_refl) in B. vm_compute in B. discriminate B.
Defined.

(** ** The stand-alone calculator of pkg/rewards *)

Lemma CalculateBaseReward_capped c effectiveBalance :
  rewards.MAX_EFFECTIVE_BALANCE <= effectiveBalance ->
  rewards.CalculateBaseReward c effectiveBalance
  = rewards.CalculateBaseReward c rewards.MAX_EFFECTIVE_BALANCE.
Proof.
  intros Hb. unfold rewards.CalculateBaseReward. rewrite Z.ltb_irrefl.
  destruct (Z.ltb_spec rewards.MAX_EFFECTIVE_BALANCE effectiveBalance); [reflexivity|].
  replace effectiveBalance with rewards.MAX_EFFECTIVE_BALANCE by lia. reflexivity.
Qed.

(** X27. Every integer reward of the stand-alone calculator goes through the
    cap of [CalculateBaseReward]: an effective balance above
    [MAX_EFFECTIVE_BALANCE] gets the attestation, proposer, sync-committee
    and annual rewards of [MAX_EFFECTIVE_BALANCE] itself, whatever the
    weights of the package are. Each of them fails exactly as
    [CalculateBaseReward] fails. *)
Theorem rewards_methods_capped
    (source target head sync proposer denominator epochs slots : Z)
    (c : rewards.Calculator) (effectiveBalance : Z) (proposerProbability : Float64.float64) :
  rewards.MAX_EFFECTIVE_BALANCE <= effectiveBalance ->
  rewards_methods.CalculateMaxAttestationReward source target head denominator
      c effectiveBalance
    = rewards_methods.CalculateMaxAttestationReward source target head denominator
        c rewards.MAX_EFFECTIVE_BALANCE /\
  rewards_methods.CalculateProposerReward proposer denominator c effectiveBalance
    = rewards_methods.CalculateProposerReward proposer denominator
        c rewards.MAX_EFFECTIVE_BALANCE /\
  rewards_methods.CalculateSyncCommitteeReward sync denominator c effectiveBalance
    = rewards_methods.CalculateSyncCommitteeReward sync denominator
        c rewards.MAX_EFFECTIVE_BALANCE /\
  rewards_methods.CalculateAnnualReward source target head proposer denominator
      epochs slots c effectiveBalance proposerProbability
    = rewards_methods.CalculateAnnualReward source target head proposer denominator
        epochs slots c rewards.MAX_EFFECTIVE_BALANCE proposerProbability /\
  (forall f, rewards.CalculateBaseReward c effectiveBalance = Panic f ->
     rewards_methods.CalculateMaxAttestationReward source target head denominator
       c effectiveBalance = Panic f /\
     rewards_methods.CalculateProposerReward proposer denominator c effectiveBalance
       = Panic f /\
     rewards_methods.CalculateSyncCommitteeReward sync denominator c effectiveBalance
       = Panic f /\
     rewards_methods.CalculateAnnualReward source target head proposer denominator
       epochs slots c effectiveBalance proposerProbability = Panic f).
Proof.
  intros Hb. pose proof (CalculateBaseReward_capped c effectiveBalance Hb) as Hc.
  unfold rewards_methods.CalculateAnnualReward,
    rewards_methods.CalculateMaxAttestationReward,
    rewards_methods.CalculateProposerReward,
    rewards_methods.CalculateSyncCommitteeReward.
  rewrite Hc. repeat split; try reflexivity; rewrite H; reflexivity.
Qed.

Lemma rewards_methods_capped_witness :
  rewards_methods.CalculateMaxAttestationReward 14 26 14 64
      {| rewards.BaseRewardFactor := 64;
         rewards.TotalActiveBalance := 4096 * rewards.MAX_EFFECTIVE_BALANCE |}
      (2 * rewards.MAX_EFFECTIVE_BALANCE)
    = rewards_methods.CalculateMaxAttestationReward 14 26 14 64
        {| rewards.BaseRewardFactor := 64;
           rewards.TotalActiveBalance := 4096 * rewards.MAX_EFFECTIVE_BALANCE |}
        rewards.MAX_EFFECTIVE_BALANCE.
Proof.
  apply (rewards_methods_capped 14 26 14 2 8 64 82180 32
           {| rewards.BaseRewardFactor := 64;
              rewards.TotalActiveBalance := 4096 * rewards.MAX_EFFECTIVE_BALANCE |}
           (2 * rewards.MAX_EFFECTIVE_BALANCE) (Float64.lit 1 4096)).
  vm_compute. discriminate.
Defined.
